(** * django-cruder: a shallow embedding of the permission gate, the
    field-type resolver, the list renderer and the form renderer, and the
    properties the specification states about them.

    Source files embedded here:
    - [views.py]                       ([CRUDView.has_crud_permission],
                                        [list_view], [detail_view])
    - [forms.py]                       ([get_field_type], [render_form])
    - [cruder/templates.py]            ([render_list])
    - [cruder/frameworks/bootstrap.py] ([BootstrapFramework])
    - [frameworks/bulma.py]            ([BulmaFramework])
    - [frameworks/__init__.py]         ([get_framework])
    - [urls.py]                        ([crud_urlpatterns])

    Python dictionaries are [gmap]s with string keys, Python lists are
    lists, Python strings are [string]s, and code that can raise runs in a
    small exception monad. Where the code hands over to Django or to a
    method of [str] whose answer is only described for part of its inputs
    (the ORM on names that are no plain column, letter case and digits
    outside ASCII), the embedded function returns an [option], and [None]
    says that the answer is left open. *)

From Stdlib Require Import ZArith Lia.
From Stdlib Require Ascii String.
From stdpp Require Import base option list gmap strings pretty.

Local Open Scope Z_scope.

(** ** Python runtime *)

Module Py.

(** Exceptions the embedded code can meet. *)
Inductive exn :=
| AttributeError
| KeyError
| FieldError
| PageNotAnInteger
| EmptyPage
| Exception.

(** A computation that returns or raises. *)
Inductive result (A : Type) :=
| Ok (a : A)
| Raise (e : exn).
Arguments Ok {A} a.
Arguments Raise {A} e.

#[global] Instance result_ret : MRet result := fun A a => Ok a.

#[global] Instance result_bind : MBind result := fun A B k m =>
  match m with
  | Ok a => k a
  | Raise e => Raise e
  end.

(** [try: m except: h] is a bare [try ... except:] block. *)
Definition try_except {A} (m : result A) (h : exn → result A) : result A :=
  match m with
  | Ok a => Ok a
  | Raise e => h e
  end.

(** A date, a time of day and a timestamp, as [datetime.date],
    [datetime.time] and [datetime.datetime] hold them. *)
Record date := { year : Z; month : Z; day : Z }.
Record time := { hour : Z; minute : Z; second : Z }.

(** The values a model attribute can hold. [VObj s] is any other object;
    [s] is what [str] returns for it, or [None] when its [__str__] raises. *)
Inductive value :=
| VNone
| VBool (b : bool)
| VInt (n : Z)
| VStr (s : string)
| VDate (d : date)
| VTime (t : time)
| VDateTime (d : date) (t : time)
| VObj (s : option string).

(** Truthiness, as [if v], [v or d] and [not v] test it. *)
Definition truthy (v : value) : bool :=
  match v with
  | VNone => false
  | VBool b => b
  | VInt n => negb (n =? 0)
  | VStr s => negb (String.eqb s "")
  | VDate _ | VTime _ | VDateTime _ _ => true
  | VObj _ => true
  end.

(** [v or d] *)
Definition or_else (v d : value) : value := if truthy v then v else d.

(** Decimal digits of a number, padded with zeros on the left to [w]
    characters, as the [%m], [%d], [%H], [%M] and [%S] directives print. *)
Fixpoint zeros (k : nat) : string :=
  match k with
  | O => ""
  | S k' => "0" +:+ zeros k'
  end.

Definition zpad (w : nat) (n : Z) : string :=
  let s := pretty n in
  zeros (w - String.length s)%nat +:+ s.

(** [d.isoformat()], which [str] prints for a date: the year has four
    digits. *)
Definition fmt_date (d : date) : string :=
  zpad 4 (year d) +:+ "-" +:+ zpad 2 (month d) +:+ "-" +:+ zpad 2 (day d).

Definition fmt_hm (t : time) : string :=
  zpad 2 (hour t) +:+ ":" +:+ zpad 2 (minute t).

Definition fmt_hms (t : time) : string :=
  fmt_hm t +:+ ":" +:+ zpad 2 (second t).

(** [d.strftime('%Y-%m-%d')]. The year is printed by the C library; it
    is written here as glibc prints it, without padding. For the years
    below 1000 other libraries, and later versions of Python, pad it to
    four digits; from 1000 on all agree. *)
Definition strftime_ymd (d : date) : string :=
  pretty (year d) +:+ "-" +:+ zpad 2 (month d) +:+ "-" +:+ zpad 2 (day d).

(** [hasattr(v, 'strftime')]: dates, times of day and timestamps have the
    method. *)
Definition has_strftime (v : value) : bool :=
  match v with
  | VDate _ | VTime _ | VDateTime _ _ => true
  | _ => false
  end.

Definition midnight : time := {| hour := 0; minute := 0; second := 0 |}.
Definition epoch_1900 : date := {| year := 1900; month := 1; day := 1 |}.

(** [v.strftime('%Y-%m-%d %H:%M')]. A bare date prints midnight, a bare
    time of day prints the date 1900-01-01; a value without the method
    raises [AttributeError]. *)
Definition strftime_ymd_hm (v : value) : result string :=
  match v with
  | VDateTime d t => Ok (strftime_ymd d +:+ " " +:+ fmt_hm t)
  | VDate d => Ok (strftime_ymd d +:+ " " +:+ fmt_hm midnight)
  | VTime t => Ok (strftime_ymd epoch_1900 +:+ " " +:+ fmt_hm t)
  | _ => Raise AttributeError
  end.

(** [isinstance(v, bool)] *)
Definition is_bool (v : value) : bool :=
  match v with
  | VBool _ => true
  | _ => false
  end.

(** [v is None] *)
Definition is_none (v : value) : bool :=
  match v with
  | VNone => true
  | _ => false
  end.

(** [str(v)], also what an f-string prints for [{v}]. *)
Definition str (v : value) : result string :=
  match v with
  | VNone => Ok "None"
  | VBool true => Ok "True"
  | VBool false => Ok "False"
  | VInt n => Ok (pretty n)
  | VStr s => Ok s
  | VDate d => Ok (fmt_date d)
  | VTime t => Ok (fmt_hms t)
  | VDateTime d t => Ok (fmt_date d +:+ " " +:+ fmt_hms t)
  | VObj (Some s) => Ok s
  | VObj None => Raise Exception
  end.

(** An attribute of an object: a stored value, or a property whose getter
    raises [e]. An attribute that is not in the map does not exist. *)
Inductive attr :=
| Attr (v : value)
| Raising (e : exn).

(** An object is its attribute dictionary. *)
Abbreviation object := (gmap string attr).

(** [getattr(obj, name)] *)
Definition getattr (obj : object) (name : string) : result value :=
  match obj !! name with
  | Some (Attr v) => Ok v
  | Some (Raising e) => Raise e
  | None => Raise AttributeError
  end.

(** [getattr(obj, name, default)]: only [AttributeError] is replaced by
    the default. *)
Definition getattr_default (obj : object) (name : string) (d : value)
  : result value :=
  match getattr obj name with
  | Raise AttributeError => Ok d
  | r => r
  end.

(** [x in l] on a list of strings. *)
Definition in_list (x : string) (l : list string) : bool :=
  bool_decide (x ∈ l).

(** [bool(d)] for a dictionary (or [None]): empty and [None] are false. *)
Definition dict_truthy {V} (d : option (gmap string V)) : bool :=
  match d with
  | None => false
  | Some m => negb (bool_decide (dom m = ∅))
  end.

(** [bool(l)] for a list. *)
Definition list_truthy {A} (l : list A) : bool :=
  match l with
  | [] => false
  | _ => true
  end.

End Py.

(** ** Strings *)

Module Str.

(** The double quote character, for HTML attribute values. *)
Definition dq : string :=
  String (Ascii.Ascii false true false false false true false false) "".

(** [qt s] is [s] between double quotes. *)
Definition qt (s : string) : string := dq +:+ s +:+ dq.

(** The text holds ASCII characters only. A [string] is a sequence of
    bytes; where a method of Python's [str] or the database looks at what
    a character is (a digit, a letter and its case), the embedding
    describes it for ASCII text and leaves the rest open. *)
Definition is_ascii_char (c : Ascii.ascii) : bool :=
  (Ascii.N_of_ascii c <? 128)%N.

Fixpoint is_ascii (s : string) : bool :=
  match s with
  | EmptyString => true
  | String c s' => is_ascii_char c && is_ascii s'
  end.

Definition is_upper (c : Ascii.ascii) : bool :=
  let n := Ascii.N_of_ascii c in ((65 <=? n) && (n <=? 90))%N.

Definition is_lower (c : Ascii.ascii) : bool :=
  let n := Ascii.N_of_ascii c in ((97 <=? n) && (n <=? 122))%N.

Definition to_lower (c : Ascii.ascii) : Ascii.ascii :=
  if is_upper c then Ascii.ascii_of_N (Ascii.N_of_ascii c + 32) else c.

Definition to_upper (c : Ascii.ascii) : Ascii.ascii :=
  if is_lower c then Ascii.ascii_of_N (Ascii.N_of_ascii c - 32) else c.

(** [s.lower()] and [s.upper()] on ASCII text. *)
Fixpoint lower (s : string) : string :=
  match s with
  | EmptyString => EmptyString
  | String c s' => String (to_lower c) (lower s')
  end.

Fixpoint upper (s : string) : string :=
  match s with
  | EmptyString => EmptyString
  | String c s' => String (to_upper c) (upper s')
  end.

(** [s.title()]: a letter that follows a letter is lowered, any other
    letter is raised. *)
Fixpoint title_from (after_letter : bool) (s : string) : string :=
  match s with
  | EmptyString => EmptyString
  | String c s' =>
      let letter := is_upper c || is_lower c in
      String (if after_letter then to_lower c else to_upper c)
             (title_from letter s')
  end.

Definition title (s : string) : string := title_from false s.

(** [s.replace('_', ' ')] *)
Fixpoint underscores_to_spaces (s : string) : string :=
  match s with
  | EmptyString => EmptyString
  | String c s' =>
      String (if Ascii.eqb c (Ascii.ascii_of_N 95)
              then Ascii.ascii_of_N 32 else c)
             (underscores_to_spaces s')
  end.

(** [capfirst] of [django.utils.text]. *)
Definition capfirst (s : string) : string :=
  match s with
  | EmptyString => EmptyString
  | String c s' => String (to_upper c) s'
  end.

(** [s.startswith(p)] *)
Fixpoint startswith (p s : string) : bool :=
  match p, s with
  | EmptyString, _ => true
  | String a p', String b s' => Ascii.eqb a b && startswith p' s'
  | String _ _, EmptyString => false
  end.

(** [needle in hay] *)
Fixpoint contains (needle hay : string) : bool :=
  startswith needle hay ||
  match hay with
  | EmptyString => false
  | String _ hay' => contains needle hay'
  end.

(** [s.endswith(p)] *)
Definition endswith (p s : string) : bool :=
  startswith (String.rev p) (String.rev s).

(** [sep.join(l)] *)
Fixpoint join (sep : string) (l : list string) : string :=
  match l with
  | [] => ""
  | [x] => x
  | x :: rest => x +:+ sep +:+ join sep rest
  end.

(** [''.join(l)] *)
Definition concat (l : list string) : string := foldr String.append "" l.

End Str.

(** ** The host framework: what the embedded code uses of Django *)

Module Django.

(** *** Model field classes

    The field classes of [django.db.models] and their base classes, as
    the framework declares them ([class EmailField(CharField)],
    [class DateTimeField(DateField)], ...). Mixins and the abstract
    relation classes between [Field] and [ForeignKey]/[ManyToManyField]
    carry no entry of the type table and are left out. [ManyToOneRel]
    stands for the reverse relations that [_meta.get_fields()] lists
    besides the fields; it derives from no field class. *)
Inductive builtin :=
| Field
| CharField | TextField | EmailField | URLField | SlugField
| IntegerField | BigIntegerField | SmallIntegerField
| PositiveIntegerField | PositiveBigIntegerField | PositiveSmallIntegerField
| AutoField | BigAutoField | SmallAutoField
| FloatField | DecimalField
| BooleanField | NullBooleanField
| DateField | DateTimeField | TimeField | DurationField
| FileField | ImageField | FilePathField
| BinaryField | UUIDField | GenericIPAddressField | JSONField
| ForeignKey | OneToOneField | ManyToManyField
| ManyToOneRel.

#[global] Instance builtin_eq_dec : EqDecision builtin.
Proof. solve_decision. Defined.

(** The direct base class; [Field] is the root of the field classes. *)
Definition builtin_base (b : builtin) : option builtin :=
  match b with
  | Field | ManyToOneRel => None
  | EmailField | URLField | SlugField => Some CharField
  | BigIntegerField | SmallIntegerField | PositiveIntegerField
  | AutoField => Some IntegerField
  | PositiveBigIntegerField | BigAutoField => Some BigIntegerField
  | PositiveSmallIntegerField | SmallAutoField => Some SmallIntegerField
  | NullBooleanField => Some BooleanField
  | DateTimeField => Some DateField
  | ImageField => Some FileField
  | OneToOneField => Some ForeignKey
  | _ => Some Field
  end.

(** A class and its ancestors, nearest first. No chain is longer than
    four classes. *)
Fixpoint ancestors (fuel : nat) (b : builtin) : list builtin :=
  b :: match fuel, builtin_base b with
       | S fuel', Some p => ancestors fuel' p
       | _, _ => []
       end.

Definition builtin_mro (b : builtin) : list builtin := ancestors 4 b.

(** A field class: one of the framework's, or a class a project derives
    from another field class. *)
Inductive class :=
| Builtin (b : builtin)
| Subclass (name : string) (base : class).

(** [issubclass(c, k)] for a framework class [k]. *)
Fixpoint issubclass (c : class) (k : builtin) : bool :=
  match c with
  | Builtin b => bool_decide (k ∈ builtin_mro b)
  | Subclass _ base => issubclass base k
  end.

(** A model field, or a reverse relation listed by [_meta.get_fields()]:
    the attributes the renderers read. [choices] is [None] or the list of
    (value, label) pairs; [verbose_name] is [None] where the object has no
    such attribute. *)
Record ModelField := {
  name : string;
  cls : class;
  choices : option (list (Py.value * string));
  verbose_name : option string;
  help_text : string;
  blank : bool;
  editable : bool
}.

(** [isinstance(model_field, k)] *)
Definition isinstance (f : ModelField) (k : builtin) : bool :=
  issubclass (cls f) k.

(** *** Models, query sets and [Q] objects *)

(** A model class: the fields of [_meta.get_fields()], the plural display
    name, and the rows [objects.all()] returns. *)
Record Model := {
  meta_fields : list ModelField;
  verbose_name_plural : string;
  objects_all : list Py.object
}.

(** [model_class._meta.get_field(field_name)]; the framework raises
    [FieldDoesNotExist], a subclass of [Exception]. *)
Definition get_field (m : Model) (field_name : string)
  : Py.result ModelField :=
  match List.find (fun f => String.eqb (name f) field_name) (meta_fields m) with
  | Some f => Py.Ok f
  | None => Py.Raise Py.Exception
  end.

(** A [Q] object: empty, one condition [field__icontains=value], or the
    disjunction of two. *)
Inductive Q :=
| Q_empty
| Q_icontains (field value : string)
| Q_or (a b : Q).

(** [bool(q)]: an empty [Q] is false. *)
Definition Q_truthy (q : Q) : bool :=
  match q with
  | Q_empty => false
  | _ => true
  end.

(** [a | b], as [Q._combine] builds it: an empty side is dropped. *)
Definition Q_combine_or (a b : Q) : Q :=
  if negb (Q_truthy a) then b
  else if negb (Q_truthy b) then a
  else Q_or a b.

(** How the ORM resolves the name [n] of a condition [n__icontains] on a
    query set without annotations. [Column]: a column of the model whose
    text is the same on every database back end, a text or a whole
    number. [Invalid]: the condition is refused with [FieldError], because
    no field has the name or because the field is a relation. [Beyond]:
    Django resolves the name in a way that is not described here: [pk], a
    path with a double underscore (through a relation, or with a
    transform), and a column whose text depends on the back end (a
    boolean, a date, a decimal number and the like). *)
Inductive lookup :=
| Column
| Invalid
| Beyond.

#[global] Instance lookup_eq_dec : EqDecision lookup.
Proof. solve_decision. Defined.

Definition is_relation (f : ModelField) : bool :=
  isinstance f ForeignKey || isinstance f ManyToManyField
  || isinstance f ManyToOneRel.

Definition holds_text (f : ModelField) : bool :=
  isinstance f CharField || isinstance f TextField
  || isinstance f IntegerField.

Definition resolve (m : Model) (field_name : string) : lookup :=
  if Str.contains "__" field_name || String.eqb field_name "pk" then Beyond
  else
    match List.find (fun f => String.eqb (name f) field_name)
                    (meta_fields m) with
    | None => Invalid
    | Some f =>
        if is_relation f then Invalid
        else if holds_text f then Column
        else Beyond
    end.

(** The text the database compares for a column that holds the value of
    the attribute: the text itself, the decimal digits of a whole number,
    nothing for a null ([Some None]). Left open ([None]): a text with
    characters outside ASCII, whose letter case the back ends treat
    differently, any other value, and an attribute the row does not
    have. *)
Definition column_text (obj : Py.object) (field_name : string)
  : option (option string) :=
  match obj !! field_name with
  | Some (Py.Attr (Py.VStr s)) => if Str.is_ascii s then Some (Some s) else None
  | Some (Py.Attr (Py.VInt n)) => Some (Some (pretty n))
  | Some (Py.Attr Py.VNone) => Some None
  | _ => None
  end.

(** The [icontains] test on one row: the text of the column contains the
    value, letter case ignored; a null column matches nothing. *)
Definition icontains (obj : Py.object) (field value : string)
  : option bool :=
  if Str.is_ascii value then
    text ← column_text obj field;
    Some (match text with
          | Some s => Str.contains (Str.lower value) (Str.lower s)
          | None => false
          end)
  else None.

Fixpoint Q_matches (q : Q) (obj : Py.object) : option bool :=
  match q with
  | Q_empty => Some true
  | Q_icontains field value => icontains obj field value
  | Q_or a b =>
      x ← Q_matches a obj; y ← Q_matches b obj; Some (x || y)
  end.

(** The fields a [Q] object names. *)
Fixpoint Q_fields (q : Q) : list string :=
  match q with
  | Q_empty => []
  | Q_icontains field _ => [field]
  | Q_or a b => Q_fields a ++ Q_fields b
  end.

(** The rows that satisfy [q], in order. *)
Fixpoint select (q : Q) (queryset : list Py.object)
  : option (list Py.object) :=
  match queryset with
  | [] => Some []
  | obj :: rest =>
      keep ← Q_matches q obj;
      found ← select q rest;
      Some (if keep : bool then obj :: found else found)
  end.

(** The conditions are resolved in their order: the first name that is
    no column decides. *)
Fixpoint first_failure (lookups : list lookup) : lookup :=
  match lookups with
  | [] => Column
  | Column :: rest => first_failure rest
  | failure :: _ => failure
  end.

(** [queryset.filter(q)]. A condition that the ORM refuses raises
    [FieldError] when [filter] is called; when all names are columns the
    rows that match are kept, in order. [None] where a name or a row is
    beyond what is described above. *)
Definition filter (m : Model) (q : Q) (queryset : list Py.object)
  : option (Py.result (list Py.object)) :=
  match first_failure (List.map (resolve m) (Q_fields q)) with
  | Invalid => Some (Py.Raise Py.FieldError)
  | Beyond => None
  | Column => found ← select q queryset; Some (Py.Ok found)
  end.

(** *** [django.core.paginator.Paginator]

    [render_list] builds [Paginator(queryset, per_page)] and calls
    [get_page]; the class is the framework's, transcribed here with its
    defaults [orphans=0] and [allow_empty_first_page=True]. *)
Section Paginator.
Context {A : Type}.

Record Paginator := {
  object_list : list A;
  per_page : Z;
  orphans : Z;
  allow_empty_first_page : bool
}.

(** [Paginator(object_list, per_page)] *)
Definition Paginator_init (l : list A) (n : Z) : Paginator :=
  {| object_list := l; per_page := n;
     orphans := 0; allow_empty_first_page := true |}.

Definition count (p : Paginator) : Z := Z.of_nat (length (object_list p)).

(** [ceil(a / b)] on integers. *)
Definition ceil_div (a b : Z) : Z := - ((- a) `div` b).

Definition num_pages (p : Paginator) : Z :=
  if (count p =? 0) && negb (allow_empty_first_page p) then 0
  else
    let hits := Z.max 1 (count p - orphans p) in
    ceil_div hits (per_page p).

(** The requested page as [int(number)] sees it: an integer, or a value
    that is not one. *)
Inductive page_arg :=
| PageInt (n : Z)
| PageNotInt.

Definition validate_number (p : Paginator) (number : page_arg)
  : Py.result Z :=
  match number with
  | PageNotInt => Py.Raise Py.PageNotAnInteger
  | PageInt n =>
      if n <? 1 then Py.Raise Py.EmptyPage
      else if n >? num_pages p then
        if (n =? 1) && allow_empty_first_page p then Py.Ok n
        else Py.Raise Py.EmptyPage
      else Py.Ok n
  end.

Record Page := {
  page_object_list : list A;
  number : Z;
  paginator : Paginator
}.

(** [l[bottom:top]] for non-negative bounds. *)
Definition slice (l : list A) (bottom top : Z) : list A :=
  take (Z.to_nat (top - bottom)) (drop (Z.to_nat bottom) l).

(** [Paginator.page] *)
Definition page (p : Paginator) (number : page_arg) : Py.result Page :=
  number ← validate_number p number;
  let bottom := (number - 1) * per_page p in
  let top := bottom + per_page p in
  let top := if top + orphans p >=? count p then count p else top in
  mret {| page_object_list := slice (object_list p) bottom top;
          number := number; paginator := p |}.

(** [Paginator.get_page]: a value that is not an integer gives the first
    page, an integer out of range gives the last page. *)
Definition get_page (p : Paginator) (number : page_arg) : Py.result Page :=
  number ← Py.try_except (validate_number p number)
    (fun e => match e with
              | Py.PageNotAnInteger => Py.Ok 1
              | Py.EmptyPage => Py.Ok (num_pages p)
              | e => Py.Raise e
              end);
  page p (PageInt number).

Definition has_next (pg : Page) : bool :=
  number pg <? num_pages (paginator pg).

Definition has_previous (pg : Page) : bool := number pg >? 1.

Definition has_other_pages (pg : Page) : bool :=
  has_previous pg || has_next pg.

Definition start_index (pg : Page) : Z :=
  if count (paginator pg) =? 0 then 0
  else per_page (paginator pg) * (number pg - 1) + 1.

Definition end_index (pg : Page) : Z :=
  if number pg =? num_pages (paginator pg) then count (paginator pg)
  else number pg * per_page (paginator pg).

End Paginator.
Arguments Paginator : clear implicits.
Arguments Page : clear implicits.

End Django.

(** ** [frameworks]: the style profiles *)

Module Frameworks.

(** The class-name tables of a framework class. The dictionaries are
    constants indexed by literal keys, so each is a record. *)
Record FormClasses := {
  fc_form : string; fc_field : string; fc_label : string;
  fc_input : string; fc_textarea : string; fc_select : string;
  fc_checkbox : string; fc_radio : string; fc_submit : string;
  fc_error : string; fc_help_text : string
}.

Record TableClasses := {
  tc_table : string; tc_table_responsive : string; tc_thead : string;
  tc_tbody : string; tc_tr : string; tc_th : string; tc_td : string;
  tc_actions : string
}.

Record ButtonClasses := {
  bc_primary : string; bc_secondary : string; bc_success : string;
  bc_danger : string; bc_warning : string; bc_info : string;
  bc_light : string; bc_dark : string
}.

Inductive Framework :=
| BootstrapFramework
| BulmaFramework.

Definition form_classes (fw : Framework) : FormClasses :=
  match fw with
  | BootstrapFramework =>
      {| fc_form := "needs-validation"; fc_field := "mb-3";
         fc_label := "form-label"; fc_input := "form-control";
         fc_textarea := "form-control"; fc_select := "form-select";
         fc_checkbox := "form-check-input"; fc_radio := "form-check-input";
         fc_submit := "btn btn-primary"; fc_error := "invalid-feedback";
         fc_help_text := "form-text text-muted" |}
  | BulmaFramework =>
      {| fc_form := ""; fc_field := "field"; fc_label := "label";
         fc_input := "input"; fc_textarea := "textarea";
         fc_select := "select"; fc_checkbox := "checkbox";
         fc_radio := "radio"; fc_submit := "button is-primary";
         fc_error := "help is-danger"; fc_help_text := "help" |}
  end.

Definition table_classes (fw : Framework) : TableClasses :=
  match fw with
  | BootstrapFramework =>
      {| tc_table := "table table-dark table-striped table-hover";
         tc_table_responsive := "table-responsive"; tc_thead := "";
         tc_tbody := ""; tc_tr := ""; tc_th := ""; tc_td := "";
         tc_actions := "text-end" |}
  | BulmaFramework =>
      {| tc_table := "table is-striped is-hoverable is-fullwidth";
         tc_table_responsive := ""; tc_thead := ""; tc_tbody := "";
         tc_tr := ""; tc_th := ""; tc_td := "";
         tc_actions := "has-text-right" |}
  end.

Definition button_classes (fw : Framework) : ButtonClasses :=
  match fw with
  | BootstrapFramework =>
      {| bc_primary := "btn btn-primary"; bc_secondary := "btn btn-secondary";
         bc_success := "btn btn-success"; bc_danger := "btn btn-danger";
         bc_warning := "btn btn-warning"; bc_info := "btn btn-info";
         bc_light := "btn btn-light"; bc_dark := "btn btn-dark" |}
  | BulmaFramework =>
      {| bc_primary := "button is-primary"; bc_secondary := "button";
         bc_success := "button is-success"; bc_danger := "button is-danger";
         bc_warning := "button is-warning"; bc_info := "button is-info";
         bc_light := "button is-light"; bc_dark := "button is-dark" |}
  end.

(** [FRAMEWORKS] and [get_framework]: an unknown name falls back to
    Bootstrap. *)
Definition FRAMEWORKS : gmap string Framework :=
  <["bootstrap" := BootstrapFramework]>
  (<["bootstrap5" := BootstrapFramework]>
  (<["bulma" := BulmaFramework]> ∅)).

Definition get_framework (name : string) : Framework :=
  default BootstrapFramework (FRAMEWORKS !! name).

(** A line break followed by [k] spaces, as the triple-quoted templates
    hold them. *)
Fixpoint spaces (k : nat) : string :=
  match k with
  | O => ""
  | S k' => " " +:+ spaces k'
  end.

Definition br (k : nat) : string :=
  String (Ascii.ascii_of_N 10) (spaces k).

(** [BaseFramework.get_table_html] *)
Definition get_table_html (fw : Framework) (headers : list string)
  (rows : list (list string)) : string :=
  let tc := table_classes fw in
  let header_html :=
    Str.concat (List.map (fun h =>
      "<th class=" +:+ Str.qt (tc_th tc) +:+ ">" +:+ h +:+ "</th>") headers) in
  let rows_html :=
    List.map (fun row =>
      let cells_html :=
        List.map (fun cell =>
          "<td class=" +:+ Str.qt (tc_td tc) +:+ ">" +:+ cell +:+ "</td>") row in
      "<tr class=" +:+ Str.qt (tc_tr tc) +:+ ">" +:+ Str.concat cells_html
        +:+ "</tr>") rows in
  br 8 +:+ "<table class=" +:+ Str.qt (tc_table tc) +:+ ">"
  +:+ br 12 +:+ "<thead class=" +:+ Str.qt (tc_thead tc) +:+ ">"
  +:+ br 16 +:+ "<tr class=" +:+ Str.qt (tc_tr tc) +:+ ">"
  +:+ br 20 +:+ header_html
  +:+ br 16 +:+ "</tr>"
  +:+ br 12 +:+ "</thead>"
  +:+ br 12 +:+ "<tbody class=" +:+ Str.qt (tc_tbody tc) +:+ ">"
  +:+ br 16 +:+ Str.concat rows_html
  +:+ br 12 +:+ "</tbody>"
  +:+ br 8 +:+ "</table>"
  +:+ br 8.

(** The field object [render_form] hands to [get_form_field_html]. *)
Record FieldObj := {
  fo_name : string;
  fo_label : string;
  fo_value : Py.value;
  fo_required : bool;
  fo_help_text : string
}.

Definition when (b : bool) (s : string) : string := if b then s else "".

(** The name, id and [required] attributes every control carries. *)
Definition name_id (field_name : string) : string :=
  "name=" +:+ Str.qt field_name +:+ " id=" +:+ Str.qt ("id_" +:+ field_name).

(** The options of the [active_client] drop-down, bootstrap.py lines 62
    to 66. [shown] is [str(field_value)]. *)
Definition active_client_options (shown : string) : string :=
  br 16 +:+ "<option value=" +:+ Str.qt "" +:+ ">Choose...</option>"
  +:+ br 16 +:+ "<option value=" +:+ Str.qt "True" +:+ " "
      +:+ when (String.eqb shown "True") "selected" +:+ ">Yes</option>"
  +:+ br 16 +:+ "<option value=" +:+ Str.qt "False" +:+ " "
      +:+ when (String.eqb shown "False") "selected" +:+ ">No</option>"
  +:+ br 16.

(** The control of [BootstrapFramework.get_form_field_html], lines 57 to
    81. *)
Definition bootstrap_input_html (field_name field_label : string)
  (field_value : Py.value) (required : bool) (field_type : string)
  : Py.result string :=
  let fc := form_classes BootstrapFramework in
  if String.eqb field_type "textarea" then
    shown ← Py.str field_value;
    mret ("<textarea class=" +:+ Str.qt (fc_textarea fc) +:+ " "
          +:+ name_id field_name +:+ " " +:+ when required "required"
          +:+ ">" +:+ shown +:+ "</textarea>")
  else if String.eqb field_type "select" then
    options_html ←
      (if String.eqb field_name "active_client" then
         shown ← Py.str field_value;
         mret (active_client_options shown)
       else mret ("<option value=" +:+ Str.qt "" +:+ ">Choose...</option>"));
    mret ("<select class=" +:+ Str.qt (fc_select fc) +:+ " "
          +:+ name_id field_name +:+ " " +:+ when required "required" +:+ ">"
          +:+ br 16 +:+ options_html
          +:+ br 12 +:+ "</select>")
  else if String.eqb field_type "checkbox" then
    mret (br 12 +:+ "<div class=" +:+ Str.qt "form-check" +:+ ">"
          +:+ br 16 +:+ "<input class=" +:+ Str.qt (fc_checkbox fc)
          +:+ " type=" +:+ Str.qt "checkbox" +:+ " " +:+ name_id field_name
          +:+ " " +:+ when (Py.truthy field_value) "checked" +:+ ">"
          +:+ br 16 +:+ "<label class=" +:+ Str.qt "form-check-label"
          +:+ " for=" +:+ Str.qt ("id_" +:+ field_name) +:+ ">"
          +:+ field_label +:+ "</label>"
          +:+ br 12 +:+ "</div>"
          +:+ br 12)
  else
    shown ← Py.str field_value;
    mret ("<input type=" +:+ Str.qt field_type
          +:+ " class=" +:+ Str.qt (fc_input fc) +:+ " "
          +:+ name_id field_name +:+ " value=" +:+ Str.qt shown +:+ " "
          +:+ when required "required" +:+ ">").

(** [BootstrapFramework.get_form_field_html], lines 49 to 102. *)
Definition bootstrap_get_form_field_html (field : FieldObj)
  (field_type errors help_text : string) : Py.result string :=
  let fc := form_classes BootstrapFramework in
  let field_name := fo_name field in
  let field_label := fo_label field in
  let field_value := Py.or_else (fo_value field) (Py.VStr "") in
  let required := fo_required field in
  input_html ←
    bootstrap_input_html field_name field_label field_value required
      field_type;
  let help_html :=
    when (negb (String.eqb help_text ""))
      ("<div class=" +:+ Str.qt (fc_help_text fc) +:+ ">" +:+ help_text
       +:+ "</div>") in
  let error_html :=
    when (negb (String.eqb errors ""))
      ("<div class=" +:+ Str.qt (fc_error fc) +:+ ">" +:+ errors
       +:+ "</div>") in
  if negb (String.eqb field_type "checkbox") then
    mret (br 12 +:+ "<div class=" +:+ Str.qt (fc_field fc) +:+ ">"
          +:+ br 16 +:+ "<label for=" +:+ Str.qt ("id_" +:+ field_name)
          +:+ " class=" +:+ Str.qt (fc_label fc) +:+ ">" +:+ field_label
          +:+ "</label>"
          +:+ br 16 +:+ input_html
          +:+ br 16 +:+ help_html
          +:+ br 16 +:+ error_html
          +:+ br 12 +:+ "</div>"
          +:+ br 12)
  else
    mret (br 12 +:+ "<div class=" +:+ Str.qt (fc_field fc) +:+ ">"
          +:+ br 16 +:+ input_html
          +:+ br 16 +:+ help_html
          +:+ br 16 +:+ error_html
          +:+ br 12 +:+ "</div>"
          +:+ br 12).

(** The control of [BulmaFramework.get_form_field_html], lines 57 to
    74; its drop-down has no option. *)
Definition bulma_input_html (field_name field_label : string)
  (field_value : Py.value) (required : bool) (field_type : string)
  : Py.result string :=
  let fc := form_classes BulmaFramework in
  if String.eqb field_type "textarea" then
    shown ← Py.str field_value;
    mret ("<textarea class=" +:+ Str.qt (fc_textarea fc) +:+ " "
          +:+ name_id field_name +:+ " " +:+ when required "required"
          +:+ ">" +:+ shown +:+ "</textarea>")
  else if String.eqb field_type "select" then
    mret (br 12 +:+ "<div class=" +:+ Str.qt "select is-fullwidth" +:+ ">"
          +:+ br 16 +:+ "<select " +:+ name_id field_name +:+ " "
          +:+ when required "required" +:+ ">"
          +:+ br 16 +:+ "</select>"
          +:+ br 12 +:+ "</div>"
          +:+ br 12)
  else if String.eqb field_type "checkbox" then
    mret (br 12 +:+ "<label class=" +:+ Str.qt "checkbox" +:+ ">"
          +:+ br 16 +:+ "<input type=" +:+ Str.qt "checkbox" +:+ " "
          +:+ name_id field_name +:+ " "
          +:+ when (Py.truthy field_value) "checked" +:+ ">"
          +:+ br 16 +:+ field_label
          +:+ br 12 +:+ "</label>"
          +:+ br 12)
  else
    shown ← Py.str field_value;
    mret ("<input type=" +:+ Str.qt field_type
          +:+ " class=" +:+ Str.qt (fc_input fc) +:+ " "
          +:+ name_id field_name +:+ " value=" +:+ Str.qt shown +:+ " "
          +:+ when required "required" +:+ ">").

(** [BulmaFramework.get_form_field_html], lines 49 to 99. *)
Definition bulma_get_form_field_html (field : FieldObj)
  (field_type errors help_text : string) : Py.result string :=
  let fc := form_classes BulmaFramework in
  let field_name := fo_name field in
  let field_label := fo_label field in
  let field_value := Py.or_else (fo_value field) (Py.VStr "") in
  let required := fo_required field in
  input_html ←
    bulma_input_html field_name field_label field_value required field_type;
  let help_html :=
    when (negb (String.eqb help_text ""))
      ("<p class=" +:+ Str.qt (fc_help_text fc) +:+ ">" +:+ help_text
       +:+ "</p>") in
  let error_html :=
    when (negb (String.eqb errors ""))
      ("<p class=" +:+ Str.qt (fc_error fc) +:+ ">" +:+ errors +:+ "</p>") in
  if negb (String.eqb field_type "checkbox") then
    mret (br 12 +:+ "<div class=" +:+ Str.qt (fc_field fc) +:+ ">"
          +:+ br 16 +:+ "<label class=" +:+ Str.qt (fc_label fc)
          +:+ " for=" +:+ Str.qt ("id_" +:+ field_name) +:+ ">"
          +:+ field_label +:+ "</label>"
          +:+ br 16 +:+ "<div class=" +:+ Str.qt "control" +:+ ">"
          +:+ br 20 +:+ input_html
          +:+ br 16 +:+ "</div>"
          +:+ br 16 +:+ help_html
          +:+ br 16 +:+ error_html
          +:+ br 12 +:+ "</div>"
          +:+ br 12)
  else
    mret (br 12 +:+ "<div class=" +:+ Str.qt (fc_field fc) +:+ ">"
          +:+ br 16 +:+ "<div class=" +:+ Str.qt "control" +:+ ">"
          +:+ br 20 +:+ input_html
          +:+ br 16 +:+ "</div>"
          +:+ br 16 +:+ help_html
          +:+ br 16 +:+ error_html
          +:+ br 12 +:+ "</div>"
          +:+ br 12).

(** [framework_class.get_form_field_html(...)], by dynamic dispatch. *)
Definition get_form_field_html (fw : Framework) (field : FieldObj)
  (field_type errors help_text : string) : Py.result string :=
  match fw with
  | BootstrapFramework =>
      bootstrap_get_form_field_html field field_type errors help_text
  | BulmaFramework =>
      bulma_get_form_field_html field field_type errors help_text
  end.

End Frameworks.

(** ** [forms.py]: the field-type resolver *)

Module Forms.
Import Django.

(** [field_mapping], in insertion order. *)
Definition field_mapping : list (builtin * string) :=
  [ (CharField, "text");
    (TextField, "textarea");
    (EmailField, "email");
    (URLField, "url");
    (IntegerField, "number");
    (PositiveIntegerField, "number");
    (FloatField, "number");
    (DecimalField, "number");
    (BooleanField, "checkbox");
    (DateField, "date");
    (DateTimeField, "datetime-local");
    (TimeField, "time");
    (FileField, "file");
    (ImageField, "file");
    (ForeignKey, "select");
    (ManyToManyField, "select") ].

(** The loop over [field_mapping.items()]: the first class the field is
    an instance of decides; ['text'] when none is. *)
Fixpoint scan_mapping (f : ModelField) (table : list (builtin * string))
  : string :=
  match table with
  | [] => "text"
  | (field_class, input_type) :: rest =>
      if isinstance f field_class then input_type
      else scan_mapping f rest
  end.

(** [bool(model_field.choices)] *)
Definition choices_truthy (f : ModelField) : bool :=
  match choices f with
  | Some l => Py.list_truthy l
  | None => false
  end.

(** [get_field_type], forms.py lines 121 to 150. Every Django field has
    the attribute [choices], so the [hasattr] test is true. *)
Definition get_field_type (model_field : ModelField) : string :=
  if isinstance model_field BooleanField && true
     && choices_truthy model_field
  then "select"
  else scan_mapping model_field field_mapping.

(** *** [create_model_form] and [render_form] *)

Definition default_exclude : list string := ["id"; "created_at"; "updated_at"].

(** [exclude_fields or ['id', 'created_at', 'updated_at']] *)
Definition exclude_or_default (exclude_fields : option (list string))
  : list string :=
  match exclude_fields with
  | Some l => if Py.list_truthy l then l else default_exclude
  | None => default_exclude
  end.

(** [f.formfield()] is not [None]: a field gets a form field unless it
    is a reverse relation, which a model form does not go through, or an
    automatic key, whose [formfield] returns [None]. *)
Definition has_formfield (f : ModelField) : bool :=
  negb (isinstance f ManyToOneRel)
  && negb (isinstance f AutoField || isinstance f BigAutoField
           || isinstance f SmallAutoField).

(** [form.fields] of the [DynamicCRUDForm] that [create_model_form]
    builds, as [fields_for_model] collects them: the editable fields of
    the model that are not excluded and have a form field, in declaration
    order. *)
Definition form_fields (model_class : Model)
  (exclude_fields : option (list string)) : list ModelField :=
  List.filter
    (fun f => editable f
              && negb (Py.in_list (name f) (exclude_or_default exclude_fields))
              && has_formfield f)
    (meta_fields model_class).

(** The label of the form field: the capitalised display name. *)
Definition form_label (f : ModelField) : string :=
  match verbose_name f with
  | Some v => Str.capfirst v
  | None => ""
  end.

(** [field.label or field_name.replace('_', ' ').title()] *)
Definition label_or_title (f : ModelField) : string :=
  if negb (String.eqb (form_label f) "") then form_label f
  else Str.title (Str.underscores_to_spaces (name f)).

(** Lines 76 to 83: the current value of the field, [''] when there is
    no instance, the value is [None] or the read fails. *)
Definition current_value (instance : option Py.object) (field_name : string)
  : Py.value :=
  match instance with
  | None => Py.VStr ""
  | Some obj =>
      match Py.getattr_default obj field_name (Py.VStr "") with
      | Py.Ok v => if Py.is_none v then Py.VStr "" else v
      | Py.Raise _ => Py.VStr ""
      end
  end.

(** The body of the loop of [render_form], lines 72 to 98, for one form
    field; a raise makes the caller skip the field. *)
Definition field_html (fw : Frameworks.Framework) (model_class : Model)
  (instance : option Py.object) (form_field : ModelField)
  : Py.result string :=
  let field_name := name form_field in
  model_field ← get_field model_class field_name;
  let field_type := get_field_type model_field in
  let field_value := current_value instance field_name in
  let field_obj :=
    {| Frameworks.fo_name := field_name;
       Frameworks.fo_label := label_or_title form_field;
       Frameworks.fo_value := field_value;
       Frameworks.fo_required := negb (blank form_field);
       Frameworks.fo_help_text := help_text model_field |} in
  Frameworks.get_form_field_html fw field_obj field_type ""
    (help_text model_field).

(** [fields_html]: the blocks of the fields that rendered. *)
Definition fields_html (fw : Frameworks.Framework) (model_class : Model)
  (instance : option Py.object) (exclude_fields : option (list string))
  : list string :=
  omap (fun f =>
          match field_html fw model_class instance f with
          | Py.Ok h => Some h
          | Py.Raise _ => None
          end)
       (form_fields model_class exclude_fields).

(** [render_form], forms.py lines 49 to 118. *)
Definition render_form (model_class : Model) (instance : option Py.object)
  (framework : string) (exclude_fields : option (list string))
  (action method : string) : string :=
  let fw := Frameworks.get_framework framework in
  let blocks := fields_html fw model_class instance exclude_fields in
  Frameworks.br 4 +:+ "<form action=" +:+ Str.qt action
  +:+ " method=" +:+ Str.qt method
  +:+ " class=" +:+ Str.qt (Frameworks.fc_form (Frameworks.form_classes fw))
  +:+ " novalidate>"
  +:+ Frameworks.br 8
  +:+ Frameworks.when (String.eqb (Str.upper method) "POST") "{% csrf_token %}"
  +:+ Frameworks.br 8 +:+ Str.concat blocks
  +:+ Frameworks.br 8 +:+ "<div class="
  +:+ Str.qt "d-grid gap-2 d-md-flex justify-content-md-end" +:+ ">"
  +:+ Frameworks.br 12 +:+ "<button type=" +:+ Str.qt "submit"
  +:+ " class="
  +:+ Str.qt (Frameworks.bc_primary (Frameworks.button_classes fw)) +:+ ">"
  +:+ Frameworks.br 16
  +:+ match instance with Some _ => "Update" | None => "Create" end
  +:+ Frameworks.br 12 +:+ "</button>"
  +:+ Frameworks.br 12 +:+ "<a href=" +:+ Str.qt "#" +:+ " class="
  +:+ Str.qt (Frameworks.bc_secondary (Frameworks.button_classes fw))
  +:+ ">Cancel</a>"
  +:+ Frameworks.br 8 +:+ "</div>"
  +:+ Frameworks.br 4 +:+ "</form>"
  +:+ Frameworks.br 4.

End Forms.

(** ** [cruder/templates.py]: the list renderer *)

Module Templates.
Import Django.

(** [bool(s)] for a string or [None]. *)
Definition str_truthy (s : option string) : bool :=
  match s with
  | Some s => negb (String.eqb s "")
  | None => false
  end.

(** [bool(l)] for a list or [None]. *)
Definition optlist_truthy {A} (l : option (list A)) : bool :=
  match l with
  | Some l => Py.list_truthy l
  | None => false
  end.

(** Lines 37 and 38: the deprecated single [search_field]. *)
Definition effective_search_fields (search_fields : option (list string))
  (search_field : option string) : option (list string) :=
  if str_truthy search_field && negb (optlist_truthy search_fields)
  then Some [default "" search_field]
  else search_fields.

(** Lines 43 to 45: [q_objects |= Q(field__icontains=search_query)] for
    each field in turn, from an empty [Q]. *)
Definition build_q (search_fields : list string) (search_query : string) : Q :=
  foldl (fun q_objects field =>
           Q_combine_or q_objects (Q_icontains field search_query))
        Q_empty search_fields.

(** Lines 40 to 46: the search filter; [None] where [filter] is left
    open. *)
Definition apply_search (model_class : Model) (queryset : list Py.object)
  (search_fields : option (list string)) (search_query : option string)
  : option (Py.result (list Py.object)) :=
  if optlist_truthy search_fields && str_truthy search_query then
    filter model_class
      (build_q (default [] search_fields) (default "" search_query))
      queryset
  else Some (Py.Ok queryset).

(** Lines 49 to 51: the fields shown when none are given. *)
Definition default_fields (model_class : Model) : list string :=
  List.map name
    (List.filter
       (fun f => negb (Str.endswith "_set" (name f))
                 && negb (Py.in_list (name f) ["id"]))
       (meta_fields model_class)).

(** Lines 54 to 63: the column headers. *)
Definition header_of (model_class : Model) (field_name : string) : string :=
  let fallback := Str.title (Str.underscores_to_spaces field_name) in
  match get_field model_class field_name with
  | Py.Ok field => default fallback (verbose_name field)
  | Py.Raise _ => fallback
  end.

Definition headers_of (model_class : Model) (fields : list string)
  : list string :=
  List.map (header_of model_class) fields ++ ["Actions"].

(** Lines 77 to 82: the value a cell shows, before [str]. *)
Definition format_value (value : Py.value) : Py.result Py.value :=
  if Py.has_strftime value then
    s ← Py.strftime_ymd_hm value; mret (Py.VStr s)
  else if Py.is_bool value then
    mret (Py.VStr (if Py.truthy value then "Yes" else "No"))
  else if Py.is_none value then mret (Py.VStr "-")
  else mret value.

(** Lines 74 to 85: one cell; any raise inside the [try] gives ['-']. *)
Definition cell (obj : Py.object) (field_name : string) : string :=
  match (value ← Py.getattr obj field_name;
         value ← format_value value;
         Py.str value) with
  | Py.Ok s => s
  | Py.Raise _ => "-"
  end.

(** [not permissions or permissions.get(key, True)] *)
Definition permitted (permissions : option (gmap string bool))
  (key : string) : bool :=
  negb (Py.dict_truthy permissions)
  || match permissions with
     | Some m => default true (m !! key)
     | None => true
     end.

(** Lines 88 to 96: the three action URLs of a row. *)
Definition action_url (base_url : option string) (obj_id suffix verb : string)
  : string :=
  if str_truthy base_url
  then default "" base_url +:+ obj_id +:+ "/" +:+ suffix
  else "?pk=" +:+ obj_id +:+ "&action=" +:+ verb.

Definition action_link (url classes label : string) : string :=
  "<a href=" +:+ Str.qt url +:+ " class=" +:+ Str.qt (classes +:+ " btn-sm")
  +:+ ">" +:+ label +:+ "</a>".

Definition view_link (fw : Frameworks.Framework) (base_url : option string)
  (obj_id : string) : string :=
  action_link (action_url base_url obj_id "" "view")
    (Frameworks.bc_info (Frameworks.button_classes fw)) "View".

Definition edit_link (fw : Frameworks.Framework) (base_url : option string)
  (obj_id : string) : string :=
  action_link (action_url base_url obj_id "edit/" "edit")
    (Frameworks.bc_warning (Frameworks.button_classes fw)) "Edit".

Definition delete_link (fw : Frameworks.Framework) (base_url : option string)
  (obj_id : string) : string :=
  action_link (action_url base_url obj_id "delete/" "delete")
    (Frameworks.bc_danger (Frameworks.button_classes fw)) "Delete".

(** Lines 99 to 108: [action_buttons]. *)
Definition action_buttons (fw : Frameworks.Framework)
  (base_url : option string) (permissions : option (gmap string bool))
  (obj_id : string) : list string :=
  (if permitted permissions "can_read"
   then [view_link fw base_url obj_id] else [])
  ++ (if permitted permissions "can_update"
      then [edit_link fw base_url obj_id] else [])
  ++ (if permitted permissions "can_delete"
      then [delete_link fw base_url obj_id] else []).

Definition no_actions : string :=
  "<span class=" +:+ Str.qt "text-muted" +:+ ">No actions available</span>".

(** Lines 110 to 114: the actions cell. *)
Definition actions_html (buttons : list string) : string :=
  if Py.list_truthy buttons then
    Frameworks.br 8 +:+ "<div class=" +:+ Str.qt "btn-group btn-group-sm"
    +:+ " role=" +:+ Str.qt "group" +:+ ">"
    +:+ Frameworks.br 12 +:+ Str.concat buttons
    +:+ Frameworks.br 8 +:+ "</div>"
    +:+ Frameworks.br 8
  else no_actions.

(** Line 88: [getattr(obj, 'pk', getattr(obj, 'id', ''))], printed. *)
Definition obj_id_of (obj : Py.object) : Py.result string :=
  inner ← Py.getattr_default obj "id" (Py.VStr "");
  obj_id ← Py.getattr_default obj "pk" inner;
  Py.str obj_id.

(** Lines 72 to 116: one row, the field cells and then the actions
    cell. *)
Definition row_of (fw : Frameworks.Framework) (fields : list string)
  (base_url : option string) (permissions : option (gmap string bool))
  (obj : Py.object) : Py.result (list string) :=
  let cells := List.map (cell obj) fields in
  obj_id ← obj_id_of obj;
  mret (cells ++ [actions_html (action_buttons fw base_url permissions obj_id)]).

(** The rows of a page; the first raise ends the loop. *)
Fixpoint rows_of (fw : Frameworks.Framework) (fields : list string)
  (base_url : option string) (permissions : option (gmap string bool))
  (objs : list Py.object) : Py.result (list (list string)) :=
  match objs with
  | [] => mret []
  | obj :: rest =>
      row ← row_of fw fields base_url permissions obj;
      rows ← rows_of fw fields base_url permissions rest;
      mret (row :: rows)
  end.

Definition page_item_disabled (label : string) : string :=
  "<li class=" +:+ Str.qt "page-item disabled" +:+ "><span class="
  +:+ Str.qt "page-link" +:+ ">" +:+ label +:+ "</span></li>".

Definition page_item_link (n : Z) (label : string) : string :=
  Frameworks.br 12 +:+ "<li class=" +:+ Str.qt "page-item" +:+ ">"
  +:+ Frameworks.br 16 +:+ "<a class=" +:+ Str.qt "page-link"
  +:+ " href=" +:+ Str.qt ("?page=" +:+ pretty n) +:+ ">" +:+ label +:+ "</a>"
  +:+ Frameworks.br 12 +:+ "</li>"
  +:+ Frameworks.br 8.

Definition page_number_item (current num : Z) : string :=
  if num =? current then
    "<li class=" +:+ Str.qt "page-item active" +:+ "><span class="
    +:+ Str.qt "page-link" +:+ ">" +:+ pretty num +:+ "</span></li>"
  else
    "<li class=" +:+ Str.qt "page-item" +:+ "><a class="
    +:+ Str.qt "page-link" +:+ " href=" +:+ Str.qt ("?page=" +:+ pretty num)
    +:+ ">" +:+ pretty num +:+ "</a></li>".

(** [generate_pagination_html], lines 174 to 216. *)
Definition generate_pagination_html (page_obj : Page Py.object) : string :=
  if negb (has_other_pages page_obj) then ""
  else
    Frameworks.br 4 +:+ "<nav aria-label=" +:+ Str.qt "Page navigation" +:+ ">"
    +:+ Frameworks.br 8 +:+ "<ul class="
    +:+ Str.qt "pagination justify-content-center" +:+ ">"
    +:+ Frameworks.br 4
    +:+ (if has_previous page_obj
         then page_item_link (number page_obj - 1) "Previous"
         else page_item_disabled "Previous")
    +:+ Str.concat
          (List.map (page_number_item (number page_obj))
             (seqZ 1 (num_pages (paginator page_obj))))
    +:+ (if has_next page_obj
         then page_item_link (number page_obj + 1) "Next"
         else page_item_disabled "Next")
    +:+ Frameworks.br 8 +:+ "</ul>"
    +:+ Frameworks.br 4 +:+ "</nav>"
    +:+ Frameworks.br 4.

(** The placeholder of the search box, lines 225 to 230. *)
Definition search_placeholder (search_fields : list string) : string :=
  if (length search_fields =? 1)%nat then
    "Search " +:+ default "" (head search_fields) +:+ "..."
  else if (length search_fields <=? 3)%nat then
    "Search " +:+ Str.join ", " search_fields +:+ "..."
  else
    "Search " +:+ Str.join ", " (take 2 search_fields) +:+ ", and "
    +:+ pretty (Z.of_nat (length search_fields) - 2) +:+ " more...".

(** [generate_search_html], lines 219 to 242. *)
Definition generate_search_html (fw : Frameworks.Framework)
  (search_fields : option (list string)) (search_query : option string)
  : string :=
  if negb (optlist_truthy search_fields) then ""
  else
    Frameworks.br 4 +:+ "<div class=" +:+ Str.qt "row mb-3" +:+ ">"
    +:+ Frameworks.br 8 +:+ "<div class=" +:+ Str.qt "col-md-6" +:+ ">"
    +:+ Frameworks.br 12 +:+ "<form method=" +:+ Str.qt "get" +:+ " class="
    +:+ Str.qt "d-flex" +:+ ">"
    +:+ Frameworks.br 16 +:+ "<input type=" +:+ Str.qt "text" +:+ " name="
    +:+ Str.qt "search" +:+ " class="
    +:+ Str.qt (Frameworks.fc_input (Frameworks.form_classes fw) +:+ " me-2")
    +:+ " "
    +:+ Frameworks.br 23 +:+ "placeholder="
    +:+ Str.qt (search_placeholder (default [] search_fields))
    +:+ " value="
    +:+ Str.qt (if str_truthy search_query then default "" search_query else "")
    +:+ ">"
    +:+ Frameworks.br 16 +:+ "<button type=" +:+ Str.qt "submit" +:+ " class="
    +:+ Str.qt (Frameworks.bc_primary (Frameworks.button_classes fw))
    +:+ ">Search</button>"
    +:+ Frameworks.br 12 +:+ "</form>"
    +:+ Frameworks.br 8 +:+ "</div>"
    +:+ Frameworks.br 4 +:+ "</div>"
    +:+ Frameworks.br 4.

(** What [render_list] returns. *)
Record ListView := {
  html : string;
  page_obj : Page Py.object;
  list_paginator : Paginator Py.object;
  total_count : Z
}.

(** Lines 135 to 138: [create_url]. *)
Definition create_url (base_url : option string) : string :=
  if str_truthy base_url then default "" base_url +:+ "create/"
  else "?action=create".

(** Lines 140 to 143: [add_button]. *)
Definition add_button (fw : Frameworks.Framework)
  (base_url : option string) (permissions : option (gmap string bool))
  : string :=
  Frameworks.when (permitted permissions "can_create")
    ("<a href=" +:+ Str.qt (create_url base_url) +:+ " class="
     +:+ Str.qt (Frameworks.bc_primary (Frameworks.button_classes fw))
     +:+ ">Add New</a>").

(** Lines 135 to 164: the page around the table. *)
Definition complete_html (fw : Frameworks.Framework) (model_class : Model)
  (base_url : option string) (permissions : option (gmap string bool))
  (search_html table_html pagination_html : string)
  (pg : Page Py.object) : string :=
  let add_button := add_button fw base_url permissions in
  let responsive_table :=
    Frameworks.br 4 +:+ "<div class="
    +:+ Str.qt (Frameworks.tc_table_responsive (Frameworks.table_classes fw))
    +:+ ">"
    +:+ Frameworks.br 8 +:+ table_html
    +:+ Frameworks.br 4 +:+ "</div>"
    +:+ Frameworks.br 4 in
  Frameworks.br 4 +:+ "<div class=" +:+ Str.qt "crud-list-view" +:+ ">"
  +:+ Frameworks.br 8 +:+ "<div class="
  +:+ Str.qt "d-flex justify-content-between align-items-center mb-3" +:+ ">"
  +:+ Frameworks.br 12 +:+ "<h2>"
  +:+ Str.title (verbose_name_plural model_class) +:+ "</h2>"
  +:+ Frameworks.br 12 +:+ add_button
  +:+ Frameworks.br 8 +:+ "</div>"
  +:+ Frameworks.br 8
  +:+ Frameworks.br 8 +:+ search_html
  +:+ Frameworks.br 8
  +:+ Frameworks.br 8 +:+ "<div class=" +:+ Str.qt "mb-3" +:+ ">"
  +:+ Frameworks.br 12 +:+ "<small class=" +:+ Str.qt "text-muted" +:+ ">"
  +:+ Frameworks.br 16 +:+ "Showing " +:+ pretty (start_index pg) +:+ "-"
  +:+ pretty (end_index pg) +:+ " of " +:+ pretty (count (paginator pg))
  +:+ " items"
  +:+ Frameworks.br 12 +:+ "</small>"
  +:+ Frameworks.br 8 +:+ "</div>"
  +:+ Frameworks.br 8
  +:+ Frameworks.br 8 +:+ responsive_table
  +:+ Frameworks.br 8
  +:+ Frameworks.br 8 +:+ pagination_html
  +:+ Frameworks.br 4 +:+ "</div>"
  +:+ Frameworks.br 4.

(** Lines 65 to 67: the page [render_list] shows. *)
Definition paginate (queryset : list Py.object) (per_page : Z)
  (page : page_arg) : Py.result (Page Py.object) :=
  get_page (Paginator_init queryset per_page) page.

(** [render_list], templates.py lines 10 to 171; [None] where the search
    is left open. *)
Definition render_list (model_class : Model)
  (queryset : option (list Py.object)) (framework : string)
  (fields : option (list string)) (per_page : Z) (page : page_arg)
  (search_fields : option (list string)) (search_query : option string)
  (base_url : option string) (permissions : option (gmap string bool))
  (search_field : option string) : option (Py.result ListView) :=
  let fw := Frameworks.get_framework framework in
  let queryset := default (objects_all model_class) queryset in
  let search_fields := effective_search_fields search_fields search_field in
  searched ← apply_search model_class queryset search_fields search_query;
  Some (
    queryset ← (searched : Py.result (list Py.object));
    let fields := default (default_fields model_class) fields in
    let headers := headers_of model_class fields in
    pg ← paginate queryset per_page page;
    rows ← rows_of fw fields base_url permissions (page_object_list pg);
    let table_html := Frameworks.get_table_html fw headers rows in
    let pagination_html := generate_pagination_html pg in
    let search_html := generate_search_html fw search_fields search_query in
    mret {| html := complete_html fw model_class base_url permissions
                      search_html table_html pagination_html pg;
            page_obj := pg;
            list_paginator := paginator pg;
            total_count := count (paginator pg) |}).

End Templates.

(** ** [views.py]: the permission gate and the views *)

Module Views.

(** The part of a Django user the gate reads: the names of the groups of
    [user.groups.all()] and the [is_superuser] flag. *)
Record User := {
  groups : list string;
  is_superuser : bool
}.

(** The class attributes of [CRUDView]. [permissions] is [None] or a
    dictionary from operation letters to role lists. *)
Record CRUDView := {
  model : Django.Model;
  framework : string;
  list_fields : option (list string);
  per_page : Z;
  search_fields : option (list string);
  search_field : option string;
  permissions : option (gmap string (list string));
  readonly_mode : bool
}.

(** [self.permissions.get(operation, [])] *)
Definition required_roles_of (self : CRUDView) (operation : string)
  : list string :=
  match permissions self with
  | Some m => default [] (m !! operation)
  | None => []
  end.

(** [CRUDView.has_crud_permission], views.py lines 34 to 63. *)
Definition has_crud_permission (self : CRUDView) (user : User)
  (operation : string) : bool :=
  if readonly_mode self && Py.in_list operation ["C"; "U"; "D"] then false
  else if negb (Py.dict_truthy (permissions self)) then true
  else
    let required_roles := required_roles_of self operation in
    if negb (Py.list_truthy required_roles) then true
    else
      let user_groups := groups user in
      if is_superuser user then true
      else existsb (fun role => Py.in_list role user_groups) required_roles.

(** [permissions_context] of [list_view], views.py lines 126 to 131. *)
Definition permissions_context (self : CRUDView) (user : User)
  : gmap string bool :=
  <["can_create" := has_crud_permission self user "C"]>
  (<["can_read" := has_crud_permission self user "R"]>
  (<["can_update" := has_crud_permission self user "U"]>
  (<["can_delete" := has_crud_permission self user "D"]> ∅))).

(** [list_view], views.py lines 113 to 144: the list rendered for the
    request path, the requested page and the search text. *)
Definition list_view (self : CRUDView) (user : User) (path : string)
  (page : Django.page_arg) (search_query : string)
  : option (Py.result Templates.ListView) :=
  let base_url := if Str.endswith "/" path then path else path +:+ "/" in
  Templates.render_list (model self) None (framework self)
    (list_fields self) (per_page self) page (search_fields self)
    (Some search_query) (Some base_url)
    (Some (permissions_context self user)) (search_field self).

(** An entry of [fields_data]. *)
Record FieldData := {
  fd_name : string;
  fd_label : string;
  fd_value : Py.value
}.

(** Lines 276 to 281: the value the detail page shows. *)
Definition detail_value (field_value : Py.value) : Py.result Py.value :=
  if Py.has_strftime field_value then
    s ← Py.strftime_ymd_hm field_value; mret (Py.VStr s)
  else if Py.is_bool field_value then
    mret (Py.VStr (if Py.truthy field_value then "Yes" else "No"))
  else if Py.is_none field_value then mret (Py.VStr "Not set")
  else mret field_value.

(** Lines 271 to 287: the body of the [try] for one field. *)
Definition detail_entry (obj : Py.object) (field : Django.ModelField)
  : Py.result FieldData :=
  let field_name := Django.name field in
  let field_label :=
    default (Str.title (Str.underscores_to_spaces field_name))
            (Django.verbose_name field) in
  field_value ← Py.getattr_default obj field_name Py.VNone;
  field_value ← detail_value field_value;
  mret {| fd_name := field_name; fd_label := field_label;
          fd_value := field_value |}.

(** Lines 267 to 289 of [detail_view] (and 305 to 327 of [delete_view]):
    [fields_data]; a field whose entry raises is left out. *)
Definition fields_data (model_class : Django.Model) (obj : Py.object)
  : list FieldData :=
  omap (fun field =>
          match detail_entry obj field with
          | Py.Ok d => Some d
          | Py.Raise _ => None
          end)
       (List.filter
          (fun field => negb (Str.endswith "_set" (Django.name field))
                        && negb (String.eqb (Django.name field) "id"))
          (Django.meta_fields model_class)).

End Views.

(** ** Further string methods, used by the redirects and the URL helper *)

Module Text.

Definition slash : Ascii.ascii := Ascii.ascii_of_N 47.
Definition underscore : Ascii.ascii := Ascii.ascii_of_N 95.

(** [s.split(sep)[0]] for a separator that is not empty: the text before
    the first occurrence of [sep], all of [s] when there is none. *)
Fixpoint before_first (sep s : string) : string :=
  if Str.startswith sep s then ""
  else
    match s with
    | EmptyString => ""
    | String c s' => String c (before_first sep s')
    end.

(** [s.replace(old, new)] for an [old] that is not empty: occurrences
    are replaced from the left and do not overlap. [skip] counts the
    characters of a replaced occurrence that are still to be passed. *)
Fixpoint replace_from (old new : string) (skip : nat) (s : string) : string :=
  match s with
  | EmptyString => ""
  | String c s' =>
      match skip with
      | S k => replace_from old new k s'
      | O =>
          if Str.startswith old s
          then new +:+ replace_from old new (String.length old - 1) s'
          else String c (replace_from old new 0 s')
      end
  end.

Definition replace (old new s : string) : string := replace_from old new 0 s.

(** [s.rstrip(c)] and [s.lstrip(c)] for one character, and [s.strip(c)]. *)
Fixpoint rstrip (c : Ascii.ascii) (s : string) : string :=
  match s with
  | EmptyString => ""
  | String a s' =>
      match rstrip c s' with
      | EmptyString => if Ascii.eqb a c then "" else String a ""
      | rest => String a rest
      end
  end.

Fixpoint lstrip (c : Ascii.ascii) (s : string) : string :=
  match s with
  | EmptyString => ""
  | String a s' => if Ascii.eqb a c then lstrip c s' else s
  end.

Definition strip (c : Ascii.ascii) (s : string) : string :=
  rstrip c (lstrip c s).

(** [s.split(c)] for a separator of one character; the result is never
    empty. *)
Fixpoint split (c : Ascii.ascii) (s : string) : list string :=
  match s with
  | EmptyString => [""]
  | String a s' =>
      if Ascii.eqb a c then "" :: split c s'
      else
        match split c s' with
        | [] => [String a ""]
        | part :: parts => String a part :: parts
        end
  end.

Definition is_digit (a : Ascii.ascii) : bool :=
  let n := Ascii.N_of_ascii a in ((48 <=? n) && (n <=? 57))%N.

Fixpoint all_digits (s : string) : bool :=
  match s with
  | EmptyString => true
  | String a s' => is_digit a && all_digits s'
  end.

(** [s.isdigit()]: on ASCII text, not empty and digits only. Python
    also counts digits of other scripts; for a text with a character
    outside ASCII the answer is left open ([None]). *)
Definition isdigit (s : string) : option bool :=
  if Str.is_ascii s then Some (negb (String.eqb s "") && all_digits s)
  else None.

End Text.

(** ** [views.py]: the request handlers and the redirects *)

Module Router.
Import Views.

(** The method of [CRUDView] a request is handed to. *)
Inductive view_call :=
| list_view_call
| create_view_call
| edit_view_call (pk : Z)
| detail_view_call (pk : Z)
| delete_view_call (pk : Z)
| create_post_call
| edit_post_call (pk : Z)
| delete_post_call (pk : Z).

(** What [get] and [post] do: raise [PermissionDenied] with a message, or
    return what a view method returns. *)
Inductive outcome :=
| PermissionDenied (message : string)
| Calls (v : view_call).

(** [get], views.py lines 71 to 94. [pk] is [None] or the integer of the
    URL; [action == 'edit' and pk] needs a [pk] that is not zero. *)
Definition get (self : CRUDView) (user : User) (pk : option Z)
  (action : string) : outcome :=
  if String.eqb action "list" then
    if negb (has_crud_permission self user "R")
    then PermissionDenied "You don't have permission to view this content."
    else Calls list_view_call
  else if String.eqb action "create" then
    if negb (has_crud_permission self user "C")
    then PermissionDenied "You don't have permission to create new items."
    else Calls create_view_call
  else
    match pk with
    | Some n =>
        if negb (n =? 0) then
          if String.eqb action "edit" then
            if negb (has_crud_permission self user "U")
            then PermissionDenied "You don't have permission to edit items."
            else Calls (edit_view_call n)
          else if String.eqb action "view" then
            if negb (has_crud_permission self user "R")
            then PermissionDenied
                   "You don't have permission to view this content."
            else Calls (detail_view_call n)
          else if String.eqb action "delete" then
            if negb (has_crud_permission self user "D")
            then PermissionDenied "You don't have permission to delete items."
            else Calls (delete_view_call n)
          else Calls list_view_call
        else Calls list_view_call
    | None => Calls list_view_call
    end.

(** [post], views.py lines 96 to 111. *)
Definition post (self : CRUDView) (user : User) (pk : option Z)
  (action : string) : outcome :=
  if String.eqb action "create" then
    if negb (has_crud_permission self user "C")
    then PermissionDenied "You don't have permission to create new items."
    else Calls create_post_call
  else
    match pk with
    | Some n =>
        if negb (n =? 0) then
          if String.eqb action "edit" then
            if negb (has_crud_permission self user "U")
            then PermissionDenied "You don't have permission to edit items."
            else Calls (edit_post_call n)
          else if String.eqb action "delete" then
            if negb (has_crud_permission self user "D")
            then PermissionDenied "You don't have permission to delete items."
            else Calls (delete_post_call n)
          else Calls list_view_call
        else Calls list_view_call
    | None => Calls list_view_call
    end.

(** The redirect target of [create_post] (lines 185 to 195), of
    [edit_post] (lines 238 to 248) and of [render_crud_form] (lines 501
    to 511); the three copies are the same. *)
Definition list_url_after_save (current_path : string) : string :=
  if Str.contains "/create/" current_path then
    Text.replace "/create/" "/" current_path
  else if Str.endswith "/create" current_path then
    Text.replace "/create" "/" current_path
  else if Str.contains "/edit/" current_path then
    Text.before_first "/edit/" current_path +:+ "/"
  else if Str.contains "/delete/" current_path then
    Text.before_first "/delete/" current_path +:+ "/"
  else if Str.endswith "/" current_path then current_path
  else current_path +:+ "/".

(** The redirect target of [delete_post], lines 345 to 356; [None]
    where [isdigit] is left open. *)
Definition list_url_after_delete (current_path : string) : option string :=
  if Str.contains "/delete/" current_path then
    let base_path := Text.before_first "/delete/" current_path in
    let path_parts := Text.split Text.slash (Text.rstrip Text.slash base_path) in
    is_number ← Text.isdigit (default "" (last path_parts));
    Some (if is_number : bool
          then Str.join "/" (removelast path_parts) +:+ "/"
          else base_path +:+ "/")
  else if Str.endswith "/" current_path then Some current_path
  else Some (current_path +:+ "/").

End Router.

(** ** [urls.py]: the URL patterns *)

Module Urls.

(** A [path(route, view, kwargs, name)] entry; [action] is the
    ['action'] of the extra arguments, [None] where there are none. *)
Record UrlPattern := {
  route : string;
  action : option string;
  url_name : string
}.

(** [crud_urlpatterns], urls.py lines 8 to 77; the view function is the
    same in the five entries and is left out. *)
Definition crud_urlpatterns (url_prefix : string)
  (name_prefix : option string) : list UrlPattern :=
  let url_prefix := Text.rstrip Text.slash url_prefix in
  let name_prefix :=
    match name_prefix with
    | None => Text.strip Text.underscore (Text.replace "/" "_" url_prefix)
    | Some n => n
    end in
  [ {| route := url_prefix +:+ "/"; action := None;
       url_name := name_prefix |};
    {| route := url_prefix +:+ "/create/"; action := Some "create";
       url_name := name_prefix +:+ "_create" |};
    {| route := url_prefix +:+ "/<int:pk>/"; action := Some "view";
       url_name := name_prefix +:+ "_detail" |};
    {| route := url_prefix +:+ "/<int:pk>/edit/"; action := Some "edit";
       url_name := name_prefix +:+ "_edit" |};
    {| route := url_prefix +:+ "/<int:pk>/delete/"; action := Some "delete";
       url_name := name_prefix +:+ "_delete" |} ].

End Urls.

(** * The terms of the claims, and example data *)

(** ** The permission gate *)

Section PermissionGateTerms.
Import Views.

(** The operations read-only mode closes. *)
Definition write_ops : list string := ["C"; "U"; "D"].

(** No rule covers [operation]: the map is absent, has no entry for the
    operation, or maps it to the empty role list. *)
Definition no_rule (self : CRUDView) (operation : string) : Prop :=
  match permissions self with
  | None => True
  | Some m => m !! operation = None ∨ m !! operation = Some []
  end.

(** The fail-open rule read on its own, with nothing said about
    read-only mode. *)
Definition fail_open_unconditional (self : CRUDView) (user : User)
  (operation : string) : Prop :=
  no_rule self operation → has_crud_permission self user operation = true.

(** A model without fields or rows, for views whose model plays no part. *)
Definition no_model : Django.Model :=
  {| Django.meta_fields := []; Django.verbose_name_plural := "items";
     Django.objects_all := [] |}.

(** A view with the given permission map and read-only flag. *)
Definition view_with (perms : option (gmap string (list string)))
  (ro : bool) : CRUDView :=
  {| model := no_model; framework := "bootstrap"; list_fields := None;
     per_page := 25; search_fields := None; search_field := None;
     permissions := perms; readonly_mode := ro |}.

(** A permission map that asks for the role admin to create, update and
    delete, and has no entry for read. *)
Definition admin_only : gmap string (list string) :=
  <["C" := ["admin"]]> (<["U" := ["admin"]]> (<["D" := ["admin"]]> ∅)).

(** A superuser who is in the group admin. *)
Definition root_admin : User :=
  {| groups := ["admin"]; is_superuser := true |}.

(** A user without groups who is no superuser. *)
Definition nobody : User := {| groups := []; is_superuser := false |}.

End PermissionGateTerms.

(** ** The field-type resolver *)

Section FieldTypeResolverTerms.
Import Django Forms.

(** The closed enumeration of input categories. *)
Definition InputCategory : list string :=
  ["text"; "textarea"; "email"; "url"; "number"; "checkbox"; "date";
   "datetime"; "time"; "file"; "select"].

(** A field the type table does not recognise: an instance of none of
    its classes. *)
Definition unrecognized (f : ModelField) : Prop :=
  ∀ k t, (k, t) ∈ field_mapping → isinstance f k = false.

(** The field carries a choice set that is not empty. *)
Definition has_choices (f : ModelField) : Prop :=
  ∃ c l, choices f = Some (c :: l).

(** A field of class [c] and choices [ch]; the other attributes do not
    matter to the resolver. *)
Definition field_of (n : string) (c : class)
  (ch : option (list (Py.value * string))) : ModelField :=
  {| name := n; cls := c; choices := ch; verbose_name := None;
     help_text := ""; blank := false; editable := true |}.

(** The choice set of a yes/no field. *)
Definition yes_no : list (Py.value * string) :=
  [(Py.VBool true, "Yes"); (Py.VBool false, "No")].

End FieldTypeResolverTerms.

(** ** Pagination *)

Section PaginationTerms.
Import Django Templates.
Context {A : Type}.
Implicit Types (records : list A) (per_page k : Z).

(** Page [k] of the records: [per_page] records from the one at index
    [(k - 1) * per_page] on, fewer where the list ends. *)
Definition nth_page records per_page k : list A :=
  take (Z.to_nat per_page) (drop (Z.to_nat ((k - 1) * per_page)) records).

(** The number of pages of [n] records. *)
Definition page_total (n per_page : Z) : Z := Z.max 1 (ceil_div n per_page).

(** The page a request resolves to: itself when it is in range, the
    first page when it is no integer, the last page otherwise. *)
Definition resolved_number (requested : page_arg) (total : Z) : Z :=
  match requested with
  | PageNotInt => 1
  | PageInt n => if (1 <=? n) && (n <=? total) then n else total
  end.

End PaginationTerms.

(** ** The pagination of the list *)

Section ListPaginationTerms.
Import Django Templates.

(** Thirty records, as in the scenario of the specification. *)
Definition thirty : list Py.object := replicate 30 ∅.

(** The nearest page of the range from 1 to [total]. *)
Definition nearest_page (requested total : Z) : Z :=
  Z.max 1 (Z.min requested total).

(** Pagination as the claim words it: [ceil(N / per_page)] pages, and a
    request out of range shown as the nearest boundary page. *)
Definition pagination_as_stated (records : list Py.object)
  (per_page requested : Z) : Prop :=
  ∃ pg, paginate records per_page (PageInt requested) = Py.Ok pg
        ∧ num_pages (paginator pg)
          = ceil_div (Z.of_nat (length records)) per_page
        ∧ number pg = nearest_page requested (num_pages (paginator pg)).

End ListPaginationTerms.

(** ** Search *)

Section SearchTerms.
Import Django Templates.








(** The name is resolved in a way that is described here: to a text or
    whole-number column, or to a refusal. *)
Definition described (model_class : Model) (field : string) : Prop :=
  resolve model_class field ≠ Beyond.

(** The ORM refuses a condition on the name: it is no path and not [pk],
    and no field of the model has the name, or the field that has it is
    a relation. *)
Definition refused (model_class : Model) (field : string) : Prop :=
  Str.contains "__" field = false
  ∧ field ≠ "pk"
  ∧ match get_field model_class field with
    | Py.Ok f => is_relation f = true
    | Py.Raise _ => True
    end.




(** The test the search runs on a record. *)
Definition keeps (fields : list string) (query : string) (obj : Py.object)
  : bool :=
  existsb (λ field, default false (icontains obj field query)) fields.

(** A row with a name and an e-mail address. *)
Definition contact (nm email : string) : Py.object :=
  <["name" := Py.Attr (Py.VStr nm)]>
  (<["email" := Py.Attr (Py.VStr email)]> ∅).

(** A required string field. *)
Definition text_field (n : string) : ModelField :=
  {| name := n; cls := Builtin CharField; choices := None;
     verbose_name := None; help_text := ""; blank := false;
     editable := true |}.

(** A model of contacts with three rows. *)
Definition contacts : Model :=
  {| meta_fields := [text_field "name"; text_field "email"];
     verbose_name_plural := "contacts";
     objects_all := [contact "Ann Lee" "al@example.org";
                     contact "Bob" "bob@ANNEX.org";
                     contact "Cy" "cy@example.org"] |}.

End SearchTerms.

(** ** Row actions *)

Section RowActionsTerms.
Import Templates.

(** The permission snapshot with the four flags, as [list_view] builds
    it. *)
Definition snapshot (c r u d : bool) : gmap string bool :=
  <["can_create" := c]> (<["can_read" := r]>
  (<["can_update" := u]> (<["can_delete" := d]> ∅))).

(** A row whose primary key is 7. *)
Definition record_7 : Py.object := <["pk" := Py.Attr (Py.VInt 7)]> ∅.

(** The group that holds the links of a row, and the neutral placeholder
    that stands for it when there is no link. *)
Definition group_of (links : string) : string :=
  Frameworks.br 8 +:+ "<div class=" +:+ Str.qt "btn-group btn-group-sm"
  +:+ " role=" +:+ Str.qt "group" +:+ ">"
  +:+ Frameworks.br 12 +:+ links
  +:+ Frameworks.br 8 +:+ "</div>"
  +:+ Frameworks.br 8.

Definition placeholder : string :=
  "<span class=" +:+ Str.qt "text-muted" +:+ ">No actions available</span>".

(** The actions cell of a row in which the view, edit and delete links
    are present as [r], [u] and [d] say. *)
Definition actions_cell (fw : Frameworks.Framework)
  (base_url : option string) (obj_id : string) (r u d : bool) : string :=
  if r || u || d then
    group_of ((if r then view_link fw base_url obj_id else "")
              +:+ (if u then edit_link fw base_url obj_id else "")
              +:+ (if d then delete_link fw base_url obj_id else ""))
  else placeholder.

(** The snapshot allows what the flag stands for: there is no snapshot,
    or the snapshot does not hold an explicit false for the flag. *)
Definition allowed (permissions : option (gmap string bool)) (key : string)
  : bool :=
  match permissions with
  | None => true
  | Some m =>
      match m !! key with
      | Some false => false
      | _ => true
      end
  end.

(** The button that leads to the form for a new record. *)
Definition add_new_button (fw : Frameworks.Framework)
  (base_url : option string) : string :=
  "<a href=" +:+ Str.qt (create_url base_url) +:+ " class="
  +:+ Str.qt (Frameworks.bc_primary (Frameworks.button_classes fw))
  +:+ ">Add New</a>".

(** The text holds no [c]. *)
Fixpoint free_of (c : Ascii.ascii) (s : string) : bool :=
  match s with
  | EmptyString => true
  | String a s' => negb (Ascii.eqb a c) && free_of c s'
  end.

(** The character that opens a tag. The base URL and the key that hold
    it nowhere are those of [plain_urls]. *)
Definition less_than : Ascii.ascii := Ascii.ascii_of_N 60.

Definition plain_urls (base_url : option string) (obj_id : string) : Prop :=
  free_of less_than (default "" base_url) = true
  ∧ free_of less_than obj_id = true.

(** A text as a sequence of tags: each begins with [<] and goes on with
    a body that holds no [<]. *)
Fixpoint tags (bodies : list string) : string :=
  match bodies with
  | [] => ""
  | body :: rest => String less_than (body +:+ tags rest)
  end.

(** What a link holds between its first [<] and its closing tag. *)
Definition link_body (url classes label : string) : string :=
  "a href=" +:+ Str.qt url +:+ " class=" +:+ Str.qt (classes +:+ " btn-sm")
  +:+ ">" +:+ label.

(** The link with the body [body]. *)
Definition link_of (body : string) : string :=
  String less_than (body +:+ "</a>").

(** The bodies of the tags of a run of links that is followed by the
    text [after]. *)
Fixpoint link_tags (bodies : list string) (after : string) : list string :=
  match bodies with
  | [] => []
  | body :: rest =>
      match rest with
      | [] => [body; "/a>" +:+ after]
      | _ => body :: "/a>" :: link_tags rest after
      end
  end.

(** The body of the tag that opens the group of links. *)
Definition group_body : string :=
  "div class=" +:+ Str.qt "btn-group btn-group-sm" +:+ " role="
  +:+ Str.qt "group" +:+ ">" +:+ Frameworks.br 12.

End RowActionsTerms.

(** ** Field values in the list and on the detail page *)

Section FieldValuesTerms.
Import Django Templates Views.

(** The decimal digit [n], for [n] from 0 to 9. *)
Definition digit (n : Z) : Ascii.ascii := Ascii.ascii_of_N (48 + Z.to_N n).

(** A number below 100 written with two digits, and a number below 10000
    written with four. *)
Definition two_digits (n : Z) : string :=
  String (digit (n / 10)) (String (digit (n mod 10)) "").

Definition four_digits (n : Z) : string :=
  two_digits (n / 100) +:+ two_digits (n mod 100).

(** The text YYYY-MM-DD HH:MM of a date and a time of day. *)
Definition ymd_hm (d : Py.date) (t : Py.time) : string :=
  four_digits (Py.year d) +:+ "-" +:+ two_digits (Py.month d) +:+ "-"
  +:+ two_digits (Py.day d) +:+ " " +:+ two_digits (Py.hour t) +:+ ":"
  +:+ two_digits (Py.minute t).

(** A date whose year has four digits, and a time of day. *)
Definition calendar_date (d : Py.date) : Prop :=
  1000 ≤ Py.year d ≤ 9999 ∧ 1 ≤ Py.month d ≤ 12 ∧ 1 ≤ Py.day d ≤ 31.

Definition clock_time (t : Py.time) : Prop :=
  0 ≤ Py.hour t ≤ 23 ∧ 0 ≤ Py.minute t ≤ 59 ∧ 0 ≤ Py.second t ≤ 59.

(** What the claim says a field shows, from the result of reading it:
    timestamps and dates in the pattern, booleans as Yes and No, null as
    a dash, any other value by [str], and a dash when the read or the
    formatting fails. *)
Definition shown_as_stated (read : Py.result Py.value) : string :=
  match read with
  | Py.Raise _ => "-"
  | Py.Ok (Py.VDateTime d t) => ymd_hm d t
  | Py.Ok (Py.VDate d) => ymd_hm d Py.midnight
  | Py.Ok (Py.VBool b) => if b then "Yes" else "No"
  | Py.Ok Py.VNone => "-"
  | Py.Ok v =>
      match Py.str v with
      | Py.Ok s => s
      | Py.Raise _ => "-"
      end
  end.

(** The claim for a field of the detail page: the page has an entry for
    the field, and the entry shows that text. *)
Definition detail_as_stated (model_class : Model) (obj : Py.object)
  (field_name : string) : Prop :=
  ∃ d, d ∈ fields_data model_class obj
       ∧ fd_name d = field_name
       ∧ Py.str (fd_value d)
         = Py.Ok (shown_as_stated (Py.getattr obj field_name)).

(** A value that is no date, time, boolean or null: a number, a text or
    another object. *)
Definition other_value (v : Py.value) : Prop :=
  match v with
  | Py.VInt _ | Py.VStr _ | Py.VObj _ => True
  | _ => False
  end.

(** The amended claim for the list: the text a cell shows for a value
    that was read. Nothing is said of a time of day. *)
Inductive list_shows : Py.value → string → Prop :=
| list_shows_timestamp d t :
    calendar_date d → clock_time t →
    list_shows (Py.VDateTime d t) (ymd_hm d t)
| list_shows_date d :
    calendar_date d → list_shows (Py.VDate d) (ymd_hm d Py.midnight)
| list_shows_yes : list_shows (Py.VBool true) "Yes"
| list_shows_no : list_shows (Py.VBool false) "No"
| list_shows_null : list_shows Py.VNone "-"
| list_shows_str v s :
    other_value v → Py.str v = Py.Ok s → list_shows v s
| list_shows_unprintable v e :
    other_value v → Py.str v = Py.Raise e → list_shows v "-".

(** The amended claim for the detail page: the value an entry holds for a
    value that was read. Dates and booleans become texts, null becomes
    'Not set', any other value is kept; nothing is said of a time of
    day. *)
Inductive detail_shows : Py.value → Py.value → Prop :=
| detail_shows_timestamp d t :
    calendar_date d → clock_time t →
    detail_shows (Py.VDateTime d t) (Py.VStr (ymd_hm d t))
| detail_shows_date d :
    calendar_date d →
    detail_shows (Py.VDate d) (Py.VStr (ymd_hm d Py.midnight))
| detail_shows_yes : detail_shows (Py.VBool true) (Py.VStr "Yes")
| detail_shows_no : detail_shows (Py.VBool false) (Py.VStr "No")
| detail_shows_null : detail_shows Py.VNone (Py.VStr "Not set")
| detail_shows_other v : other_value v → detail_shows v v.

(** The read of the attribute fails: there is no such attribute, or its
    getter raises. *)
Definition read_fails (obj : Py.object) (field_name : string) : Prop :=
  obj !! field_name = None ∨ ∃ e, obj !! field_name = Some (Py.Raising e).

(** The read of the attribute finds nothing: there is no such attribute,
    or its getter raises [AttributeError], which [getattr] with a default
    takes for a missing attribute. *)
Definition read_finds_nothing (obj : Py.object) (field_name : string)
  : Prop :=
  obj !! field_name = None
  ∨ obj !! field_name = Some (Py.Raising Py.AttributeError).

(** The fields the detail page goes through. *)
Definition detail_field (model_class : Model) (field : ModelField) : Prop :=
  field ∈ meta_fields model_class
  ∧ Str.endswith "_set" (name field) = false
  ∧ name field ≠ "id".

(** The label of a field on the detail page. *)
Definition label_of (field : ModelField) : string :=
  default (Str.title (Str.underscores_to_spaces (name field)))
          (verbose_name field).

(** The entry of a field on the detail page, with the value it shows. *)
Definition entry_of (field : ModelField) (v : Py.value) : FieldData :=
  {| fd_name := name field; fd_label := label_of field; fd_value := v |}.

(** An optional field of a framework class. *)
Definition plain_field (n : string) (c : builtin) : ModelField :=
  {| name := n; cls := Builtin c; choices := None; verbose_name := None;
     help_text := ""; blank := true; editable := true |}.

(** A model with a time of day, a text, a string and a timestamp. *)
Definition shop : Model :=
  {| meta_fields := [plain_field "opens_at" TimeField;
                     plain_field "note" TextField;
                     plain_field "owner" CharField;
                     plain_field "since" DateTimeField];
     verbose_name_plural := "shops";
     objects_all := [] |}.

(** A shop that opens at 10:30, has no note, whose owner cannot be read,
    and that exists since 2024-03-15 10:30. *)
Definition corner_shop : Py.object :=
  <["opens_at" := Py.Attr (Py.VTime {| Py.hour := 10; Py.minute := 30;
                                       Py.second := 0 |})]>
  (<["note" := Py.Attr Py.VNone]>
  (<["owner" := Py.Raising Py.Exception]>
  (<["since" := Py.Attr (Py.VDateTime
                           {| Py.year := 2024; Py.month := 3; Py.day := 15 |}
                           {| Py.hour := 10; Py.minute := 30;
                              Py.second := 0 |})]> ∅))).

End FieldValuesTerms.

(** ** The [active_client] drop-down *)

Section ActiveClientTerms.
Import Django Forms Frameworks.

(** One option of a drop-down. *)
Definition option_tag (value label : string) (selected : bool) : string :=
  "<option value=" +:+ Str.qt value +:+ " " +:+ when selected "selected"
  +:+ ">" +:+ label +:+ "</option>".

Definition unset_option : string :=
  "<option value=" +:+ Str.qt "" +:+ ">Choose...</option>".

(** The boolean the instance holds for [active_client], if any. *)
Definition current_bool (instance : option Py.object) : option bool :=
  match instance with
  | Some obj =>
      match obj !! "active_client" with
      | Some (Py.Attr (Py.VBool b)) => Some b
      | _ => None
      end
  | None => None
  end.

(** The rendered block holds a drop-down with the unset, Yes and No
    options, of which the one for the current value is selected. *)
Definition tri_state (html : string) (current : option bool) : bool :=
  Str.contains "<select" html
  && Str.contains unset_option html
  && Str.contains
       (option_tag "True" "Yes" (bool_decide (current = Some true))) html
  && Str.contains
       (option_tag "False" "No" (bool_decide (current = Some false))) html.

(** The claim, for a form field of a model, a style profile and an
    instance. *)
Definition active_client_as_stated (fw : Framework) (model_class : Model)
  (instance : option Py.object) (f : ModelField) : Prop :=
  ∃ html, field_html fw model_class instance f = Py.Ok html
          ∧ tri_state html (current_bool instance) = true.

(** The boolean field [active_client] with the given choice set. *)
Definition active_client_field (ch : option (list (Py.value * string)))
  : ModelField :=
  {| name := "active_client"; cls := Builtin BooleanField; choices := ch;
     verbose_name := Some "active client"; help_text := ""; blank := true;
     editable := true |}.

(** A model of clients with a name and the [active_client] field. *)
Definition clients (ch : option (list (Py.value * string))) : Model :=
  {| meta_fields := [text_field "name"; active_client_field ch];
     verbose_name_plural := "clients"; objects_all := [] |}.

(** A client with the given value of [active_client]. *)
Definition client (active : Py.value) : Py.object :=
  <["name" := Py.Attr (Py.VStr "Ann")]>
  (<["active_client" := Py.Attr active]> ∅).

(** The drop-down of the Bootstrap profile with its three options; Yes
    carries [selected] when [yes] is set. *)
Definition tri_state_select (required yes : bool) : string :=
  "<select class=" +:+ Str.qt "form-select" +:+ " "
  +:+ name_id "active_client" +:+ " " +:+ when required "required" +:+ ">"
  +:+ br 16 +:+ br 16 +:+ unset_option
  +:+ br 16 +:+ option_tag "True" "Yes" yes
  +:+ br 16 +:+ option_tag "False" "No" false
  +:+ br 16
  +:+ br 12 +:+ "</select>".

(** What the instance holds for the field: no instance or a null value,
    with nothing to select, or true, with Yes to select. *)
Definition unset_or_true (instance : option Py.object) (yes : bool) : Prop :=
  match instance with
  | None => yes = false
  | Some obj =>
      (obj !! "active_client" = Some (Py.Attr Py.VNone) ∧ yes = false)
      ∨ (obj !! "active_client" = Some (Py.Attr (Py.VBool true))
         ∧ yes = true)
  end.

End ActiveClientTerms.

(** ** The request handlers *)

Section RouterTerms.
Import Views Router.

(** The operation a view method stands for; the list has none, since it
    is also the fallback of [get] and [post]. *)
Definition needed_operation (v : view_call) : option string :=
  match v with
  | list_view_call => None
  | create_view_call | create_post_call => Some "C"
  | edit_view_call _ | edit_post_call _ => Some "U"
  | detail_view_call _ => Some "R"
  | delete_view_call _ | delete_post_call _ => Some "D"
  end.

(** [pk] is [None] or zero. *)
Definition pk_falsy (pk : option Z) : Prop := pk = None ∨ pk = Some 0.

(** The actions [get] knows. *)
Definition get_actions : list string :=
  ["list"; "create"; "edit"; "view"; "delete"].

(** A permission map that asks for the role admin for every operation. *)
Definition admin_for_all : gmap string (list string) :=
  <["R" := ["admin"]]> admin_only.

(** A user in the group editor only. *)
Definition editor : User := {| groups := ["editor"]; is_superuser := false |}.

End RouterTerms.

(** ** The rows and the search of the list *)

Section ListRowsTerms.
Import Django Templates.

(** The key of the row cannot be read or printed: the getter of [pk] or
    of [id] raises something else than [AttributeError] (which [getattr]
    with a default takes for a missing attribute), or [pk] holds an object
    whose [str] raises. *)
Definition key_unreadable (obj : Py.object) : Prop :=
  (∃ e, e ≠ Py.AttributeError ∧ obj !! "pk" = Some (Py.Raising e))
  ∨ (∃ e, e ≠ Py.AttributeError ∧ obj !! "id" = Some (Py.Raising e))
  ∨ obj !! "pk" = Some (Py.Attr (Py.VObj None)).

(** A row whose [pk] raises [KeyError] when it is read. *)
Definition broken_row : Py.object := <["pk" := Py.Raising Py.KeyError]> ∅.

End ListRowsTerms.

(** ** The form *)

Section FormsTerms.
Import Django.

(** Every attribute of the instance, if there is one, can be printed:
    none holds an object whose [str] raises. *)
Definition printable (instance : option Py.object) : Prop :=
  ∀ obj k, instance = Some obj → obj !! k ≠ Some (Py.Attr (Py.VObj None)).

(** An editable field of class [c] with no label of its own. *)
Definition column (n : string) (c : builtin) : ModelField :=
  {| name := n; cls := Builtin c; choices := None; verbose_name := None;
     help_text := ""; blank := false; editable := true |}.

(** A model of stock items: a title, a quantity and a timestamp that is
    set by hand. *)
Definition stock : Model :=
  {| meta_fields := [column "title" CharField;
                     column "quantity" IntegerField;
                     column "updated_at" DateTimeField];
     verbose_name_plural := "stock items";
     objects_all := [] |}.

(** A stock item with the given quantity. *)
Definition crate (quantity : Py.value) : Py.object :=
  <["title" := Py.Attr (Py.VStr "Crate")]>
  (<["quantity" := Py.Attr quantity]> ∅).

End FormsTerms.

(** * Properties *)

(** ** Strings *)

Section StringFacts.

Lemma str_app_nil (t : string) : "" +:+ t = t.
Proof. reflexivity. Qed.

Lemma str_app_cons (c : Ascii.ascii) (s t : string) :
  String c s +:+ t = String c (s +:+ t).
Proof. reflexivity. Qed.

Lemma str_app_assoc (a b c : string) : (a +:+ b) +:+ c = a +:+ (b +:+ c).
Proof.
  induction a as [|x a IH]; [done|].
  by rewrite !str_app_cons, IH.
Qed.

Lemma str_length_app (a b : string) :
  String.length (a +:+ b) = (String.length a + String.length b)%nat.
Proof.
  induction a as [|x a IH]; [done|].
  rewrite str_app_cons. simpl. by rewrite IH.
Qed.

(** Two texts with the same end: ends of equal length are equal. *)
Lemma str_app_same_end (x y a b : string) :
  String.length a = String.length b → x +:+ a = y +:+ b → a = b.
Proof.
  intros Hlen. revert y.
  induction x as [|c x IH]; intros [|d y] Heq.
  - done.
  - rewrite str_app_nil in Heq. subst a.
    rewrite str_app_cons in Hlen. simpl in Hlen.
    rewrite str_length_app in Hlen. lia.
  - rewrite str_app_nil in Heq. subst b.
    rewrite str_app_cons in Hlen. simpl in Hlen.
    rewrite str_length_app in Hlen. lia.
  - rewrite !str_app_cons in Heq. injection Heq as _ Heq. by apply (IH y).
Qed.

Lemma str_app_nil_r (s : string) : s +:+ "" = s.
Proof.
  induction s as [|c s IH]; [done|]. by rewrite str_app_cons, IH.
Qed.

Lemma startswith_self_app (p rest : string) :
  Str.startswith p (p +:+ rest) = true.
Proof.
  induction p as [|c p IH]; [done|].
  rewrite str_app_cons. simpl. by rewrite Ascii.eqb_refl, IH.
Qed.

Lemma contains_cons (needle : string) (c : Ascii.ascii) (hay : string) :
  Str.contains needle (String c hay)
  = Str.startswith needle (String c hay) || Str.contains needle hay.
Proof. done. Qed.

Lemma contains_app_r (needle x y : string) :
  Str.contains needle y = true → Str.contains needle (x +:+ y) = true.
Proof.
  intros Hy. induction x as [|c x IH]; [done|].
  rewrite str_app_cons, contains_cons, IH. apply orb_true_r.
Qed.

Lemma contains_startswith (needle s : string) :
  Str.startswith needle s = true → Str.contains needle s = true.
Proof. intros H. destruct s; simpl; by rewrite H. Qed.

Lemma contains_there (sep x rest : string) :
  Str.contains sep (x +:+ sep +:+ rest) = true.
Proof.
  apply contains_app_r, contains_startswith, startswith_self_app.
Qed.

Lemma startswith_cons (a b : Ascii.ascii) (p s : string) :
  Str.startswith (String a p) (String b s)
  = Ascii.eqb a b && Str.startswith p s.
Proof. done. Qed.

Lemma startswith_split (p s : string) :
  Str.startswith p s = true ↔ ∃ rest, s = p +:+ rest.
Proof.
  revert s. induction p as [|a p IH]; intros s.
  - split; [by exists s | by destruct s].
  - destruct s as [|b s]; [split; [done | by intros [rest ?]]|].
    rewrite startswith_cons, andb_true_iff, IH. split.
    + intros [->%Ascii.eqb_eq [rest ->]]. by exists rest.
    + intros [rest Heq]. rewrite str_app_cons in Heq.
      injection Heq as -> ->. split; [apply Ascii.eqb_refl | by exists rest].
Qed.

(** [needle in hay] says that the text is the needle between two
    others. *)
Lemma contains_split (needle hay : string) :
  Str.contains needle hay = true
  ↔ ∃ before after, hay = before +:+ needle +:+ after.
Proof.
  split.
  - induction hay as [|c hay IH].
    + simpl. rewrite orb_false_r. intros [rest ->]%startswith_split.
      by exists "", rest.
    + rewrite contains_cons. intros [Hs | Hc]%orb_true_iff.
      * apply startswith_split in Hs as [rest ->]. by exists "", rest.
      * destruct (IH Hc) as (before & after & ->).
        by exists (String c before), after.
  - intros (before & after & ->). apply contains_there.
Qed.



Lemma free_of_app (c : Ascii.ascii) (a b : string) :
  free_of c (a +:+ b) = free_of c a && free_of c b.
Proof.
  induction a as [|x a IH]; [done|].
  rewrite str_app_cons. cbn [free_of]. by rewrite IH, andb_assoc.
Qed.

Lemma contains_app_l (needle x y : string) :
  Str.contains needle x = true → Str.contains needle (x +:+ y) = true.
Proof.
  intros (before & after & ->)%contains_split. apply contains_split.
  exists before, (after +:+ y). by rewrite !str_app_assoc.
Qed.

Lemma contains_self (s : string) : Str.contains s s = true.
Proof. apply contains_split. exists "", "". by rewrite str_app_nil_r. Qed.

(** An occurrence of a text that begins with [c] does not begin inside a
    text without [c]. *)
Lemma contains_skip (c : Ascii.ascii) (n x y : string) :
  free_of c x = true →
  Str.contains (String c n) (x +:+ y) = Str.contains (String c n) y.
Proof.
  induction x as [|a x IH]; [done|]. cbn [free_of].
  intros [Ha Hx]%andb_true_iff. apply negb_true_iff in Ha.
  rewrite str_app_cons, contains_cons, startswith_cons, IH by done.
  by rewrite Ascii.eqb_sym, Ha.
Qed.

(** A text that holds [c] is not the beginning of one that does not. *)
Lemma startswith_free (c : Ascii.ascii) (nb x b : string) :
  free_of c b = true → Str.startswith (nb +:+ String c x) b = false.
Proof.
  revert b. induction nb as [|a nb IH]; intros [|e b]; try done.
  - rewrite str_app_nil, startswith_cons. cbn [free_of].
    intros [He _]%andb_true_iff. apply negb_true_iff in He.
    by rewrite Ascii.eqb_sym, He.
  - rewrite str_app_cons, startswith_cons. cbn [free_of].
    intros [_ Hb]%andb_true_iff. by rewrite IH, andb_false_r.
Qed.

(** Two texts without [c], each followed by [c]: where one begins the
    other, they are the same. *)
Lemma startswith_same_body (c : Ascii.ascii) (nb x hb y : string) :
  free_of c nb = true → free_of c hb = true →
  Str.startswith (nb +:+ String c x) (hb +:+ String c y) = true →
  nb = hb.
Proof.
  revert hb. induction nb as [|a nb IH]; intros [|e hb]; cbn [free_of].
  - done.
  - intros _ [He _]%andb_true_iff. apply negb_true_iff in He.
    rewrite str_app_nil, str_app_cons, startswith_cons.
    by rewrite Ascii.eqb_sym, He.
  - intros [Ha _]%andb_true_iff _. apply negb_true_iff in Ha.
    rewrite str_app_nil, str_app_cons, startswith_cons. by rewrite Ha.
  - intros [_ Hn]%andb_true_iff [_ Hh]%andb_true_iff.
    rewrite !str_app_cons, startswith_cons.
    intros [->%Ascii.eqb_eq Hs]%andb_true_iff. f_equal. by apply IH.
Qed.

End StringFacts.

Ltac same_end H :=
  match type of H with
  | ?x +:+ ?a = ?y +:+ ?b =>
      apply (str_app_same_end x y a b eq_refl) in H; discriminate H
  end.

(** ** The permission gate *)

Section PermissionGate.
Import Views.

Lemma no_rule_required_roles self operation :
  no_rule self operation → required_roles_of self operation = [].
Proof.
  unfold no_rule, required_roles_of.
  destruct (permissions self) as [m|]; [|done].
  by intros [-> | ->].
Qed.

Lemma readonly_guard_off self operation :
  readonly_mode self = false ∨ operation ∉ write_ops →
  readonly_mode self && Py.in_list operation ["C"; "U"; "D"] = false.
Proof.
  intros [-> | Hop]; [done|].
  unfold Py.in_list. rewrite bool_decide_eq_false_2 by done.
  apply andb_false_r.
Qed.

Lemma read_is_no_write : Py.in_list "R" ["C"; "U"; "D"] = false.
Proof. reflexivity. Qed.

(** C1. In read-only mode the gate answers false for create, update and
    delete, whoever the user is and whatever the permission map lists; the
    answer for read depends on the permission map and the user only, not
    on the read-only flag. *)
Theorem readonly_mode_denies_writes (self : CRUDView) (user : User)
  (operation : string) :
  readonly_mode self = true →
  operation ∈ write_ops →
  has_crud_permission self user operation = false
  ∧ ∀ other : CRUDView,
      permissions other = permissions self →
      has_crud_permission other user "R" = has_crud_permission self user "R".
Proof.
  intros Hro Hop. split.
  - unfold has_crud_permission, Py.in_list.
    rewrite Hro, bool_decide_eq_true_2; done.
  - intros other Hperm.
    unfold has_crud_permission, required_roles_of.
    rewrite Hperm, read_is_no_write.
    by rewrite !andb_false_r.
Qed.

Lemma readonly_mode_denies_writes_witness :
  has_crud_permission (view_with (Some admin_only) true) root_admin "C" = false
  ∧ ∀ other : CRUDView,
      permissions other = Some admin_only →
      has_crud_permission other root_admin "R"
      = has_crud_permission (view_with (Some admin_only) true) root_admin "R".
Proof.
  apply (readonly_mode_denies_writes
           (view_with (Some admin_only) true) root_admin "C").
  - reflexivity.
  - unfold write_ops. apply list_elem_of_here.
Defined.

(** C2, as stated, fails: a view without any permission map that is in
    read-only mode denies create, also to a user without roles. *)
Lemma fail_open_blocked_by_readonly :
  ¬ fail_open_unconditional (view_with None true) nobody "C".
Proof.
  unfold fail_open_unconditional. intros H.
  assert (has_crud_permission (view_with None true) nobody "C" = true) as E
    by (apply H; exact I).
  vm_compute in E. discriminate E.
Qed.

(** C2, amended. Where read-only mode does not close the operation, the
    gate answers true for every user whenever no rule covers the
    operation. *)
Theorem fail_open_without_rule (self : CRUDView) (user : User)
  (operation : string) :
  readonly_mode self = false ∨ operation ∉ write_ops →
  no_rule self operation →
  has_crud_permission self user operation = true.
Proof.
  intros Hguard Hrule. unfold has_crud_permission.
  rewrite (readonly_guard_off _ _ Hguard).
  rewrite (no_rule_required_roles _ _ Hrule). simpl.
  by destruct (negb (Py.dict_truthy (permissions self))).
Qed.

Lemma fail_open_without_rule_witness :
  has_crud_permission (view_with (Some admin_only) false) nobody "R" = true.
Proof.
  apply (fail_open_without_rule (view_with (Some admin_only) false) nobody "R").
  - left. reflexivity.
  - left. reflexivity.
Defined.

End PermissionGate.

(** ** The field-type resolver *)

Section FieldTypeResolver.
Import Django Forms.

(** The fuel of [builtin_mro] is enough: every chain of base classes
    ends in a class without a base. *)
Lemma builtin_mro_complete (b : builtin) :
  ∃ root, last (builtin_mro b) = Some root ∧ builtin_base root = None.
Proof. destruct b; vm_compute; eauto. Qed.

(** The resolver sees the class only through [issubclass], which a
    derived class inherits from its base: a property of the sixteen tests
    holds for every class once it holds for the framework's. *)
Lemma class_ind_builtin (P : (builtin → bool) → Prop) :
  (∀ b, P (issubclass (Builtin b))) → ∀ c, P (issubclass c).
Proof.
  intros Hb c. induction c as [b | n base IH]; [apply Hb | exact IH].
Qed.

Ltac by_class c :=
  pattern (issubclass c); apply class_ind_builtin;
  let b := fresh "b" in intros b; destruct b; vm_compute.

Lemma in_list_elem (x : string) (l : list string) :
  Py.in_list x l = true → x ∈ l.
Proof. apply bool_decide_eq_true_1. Qed.

Lemma in_list_not_elem (x : string) (l : list string) :
  Py.in_list x l = false → x ∉ l.
Proof. apply bool_decide_eq_false_1. Qed.

Lemma scan_mapping_closed (f : ModelField) :
  Py.in_list (scan_mapping f field_mapping) InputCategory = true.
Proof.
  unfold scan_mapping, field_mapping, isinstance.
  by_class (cls f); reflexivity.
Qed.

Lemma scan_mapping_unrecognized (f : ModelField) :
  unrecognized f → scan_mapping f field_mapping = "text".
Proof.
  unfold unrecognized. generalize field_mapping as table.
  induction table as [| [k t] rest IH]; intros H; [done|].
  simpl. rewrite (H k t) by apply list_elem_of_here.
  apply IH. intros k' t' Hin. apply (H k' t'). by apply list_elem_of_further.
Qed.

(** C7. The resolver is a total function that returns one category of
    the closed enumeration for every field, and ['text'] for a field the
    type table does not recognise. *)
Theorem get_field_type_closed (f : ModelField) :
  (∃ category, get_field_type f = category ∧ category ∈ InputCategory)
  ∧ (unrecognized f → get_field_type f = "text").
Proof.
  split.
  - eexists; split; [reflexivity|].
    unfold get_field_type.
    destruct (_ && _); [by apply in_list_elem|].
    apply in_list_elem, scan_mapping_closed.
  - intros H. unfold get_field_type.
    rewrite (H BooleanField "checkbox").
    + by apply scan_mapping_unrecognized.
    + unfold field_mapping. do 8 apply list_elem_of_further.
      apply list_elem_of_here.
Qed.

Lemma get_field_type_closed_witness :
  get_field_type (field_of "token" (Builtin UUIDField) None) ∈ InputCategory
  ∧ get_field_type (field_of "token" (Builtin UUIDField) None) = "text".
Proof.
  destruct (get_field_type_closed (field_of "token" (Builtin UUIDField) None))
    as [[category [<- Hin]] Htext].
  split; [exact Hin|]. apply Htext.
  intros k t Hin'. apply list_elem_of_In in Hin'. simpl in Hin'.
  repeat destruct Hin' as [[= <- <-] | Hin']; try reflexivity.
  destruct Hin'.
Defined.

(** C8. A boolean field that carries a non-empty choice set resolves to
    ['select'], whatever its other attributes are. *)
Theorem boolean_with_choices_is_select (f : ModelField) :
  isinstance f BooleanField = true →
  has_choices f →
  get_field_type f = "select".
Proof.
  intros Hb (c & l & Hch). unfold get_field_type, choices_truthy.
  by rewrite Hb, Hch.
Qed.

Lemma boolean_with_choices_is_select_witness :
  get_field_type
    (field_of "active_client" (Builtin BooleanField) (Some yes_no)) = "select".
Proof.
  apply boolean_with_choices_is_select.
  - reflexivity.
  - exists (Py.VBool true, "Yes"), [(Py.VBool false, "No")]. reflexivity.
Defined.

Lemma email_url_are_char (c : class) :
  issubclass c EmailField || issubclass c URLField = true →
  issubclass c BooleanField = false ∧ issubclass c CharField = true.
Proof. by_class c; intros H; try discriminate H; done. Qed.

Lemma scan_mapping_never_email_url (f : ModelField) :
  Py.in_list (scan_mapping f field_mapping) ["email"; "url"] = false.
Proof.
  unfold scan_mapping, field_mapping, isinstance.
  by_class (cls f); reflexivity.
Qed.

(** C10. An email field and a URL field resolve to ['text']: each is an
    instance of the string field class, whose entry comes first in the
    table; no field at all resolves to ['email'] or to ['url']. *)
Theorem email_and_url_resolve_to_text (f : ModelField) :
  isinstance f EmailField = true ∨ isinstance f URLField = true →
  get_field_type f = "text"
  ∧ isinstance f CharField = true
  ∧ ∀ g : ModelField, get_field_type g ∉ ["email"; "url"].
Proof.
  intros H.
  assert (issubclass (cls f) BooleanField = false
          ∧ issubclass (cls f) CharField = true) as [Hb Hc].
  { apply email_url_are_char. unfold isinstance in H.
    destruct H as [-> | ->]; [done | apply orb_true_r]. }
  split; [|split; [exact Hc|]].
  - unfold get_field_type, isinstance. rewrite Hb. simpl.
    unfold isinstance. by rewrite Hc.
  - intros g. unfold get_field_type.
    destruct (_ && _).
    + by apply in_list_not_elem.
    + apply in_list_not_elem, scan_mapping_never_email_url.
Qed.

Lemma email_and_url_resolve_to_text_witness :
  get_field_type (field_of "email" (Builtin EmailField) None) = "text"
  ∧ get_field_type (field_of "homepage" (Builtin URLField) None) = "text".
Proof.
  split.
  - apply (email_and_url_resolve_to_text
             (field_of "email" (Builtin EmailField) None)).
    left. reflexivity.
  - apply (email_and_url_resolve_to_text
             (field_of "homepage" (Builtin URLField) None)).
    right. reflexivity.
Defined.

End FieldTypeResolver.

(** ** Pagination *)

Section Pagination.
Import Django Templates.
Context {A : Type}.
Implicit Types (records : list A) (per_page k : Z).

Lemma ceil_div_bounds (a b : Z) :
  1 ≤ b → (ceil_div a b - 1) * b < a ≤ ceil_div a b * b.
Proof.
  intros Hb. unfold ceil_div.
  pose proof (Z.div_mod (- a) b ltac:(lia)) as Hdm.
  pose proof (Z.mod_pos_bound (- a) b ltac:(lia)) as Hm.
  nia.
Qed.

Lemma ceil_div_pos (a b : Z) : 1 ≤ b → 1 ≤ a → 1 ≤ ceil_div a b.
Proof. intros Hb Ha. pose proof (ceil_div_bounds a b Hb). nia. Qed.

Lemma ceil_div_0 (b : Z) : 1 ≤ b → ceil_div 0 b = 0.
Proof. intros Hb. unfold ceil_div. simpl. by rewrite Z.div_0_l by lia. Qed.

Lemma num_pages_total records per_page :
  1 ≤ per_page →
  num_pages (Paginator_init records per_page)
  = page_total (Z.of_nat (length records)) per_page.
Proof.
  intros Hpp. unfold num_pages, page_total, count. simpl.
  rewrite andb_false_r, Z.sub_0_r.
  destruct (length records) as [|n].
  - change (Z.max 1 (Z.of_nat 0)) with 1. change (Z.of_nat 0) with 0.
    rewrite ceil_div_0 by done.
    pose proof (ceil_div_bounds 1 per_page Hpp). nia.
  - rewrite (Z.max_r 1 (Z.of_nat (S n))) by lia.
    pose proof (ceil_div_pos (Z.of_nat (S n)) per_page Hpp ltac:(lia)). lia.
Qed.

Lemma page_total_bounds (n per_page : Z) :
  1 ≤ per_page → 0 ≤ n →
  1 ≤ page_total n per_page
  ∧ n ≤ page_total n per_page * per_page
  ∧ (1 ≤ n → (page_total n per_page - 1) * per_page < n).
Proof.
  intros Hpp Hn. unfold page_total.
  pose proof (ceil_div_bounds n per_page Hpp).
  split; [lia|]. split; [nia|]. intros Hn1.
  pose proof (ceil_div_pos n per_page Hpp Hn1). nia.
Qed.

Lemma slice_page records per_page k :
  1 ≤ per_page → 1 ≤ k →
  let bottom := (k - 1) * per_page in
  let n := Z.of_nat (length records) in
  slice records bottom
    (if bottom + per_page + 0 >=? n then n else bottom + per_page)
  = nth_page records per_page k.
Proof.
  intros Hpp Hk bottom n. unfold slice, nth_page. fold bottom.
  assert (0 ≤ bottom) by (unfold bottom; nia).
  destruct (Z.geb_spec (bottom + per_page + 0) n) as [Hge | Hlt].
  - rewrite !take_ge; [done | |]; rewrite length_drop; lia.
  - f_equal. lia.
Qed.

Lemma page_in_range records per_page k :
  1 ≤ per_page →
  1 ≤ k ≤ page_total (Z.of_nat (length records)) per_page →
  page (Paginator_init records per_page) (PageInt k)
  = Py.Ok {| page_object_list := nth_page records per_page k;
             number := k;
             paginator := Paginator_init records per_page |}.
Proof.
  intros Hpp Hk. unfold page, validate_number.
  rewrite num_pages_total by done.
  destruct (Z.ltb_spec k 1); [lia|].
  destruct (Z.gtb_spec k (page_total (Z.of_nat (length records)) per_page));
    [lia|].
  cbn. f_equal. f_equal. apply slice_page; lia.
Qed.

Lemma get_page_resolves records per_page (requested : page_arg) :
  1 ≤ per_page →
  let total := page_total (Z.of_nat (length records)) per_page in
  get_page (Paginator_init records per_page) requested
  = page (Paginator_init records per_page)
         (PageInt (resolved_number requested total)).
Proof.
  intros Hpp total. unfold get_page, validate_number, resolved_number.
  rewrite num_pages_total by done. fold total.
  assert (1 ≤ total) by
    (apply (page_total_bounds (Z.of_nat (length records)) per_page); lia).
  destruct requested as [n|]; [|done].
  destruct (Z.ltb_spec n 1).
  { cbn. destruct (Z.leb_spec 1 n); [lia | done]. }
  destruct (Z.leb_spec 1 n); [|lia].
  destruct (Z.gtb_spec n total).
  - destruct (Z.leb_spec n total); [lia|].
    destruct (Z.eqb_spec n 1); [lia | done].
  - destruct (Z.leb_spec n total); [done | lia].
Qed.

Lemma concat_chunks (l : list A) (size n : nat) :
  (length l ≤ n * size)%nat →
  concat ((λ i, take size (drop (i * size) l)) <$> seq 0 n) = l.
Proof.
  revert l. induction n as [|n IH]; intros l Hlen.
  - simpl in *. by destruct l; [|simpl in Hlen; lia].
  - rewrite <- cons_seq, fmap_cons. simpl concat.
    rewrite <- fmap_S_seq, <- list_fmap_compose.
    rewrite (list_fmap_ext _ (λ i, take size (drop (i * size) (drop size l)))).
    + rewrite IH by (rewrite length_drop; lia).
      apply take_drop.
    + intros i j _. simpl. rewrite drop_drop. do 2 f_equal; lia.
Qed.

Lemma pages_cover records per_page :
  1 ≤ per_page →
  concat (nth_page records per_page
            <$> seqZ 1 (page_total (Z.of_nat (length records)) per_page))
  = records.
Proof.
  intros Hpp.
  pose proof (page_total_bounds (Z.of_nat (length records)) per_page Hpp
                ltac:(lia)) as (Ht1 & Hcover & _).
  unfold seqZ. rewrite <- list_fmap_compose.
  rewrite (list_fmap_ext _
             (λ i, take (Z.to_nat per_page)
                     (drop (i * Z.to_nat per_page) records))).
  - apply concat_chunks. nia.
  - intros i j _. simpl. unfold nth_page. do 2 f_equal. nia.
Qed.

Lemma nth_page_length records per_page k :
  1 ≤ per_page →
  let total := page_total (Z.of_nat (length records)) per_page in
  (1 ≤ k < total →
   length (nth_page records per_page k) = Z.to_nat per_page)
  ∧ (length (nth_page records per_page total) ≤ Z.to_nat per_page)%nat.
Proof.
  intros Hpp total.
  pose proof (page_total_bounds (Z.of_nat (length records)) per_page Hpp
                ltac:(lia)) as (Ht1 & Hcover & Hlast).
  fold total in Ht1, Hcover, Hlast.
  unfold nth_page. split.
  - intros Hk. rewrite length_take, length_drop.
    assert (1 ≤ Z.of_nat (length records)).
    { destruct (length records); [|lia]. unfold total, page_total in Hk.
      change (Z.of_nat 0) with 0 in Hk. rewrite ceil_div_0 in Hk; lia. }
    specialize (Hlast ltac:(lia)).
    assert (k * per_page ≤ (total - 1) * per_page) by nia.
    assert (0 ≤ (k - 1) * per_page) by nia.
    lia.
  - rewrite length_take. lia.
Qed.

Lemma get_page_eval records per_page (requested : page_arg) :
  1 ≤ per_page →
  let total := page_total (Z.of_nat (length records)) per_page in
  get_page (Paginator_init records per_page) requested
  = Py.Ok {| page_object_list :=
               nth_page records per_page (resolved_number requested total);
             number := resolved_number requested total;
             paginator := Paginator_init records per_page |}.
Proof.
  intros Hpp total. rewrite get_page_resolves by done.
  apply page_in_range; [done|].
  unfold resolved_number. fold total.
  assert (1 ≤ total) by
    (apply (page_total_bounds (Z.of_nat (length records)) per_page); lia).
  destruct requested as [n|]; [|lia].
  destruct (Z.leb_spec 1 n), (Z.leb_spec n total); simpl; lia.
Qed.

End Pagination.

Section ListPagination.
Import Django Templates.

(** C3, as stated, fails twice: page 0 of thirty records, ten a page, is
    shown as page 3, the last one, not page 1; and an empty collection has
    one (empty) page, not [ceil(0 / 10) = 0] pages. *)
Lemma pagination_page_zero_and_empty :
  ¬ pagination_as_stated thirty 10 0 ∧ ¬ pagination_as_stated [] 10 1.
Proof.
  split; intros (pg & Hpg & Htotal & Hnumber);
    unfold paginate in Hpg; rewrite get_page_eval in Hpg by lia;
    apply (f_equal (λ r, match r with
                         | Py.Ok p => (number p, num_pages (paginator p))
                         | Py.Raise _ => (0, 0)
                         end)) in Hpg;
    rewrite Htotal in Hnumber; rewrite Hnumber, Htotal in Hpg;
    vm_compute in Hpg; discriminate Hpg.
Qed.

(** C3, amended. For [per_page ≥ 1] the records are split into
    [max(1, ceil(N / per_page))] consecutive pages (an empty collection
    has one empty page): the pages in order make up the records, every
    page before the last holds [per_page] records and the last holds at
    most [per_page]. [render_list]'s pagination never raises: a request in
    range is shown as asked, a request that is no integer as page 1, and
    an integer out of range, below 1 or above the total, as the last
    page. *)
Theorem pagination_splits_and_resolves (records : list Py.object)
  (per_page : Z) (requested : page_arg) :
  1 ≤ per_page →
  let total := page_total (Z.of_nat (length records)) per_page in
  num_pages (Paginator_init records per_page) = total
  ∧ concat (nth_page records per_page <$> seqZ 1 total) = records
  ∧ (∀ k, 1 ≤ k < total →
          length (nth_page records per_page k) = Z.to_nat per_page)
  ∧ (length (nth_page records per_page total) ≤ Z.to_nat per_page)%nat
  ∧ ∃ pg, paginate records per_page requested = Py.Ok pg
          ∧ number pg = resolved_number requested total
          ∧ page_object_list pg = nth_page records per_page (number pg).
Proof.
  intros Hpp total.
  pose proof (page_total_bounds (Z.of_nat (length records)) per_page Hpp
                ltac:(lia)) as (Ht1 & _).
  fold total in Ht1.
  split; [by apply num_pages_total|].
  split; [by apply pages_cover|].
  split; [intros k; apply (nth_page_length records per_page k Hpp)|].
  split; [apply (nth_page_length records per_page 1 Hpp)|].
  eexists. split.
  - unfold paginate. by apply get_page_eval.
  - split; reflexivity.
Qed.

Lemma pagination_splits_and_resolves_witness :
  ∃ pg, paginate thirty 10 (PageInt 4) = Py.Ok pg
        ∧ number pg = 3
        ∧ length (page_object_list pg) = 10%nat.
Proof.
  destruct (pagination_splits_and_resolves thirty 10 (PageInt 4) ltac:(lia))
    as (_ & _ & _ & _ & pg & Hpg & Hnumber & Hitems).
  exists pg. split; [exact Hpg|]. split.
  - rewrite Hnumber. reflexivity.
  - rewrite Hitems, Hnumber. reflexivity.
Defined.

End ListPagination.

(** ** Search *)

Section Search.
Import Django Templates.







Lemma build_q_from (q : Q) (fields : list string) (query : string) :
  Q_truthy q = true →
  let q' := foldl (λ acc field, Q_combine_or acc (Q_icontains field query))
                  q fields in
  Q_truthy q' = true
  ∧ Q_fields q' = Q_fields q ++ fields
  ∧ ∀ obj b,
      Q_matches q obj = Some b →
      (∀ field, field ∈ fields → is_Some (icontains obj field query)) →
      Q_matches q' obj = Some (b || keeps fields query obj).
Proof.
  revert q. induction fields as [|f rest IH]; intros q Hq; simpl.
  - split; [done|]. split; [by rewrite app_nil_r|].
    intros obj b Hb _. by rewrite orb_false_r.
  - unfold Q_combine_or at 2 4 6. rewrite Hq. simpl.
    destruct (IH (Q_or q (Q_icontains f query)) eq_refl) as (Ht & Hf & Hm).
    split; [exact Ht|]. split.
    + rewrite Hf. simpl. by rewrite <- app_assoc.
    + intros obj b Hb Hdef.
      destruct (Hdef f) as [c Hc]; [by left|].
      rewrite (Hm obj (b || c)).
      * unfold keeps. simpl. rewrite Hc. simpl. by rewrite orb_assoc.
      * simpl. rewrite Hb, Hc. done.
      * intros field Hin. apply Hdef. by right.
Qed.

Lemma build_q_spec (fields : list string) (query : string) :
  fields ≠ [] →
  Q_fields (build_q fields query) = fields
  ∧ ∀ obj,
      (∀ field, field ∈ fields → is_Some (icontains obj field query)) →
      Q_matches (build_q fields query) obj = Some (keeps fields query obj).
Proof.
  destruct fields as [|f rest]; [done|]. intros _.
  unfold build_q. simpl foldl. unfold Q_combine_or at 2 4. simpl.
  destruct (build_q_from (Q_icontains f query) rest query eq_refl)
    as (_ & Hf & Hm).
  split; [exact Hf|]. intros obj Hdef.
  destruct (Hdef f) as [c Hc]; [by left|].
  rewrite (Hm obj c Hc).
  - unfold keeps. simpl. by rewrite Hc.
  - intros field Hin. apply Hdef. by right.
Qed.






End Search.

(** ** Row actions *)

Section RowActions.
Import Templates.

(** A link ends with its label and the closing tag. *)
Lemma action_link_end (url classes label : string) :
  ∃ start, action_link url classes label = start +:+ (label +:+ "</a>").
Proof.
  exists ("<a href=" +:+ Str.qt url +:+ " class="
          +:+ Str.qt (classes +:+ " btn-sm") +:+ ">").
  unfold action_link. by rewrite !str_app_assoc.
Qed.

Lemma view_is_not_edit u1 c1 u2 c2 :
  action_link u1 c1 "View" ≠ action_link u2 c2 "Edit".
Proof.
  destruct (action_link_end u1 c1 "View") as [s1 ->].
  destruct (action_link_end u2 c2 "Edit") as [s2 ->].
  intros H. same_end H.
Qed.

Lemma view_is_not_delete u1 c1 u2 c2 :
  action_link u1 c1 "View" ≠ action_link u2 c2 "Delete".
Proof.
  destruct (action_link_end u1 c1 "View") as [s1 ->].
  destruct (action_link_end u2 c2 "Delete") as [s2 ->].
  change ("Delete" +:+ "</a>") with ("De" +:+ "lete</a>").
  rewrite <- (str_app_assoc s2). intros H. same_end H.
Qed.

Lemma edit_is_not_delete u1 c1 u2 c2 :
  action_link u1 c1 "Edit" ≠ action_link u2 c2 "Delete".
Proof.
  destruct (action_link_end u1 c1 "Edit") as [s1 ->].
  destruct (action_link_end u2 c2 "Delete") as [s2 ->].
  change ("Delete" +:+ "</a>") with ("De" +:+ "lete</a>").
  rewrite <- (str_app_assoc s2). intros H. same_end H.
Qed.

Lemma permitted_lookup (permissions : gmap string bool) (key : string)
  (flag : bool) :
  permissions !! key = Some flag →
  permitted (Some permissions) key = flag.
Proof.
  intros Hk. unfold permitted, Py.dict_truthy. rewrite Hk. simpl.
  rewrite bool_decide_eq_false_2; [done|].
  intros Hdom. apply (not_elem_of_empty (C := gset string) key).
  rewrite <- Hdom. apply elem_of_dom. by eexists.
Qed.

(** [not permissions or permissions.get(key, True)] is false only for an
    explicit false. *)
Lemma permitted_allowed (permissions : option (gmap string bool))
  (key : string) :
  permitted permissions key = allowed permissions key.
Proof.
  unfold permitted, allowed, Py.dict_truthy.
  destruct permissions as [m|]; [|done]. simpl.
  destruct (m !! key) as [[|]|] eqn:Hk; rewrite ?orb_true_r; try done.
  rewrite bool_decide_eq_false_2; [done|].
  intros Hdom. apply (not_elem_of_empty (C := gset string) key).
  rewrite <- Hdom. apply elem_of_dom. by eexists.
Qed.

Lemma allowed_lookup (permissions : gmap string bool) (key : string)
  (flag : bool) :
  permissions !! key = Some flag → allowed (Some permissions) key = flag.
Proof. intros Hk. unfold allowed. rewrite Hk. by destruct flag. Qed.

(** The actions cell that [render_list] builds is the group of the links
    that are allowed, or the placeholder. *)
Lemma actions_html_cell (fw : Frameworks.Framework)
  (base_url : option string) (permissions : option (gmap string bool))
  (obj_id : string) :
  actions_html (action_buttons fw base_url permissions obj_id)
  = actions_cell fw base_url obj_id (allowed permissions "can_read")
      (allowed permissions "can_update") (allowed permissions "can_delete").
Proof.
  unfold action_buttons. rewrite !permitted_allowed.
  destruct (allowed permissions "can_read"),
    (allowed permissions "can_update"), (allowed permissions "can_delete");
    unfold actions_html, actions_cell, group_of;
    cbn [app Py.list_truthy orb Str.concat foldr];
    by rewrite ?str_app_nil_r.
Qed.

Lemma row_actions_cell (fw : Frameworks.Framework) (fields : list string)
  (base_url : option string) (permissions : option (gmap string bool))
  (obj : Py.object) (row : list string) :
  row_of fw fields base_url permissions obj = Py.Ok row
  ↔ ∃ obj_id,
      obj_id_of obj = Py.Ok obj_id
      ∧ row = List.map (cell obj) fields
              ++ [actions_cell fw base_url obj_id
                    (allowed permissions "can_read")
                    (allowed permissions "can_update")
                    (allowed permissions "can_delete")].
Proof.
  unfold row_of.
  destruct (obj_id_of obj) as [obj_id | e]; cbn [mbind Py.result_bind].
  - rewrite actions_html_cell. split.
    + intros [= <-]. by exists obj_id.
    + by intros (? & [= <-] & ->).
  - split; [done | by intros (? & ? & _)].
Qed.

Lemma contains_in_group (link links : string) :
  Str.contains link links = true →
  Str.contains link (group_of links) = true.
Proof.
  intros Hin. unfold group_of.
  do 7 apply contains_app_r. by apply contains_app_l.
Qed.

(** A link that is allowed stands in the cell. *)
Lemma link_present (fw : Frameworks.Framework) (base_url : option string)
  (obj_id : string) (r u d : bool) :
  (r = true →
   Str.contains (view_link fw base_url obj_id)
     (actions_cell fw base_url obj_id r u d) = true)
  ∧ (u = true →
     Str.contains (edit_link fw base_url obj_id)
       (actions_cell fw base_url obj_id r u d) = true)
  ∧ (d = true →
     Str.contains (delete_link fw base_url obj_id)
       (actions_cell fw base_url obj_id r u d) = true).
Proof.
  unfold actions_cell. split; [|split]; intros ->;
    rewrite ?orb_true_r; cbn [orb]; apply contains_in_group.
  - apply contains_app_l, contains_self.
  - apply contains_app_r, contains_app_l, contains_self.
  - do 2 apply contains_app_r. apply contains_self.
Qed.

Lemma placeholder_iff (fw : Frameworks.Framework)
  (base_url : option string) (obj_id : string) (r u d : bool) :
  actions_cell fw base_url obj_id r u d = placeholder
  ↔ r = false ∧ u = false ∧ d = false.
Proof.
  split.
  - unfold actions_cell. destruct (r || u || d) eqn:Hany.
    + unfold group_of, placeholder, Frameworks.br. intros Heq.
      rewrite str_app_cons in Heq. discriminate Heq.
    + intros _. by destruct r, u, d.
  - by intros (-> & -> & ->).
Qed.

(** *** When a link is not in the cell *)

Lemma tag_skip (nb x b r : string) :
  free_of less_than nb = true → free_of less_than b = true → nb ≠ b →
  Str.contains (String less_than (nb +:+ String less_than x))
    (String less_than (b +:+ String less_than r))
  = Str.contains (String less_than (nb +:+ String less_than x))
      (String less_than r).
Proof.
  intros Hnb Hb Hne.
  rewrite contains_cons, startswith_cons, Ascii.eqb_refl. cbn [andb].
  destruct (Str.startswith _ _) eqn:Hs.
  - by apply startswith_same_body in Hs.
  - cbn [orb]. by apply contains_skip.
Qed.

Lemma tag_last (nb x b : string) :
  free_of less_than b = true →
  Str.contains (String less_than (nb +:+ String less_than x))
    (String less_than b) = false.
Proof.
  intros Hb.
  rewrite contains_cons, startswith_cons, Ascii.eqb_refl. cbn [andb].
  rewrite startswith_free by done. cbn [orb].
  rewrite <- (str_app_nil_r b), contains_skip by done. done.
Qed.

(** A tag is in no sequence of tags that have other bodies. *)
Lemma clear_of_tags (nb x : string) (bodies : list string) :
  free_of less_than nb = true →
  Forall (λ b, free_of less_than b = true) bodies →
  nb ∉ bodies →
  Str.contains (String less_than (nb +:+ String less_than x)) (tags bodies)
  = false.
Proof.
  intros Hnb Hfree Hnot.
  induction bodies as [|b rest IH]; [done|].
  apply Forall_cons in Hfree as [Hb Hrest].
  apply not_elem_of_cons in Hnot as [Hne Hnot].
  destruct rest as [|b' rest'].
  - cbn [tags]. rewrite str_app_nil_r. by apply tag_last.
  - change (tags (b :: b' :: rest'))
      with (String less_than (b +:+ String less_than (b' +:+ tags rest'))).
    rewrite tag_skip by done. by apply IH.
Qed.

Lemma action_link_tag (url classes label : string) :
  action_link url classes label = link_of (link_body url classes label).
Proof.
  unfold action_link, link_of, link_body. by rewrite !str_app_assoc.
Qed.

Lemma links_as_tags (bodies : list string) (after : string)
  (rest : list string) :
  bodies ≠ [] →
  Str.concat (List.map link_of bodies) +:+ after +:+ tags rest
  = tags (link_tags bodies after ++ rest).
Proof.
  induction bodies as [|b bs IH]; [done|]. intros _.
  destruct bs as [|b' bs'].
  - cbn [List.map Str.concat foldr link_tags app tags]. unfold link_of.
    rewrite str_app_nil_r, !str_app_cons, !str_app_assoc. done.
  - change (link_tags (b :: b' :: bs') after)
      with (b :: "/a>" :: link_tags (b' :: bs') after).
    cbn [app tags]. rewrite <- IH by done.
    cbn [List.map Str.concat foldr]. unfold link_of at 1.
    rewrite !str_app_cons, !str_app_assoc. done.
Qed.

Lemma group_as_tags (bodies : list string) :
  bodies ≠ [] →
  group_of (Str.concat (List.map link_of bodies))
  = Frameworks.br 8
    +:+ tags (group_body
              :: link_tags bodies (Frameworks.br 8)
              ++ ["/div>" +:+ Frameworks.br 8]).
Proof.
  intros Hne. unfold group_of, group_body. cbn [tags].
  rewrite <- (links_as_tags bodies (Frameworks.br 8)) by done.
  cbn [tags]. by rewrite !str_app_assoc, str_app_nil_r.
Qed.

Lemma link_tags_elem (bodies : list string) (after t : string) :
  t ∈ link_tags bodies after →
  t ∈ bodies ∨ t = "/a>" ∨ t = "/a>" +:+ after.
Proof.
  induction bodies as [|b bs IH]; [by intros ?%elem_of_nil|].
  destruct bs as [|b' bs'].
  - cbn [link_tags]. rewrite !elem_of_cons, elem_of_nil. intuition.
  - change (link_tags (b :: b' :: bs') after)
      with (b :: "/a>" :: link_tags (b' :: bs') after).
    rewrite !elem_of_cons. intros [-> | [-> | Ht]].
    + left. by left.
    + right. by left.
    + destruct (IH Ht) as [Hin | Hc]; [|by right].
      left. right. by apply elem_of_cons.
Qed.

(** A link whose body is not among the bodies of the links of the group
    is not in the group. *)
Lemma absent_from_group (url classes label : string)
  (bodies : list string) :
  free_of less_than (link_body url classes label) = true →
  Forall (λ b, free_of less_than b = true) bodies →
  bodies ≠ [] →
  link_body url classes label ∉ bodies →
  Str.contains (link_of (link_body url classes label))
    (group_of (Str.concat (List.map link_of bodies))) = false.
Proof.
  intros Hnb Hfree Hne Hnot. rewrite group_as_tags by done.
  unfold link_of. rewrite contains_skip by done.
  apply clear_of_tags; [done| |].
  - apply Forall_cons. split; [done|]. apply Forall_app. split.
    + apply Forall_forall. intros t [Ht | [-> | ->]]%link_tags_elem; [|done..].
      by apply (proj1 (Forall_forall _ _) Hfree).
    + by repeat constructor.
  - rewrite elem_of_cons, elem_of_app, elem_of_cons, elem_of_nil.
    intros [Heq | [[Ht | [Heq | Heq]]%link_tags_elem | [Heq | []]]];
      try (unfold link_body in Heq; rewrite !str_app_cons in Heq;
           discriminate Heq).
    done.
Qed.

Lemma absent_from_placeholder (url classes label : string) :
  Str.contains (link_of (link_body url classes label)) placeholder = false.
Proof. done. Qed.

Lemma link_body_free (url classes label : string) :
  free_of less_than url = true →
  free_of less_than classes = true →
  free_of less_than label = true →
  free_of less_than (link_body url classes label) = true.
Proof.
  intros Hu Hc Hl. unfold link_body, Str.qt.
  by rewrite !free_of_app, Hu, Hc, Hl.
Qed.

Lemma action_url_free (base_url : option string) (obj_id suffix verb : string) :
  plain_urls base_url obj_id →
  free_of less_than suffix = true →
  free_of less_than verb = true →
  free_of less_than (action_url base_url obj_id suffix verb) = true.
Proof.
  intros [Hb Hi] Hs Hv. unfold action_url.
  destruct (str_truthy base_url); by rewrite !free_of_app, ?Hb, ?Hi, ?Hs, ?Hv.
Qed.

Lemma link_bodies_differ (u1 c1 l1 u2 c2 l2 : string) :
  action_link u1 c1 l1 ≠ action_link u2 c2 l2 →
  link_body u1 c1 l1 ≠ link_body u2 c2 l2.
Proof. intros Hne Heq. apply Hne. by rewrite !action_link_tag, Heq. Qed.

Lemma classes_free (fw : Frameworks.Framework) :
  free_of less_than (Frameworks.bc_info (Frameworks.button_classes fw)) = true
  ∧ free_of less_than (Frameworks.bc_warning (Frameworks.button_classes fw))
    = true
  ∧ free_of less_than (Frameworks.bc_danger (Frameworks.button_classes fw))
    = true.
Proof. by destruct fw. Qed.

(** The links of a cell as a run of links. *)
Lemma links_of_cell (bv be bd : string) (r u d : bool) :
  (if r then link_of bv else "") +:+ (if u then link_of be else "")
  +:+ (if d then link_of bd else "")
  = Str.concat
      (List.map link_of
         ((if r then [bv] else []) ++ (if u then [be] else [])
          ++ (if d then [bd] else []))).
Proof.
  destruct r, u, d; cbn [app List.map Str.concat foldr];
    by rewrite ?str_app_nil_r.
Qed.

(** With a base URL and a key that hold no [<], a link that is not
    allowed is not in the cell. *)
Lemma link_absent (fw : Frameworks.Framework) (base_url : option string)
  (obj_id : string) (r u d : bool) :
  plain_urls base_url obj_id →
  (r = false →
   Str.contains (view_link fw base_url obj_id)
     (actions_cell fw base_url obj_id r u d) = false)
  ∧ (u = false →
     Str.contains (edit_link fw base_url obj_id)
       (actions_cell fw base_url obj_id r u d) = false)
  ∧ (d = false →
     Str.contains (delete_link fw base_url obj_id)
       (actions_cell fw base_url obj_id r u d) = false).
Proof.
  intros Hplain.
  destruct (classes_free fw) as (Hci & Hcw & Hcd).
  pose proof (action_url_free base_url obj_id "" "view" Hplain eq_refl eq_refl)
    as Huv.
  pose proof (action_url_free base_url obj_id "edit/" "edit" Hplain eq_refl
                eq_refl) as Hue.
  pose proof (action_url_free base_url obj_id "delete/" "delete" Hplain
                eq_refl eq_refl) as Hud.
  pose proof (link_body_free _ _ "View" Huv Hci eq_refl) as Hfv.
  pose proof (link_body_free _ _ "Edit" Hue Hcw eq_refl) as Hfe.
  pose proof (link_body_free _ _ "Delete" Hud Hcd eq_refl) as Hfd.
  pose proof (link_bodies_differ _ _ _ _ _ _
    (view_is_not_edit
       (action_url base_url obj_id "" "view")
       (Frameworks.bc_info (Frameworks.button_classes fw))
       (action_url base_url obj_id "edit/" "edit")
       (Frameworks.bc_warning (Frameworks.button_classes fw)))) as Hve.
  pose proof (link_bodies_differ _ _ _ _ _ _
    (view_is_not_delete
       (action_url base_url obj_id "" "view")
       (Frameworks.bc_info (Frameworks.button_classes fw))
       (action_url base_url obj_id "delete/" "delete")
       (Frameworks.bc_danger (Frameworks.button_classes fw)))) as Hvd.
  pose proof (link_bodies_differ _ _ _ _ _ _
    (edit_is_not_delete
       (action_url base_url obj_id "edit/" "edit")
       (Frameworks.bc_warning (Frameworks.button_classes fw))
       (action_url base_url obj_id "delete/" "delete")
       (Frameworks.bc_danger (Frameworks.button_classes fw)))) as Hed.
  unfold actions_cell, view_link, edit_link, delete_link.
  rewrite !action_link_tag.
  set (bv := link_body (action_url base_url obj_id "" "view") _ "View") in *.
  set (be := link_body (action_url base_url obj_id "edit/" "edit") _ "Edit")
    in *.
  set (bd := link_body (action_url base_url obj_id "delete/" "delete") _
               "Delete") in *.
  rewrite !(links_of_cell bv be bd).
  split; [|split]; intros ->;
    (destruct (_ || _) eqn:Hany; [|apply absent_from_placeholder]);
    apply absent_from_group; try done.
  all: repeat match goal with flag : bool |- _ => destruct flag end;
    try done; cbn [app].
  all: try by repeat constructor.
  all: fold bv; fold be; fold bd; clearbody bv be bd;
    rewrite ?elem_of_cons, elem_of_nil; intuition congruence.
Qed.

(** C5. In a row that [render_list] renders with a permission snapshot,
    the actions cell is the group of the view, edit and delete links whose
    flags [can_read], [can_update] and [can_delete] are true: a link whose
    flag is true stands in the cell; when all three are false, and only
    then, the cell is the one 'no actions' placeholder, which holds no
    link; and for a base URL and a key without [<] a link stands in the
    cell exactly when its flag is true. *)
Theorem action_links_follow_snapshot (fw : Frameworks.Framework)
  (fields : list string) (base_url : option string)
  (permissions : gmap string bool) (obj : Py.object)
  (can_read can_update can_delete : bool) (row : list string) :
  permissions !! "can_read" = Some can_read →
  permissions !! "can_update" = Some can_update →
  permissions !! "can_delete" = Some can_delete →
  row_of fw fields base_url (Some permissions) obj = Py.Ok row →
  ∃ obj_id actions,
    obj_id_of obj = Py.Ok obj_id
    ∧ row = List.map (cell obj) fields ++ [actions]
    ∧ actions
      = actions_cell fw base_url obj_id can_read can_update can_delete
    ∧ (can_read = true →
       Str.contains (view_link fw base_url obj_id) actions = true)
    ∧ (can_update = true →
       Str.contains (edit_link fw base_url obj_id) actions = true)
    ∧ (can_delete = true →
       Str.contains (delete_link fw base_url obj_id) actions = true)
    ∧ (can_read = false ∧ can_update = false ∧ can_delete = false
       ↔ actions = placeholder)
    ∧ (actions = placeholder → Str.contains "<a" actions = false)
    ∧ (plain_urls base_url obj_id →
       (Str.contains (view_link fw base_url obj_id) actions = true
        ↔ can_read = true)
       ∧ (Str.contains (edit_link fw base_url obj_id) actions = true
          ↔ can_update = true)
       ∧ (Str.contains (delete_link fw base_url obj_id) actions = true
          ↔ can_delete = true)).
Proof.
  intros Hr Hu Hd (obj_id & Hid & ->)%row_actions_cell.
  rewrite (allowed_lookup _ _ _ Hr), (allowed_lookup _ _ _ Hu),
    (allowed_lookup _ _ _ Hd).
  exists obj_id,
    (actions_cell fw base_url obj_id can_read can_update can_delete).
  destruct (link_present fw base_url obj_id can_read can_update can_delete)
    as (Hpv & Hpe & Hpd).
  split; [done|]. split; [done|]. split; [done|].
  split; [done|]. split; [done|]. split; [done|].
  split; [symmetry; apply placeholder_iff|].
  split; [by intros ->|].
  intros Hplain.
  destruct (link_absent fw base_url obj_id can_read can_update can_delete
              Hplain) as (Hav & Hae & Had).
  split; [|split].
  - split; [|done]. destruct can_read; [done|]. by rewrite Hav.
  - split; [|done]. destruct can_update; [done|]. by rewrite Hae.
  - split; [|done]. destruct can_delete; [done|]. by rewrite Had.
Qed.

Lemma action_links_follow_snapshot_witness :
  ∃ actions,
    row_of Frameworks.BootstrapFramework ["name"] (Some "/contacts/")
      (Some (snapshot false true false false)) record_7
    = Py.Ok ["-"; actions]
    ∧ Str.contains
        (view_link Frameworks.BootstrapFramework (Some "/contacts/") "7")
        actions = true
    ∧ Str.contains
        (edit_link Frameworks.BootstrapFramework (Some "/contacts/") "7")
        actions = false.
Proof.
  destruct (action_links_follow_snapshot Frameworks.BootstrapFramework
              ["name"] (Some "/contacts/") (snapshot false true false false)
              record_7 true false false
              ["-";
               actions_html
                 (action_buttons Frameworks.BootstrapFramework
                    (Some "/contacts/")
                    (Some (snapshot false true false false)) "7")]
              eq_refl eq_refl eq_refl eq_refl)
    as (obj_id & actions & Hid & Hrow & _ & Hv & _ & _ & _ & _ & Hiff).
  assert (obj_id = "7") as -> by (vm_compute in Hid; congruence).
  exists actions. split; [exact (f_equal Py.Ok Hrow)|].
  split; [by apply Hv|].
  destruct Hiff as (_ & He & _); [split; reflexivity|].
  apply not_true_iff_false. intros Hin. apply He in Hin. discriminate Hin.
Defined.

End RowActions.

(** ** Field values in the list and on the detail page *)

Section FieldValues.
Import Django Templates Views.

Lemma checked_on_range (f g : Z → string) (lo len : Z) :
  forallb (λ n, String.eqb (f n) (g n)) (seqZ lo len) = true →
  ∀ n, lo ≤ n < lo + len → f n = g n.
Proof.
  intros Hall n Hn. apply String.eqb_eq.
  apply (proj1 (forallb_forall _ _) Hall).
  apply list_elem_of_In, elem_of_seqZ. lia.
Qed.

Lemma zpad_two_digits (n : Z) : 0 ≤ n ≤ 99 → Py.zpad 2 n = two_digits n.
Proof.
  intros Hn. apply (checked_on_range (Py.zpad 2) two_digits 0 100); [|lia].
  by vm_compute.
Qed.

Lemma year_four_digits (n : Z) : 1000 ≤ n ≤ 9999 → pretty n = four_digits n.
Proof.
  intros Hn. apply (checked_on_range pretty four_digits 1000 9000); [|lia].
  by vm_compute.
Qed.

Lemma strftime_ymd_hm_text (d : Py.date) (t : Py.time) :
  calendar_date d →
  0 ≤ Py.hour t ≤ 23 → 0 ≤ Py.minute t ≤ 59 →
  Py.strftime_ymd d +:+ " " +:+ Py.fmt_hm t = ymd_hm d t.
Proof.
  intros (Hy & Hm & Hd) Hh Hmin.
  unfold Py.strftime_ymd, Py.fmt_hm, ymd_hm.
  rewrite (year_four_digits _ Hy), !zpad_two_digits by lia.
  by rewrite !str_app_assoc.
Qed.

Lemma cell_shows (obj : Py.object) (field_name : string) (v : Py.value)
  (s : string) :
  obj !! field_name = Some (Py.Attr v) →
  list_shows v s →
  cell obj field_name = s.
Proof.
  intros Hread Hshown. unfold cell, Py.getattr. rewrite Hread.
  cbn [mbind Py.result_bind].
  destruct Hshown as [d t Hd (Hh & Hm & _) | d Hd | | | | v s Hv Hs
                      | v e Hv Hs].
  - unfold format_value. cbn. by rewrite strftime_ymd_hm_text.
  - unfold format_value. cbn.
    by rewrite (strftime_ymd_hm_text d Py.midnight Hd).
  - done.
  - done.
  - done.
  - destruct v as [| | n | t | | | | [t|]]; try done; cbn in Hs;
      by simplify_eq.
  - destruct v as [| | n | t | | | | [t|]]; try done; cbn in Hs;
      by simplify_eq.
Qed.

Lemma cell_of_failed_read (obj : Py.object) (field_name : string) :
  read_fails obj field_name → cell obj field_name = "-".
Proof.
  unfold cell, Py.getattr. by intros [-> | [e ->]].
Qed.

Lemma detail_value_shows (v w : Py.value) :
  detail_shows v w → detail_value v = Py.Ok w.
Proof.
  intros [d t Hd (Hh & Hm & _) | d Hd | | | | v' Hv]; try done.
  - unfold detail_value. cbn. by rewrite strftime_ymd_hm_text.
  - unfold detail_value. cbn.
    by rewrite (strftime_ymd_hm_text d Py.midnight Hd).
  - by destruct v'.
Qed.

Lemma detail_value_returns (v : Py.value) : ∃ w, detail_value v = Py.Ok w.
Proof. destruct v as [| [|] | | | | | | [s|]]; by eexists. Qed.

Lemma detail_entry_result (obj : Py.object) (field : ModelField) :
  detail_entry obj field
  = match obj !! name field with
    | Some (Py.Attr v) =>
        w ← detail_value v; mret (entry_of field w)
    | Some (Py.Raising Py.AttributeError) | None =>
        Py.Ok (entry_of field (Py.VStr "Not set"))
    | Some (Py.Raising e) => Py.Raise e
    end.
Proof.
  unfold detail_entry, Py.getattr_default, Py.getattr.
  destruct (obj !! name field) as [[v|[]]|]; done.
Qed.

Lemma fields_data_elem (model_class : Model) (obj : Py.object)
  (d : FieldData) :
  d ∈ fields_data model_class obj
  ↔ ∃ field, detail_field model_class field
             ∧ detail_entry obj field = Py.Ok d.
Proof.
  unfold fields_data, detail_field. rewrite list_elem_of_omap.
  split.
  - intros (field & Hin & Hd).
    apply list_elem_of_In, filter_In in Hin as [Hin Hp].
    apply andb_true_iff in Hp as [Hset Hid].
    apply negb_true_iff in Hset. apply negb_true_iff, String.eqb_neq in Hid.
    exists field. split; [by rewrite list_elem_of_In|].
    by destruct (detail_entry obj field); simplify_eq.
  - intros (field & (Hin & Hset & Hid) & Hd). exists field. split.
    + apply list_elem_of_In, filter_In. split; [by apply list_elem_of_In|].
      rewrite Hset. simpl. by apply negb_true_iff, String.eqb_neq.
    + by rewrite Hd.
Qed.

(** C9, as stated, fails on the detail page: a null value is shown as
    'Not set', not as a dash, and a field whose read fails is left out,
    not shown as a dash. *)
Lemma field_values_not_as_stated :
  ¬ detail_as_stated shop corner_shop "note"
  ∧ ¬ detail_as_stated shop corner_shop "owner".
Proof.
  split.
  - intros (d & Hin & Hname & Hstr).
    apply list_elem_of_In in Hin. vm_compute in Hin.
    repeat (destruct Hin as [<- | Hin];
            [vm_compute in Hname, Hstr; congruence|]).
    destruct Hin.
  - intros (d & Hin & Hname & Hstr).
    apply list_elem_of_In in Hin. vm_compute in Hin.
    repeat (destruct Hin as [<- | Hin];
            [vm_compute in Hname, Hstr; congruence|]).
    destruct Hin.
Qed.

(** C9, amended. In the list every shown field becomes a text: a
    timestamp or a date of a four-digit year as YYYY-MM-DD HH:MM (a date
    with 00:00), a boolean as Yes or No, null as a dash, any other value
    by [str], and a dash when the read or the formatting fails. On the
    detail page timestamps, dates and booleans are shown the same way and
    any other value is kept as it is, but a null or missing value shows
    'Not set', and a field whose read raises is left out of the page. *)
Theorem field_values_shown (model_class : Model) (obj : Py.object)
  (field_name : string) (field : ModelField) :
  (∀ v s, obj !! field_name = Some (Py.Attr v) → list_shows v s →
          cell obj field_name = s)
  ∧ (read_fails obj field_name → cell obj field_name = "-")
  ∧ (detail_field model_class field →
     (∀ v w, obj !! name field = Some (Py.Attr v) → detail_shows v w →
             entry_of field w ∈ fields_data model_class obj)
     ∧ (read_finds_nothing obj (name field) →
        entry_of field (Py.VStr "Not set") ∈ fields_data model_class obj)
     ∧ (∀ e, obj !! name field = Some (Py.Raising e) →
             e ≠ Py.AttributeError →
             ∀ d, d ∈ fields_data model_class obj → fd_name d ≠ name field)).
Proof.
  split; [apply cell_shows|]. split; [apply cell_of_failed_read|].
  intros Hfield. split; [|split].
  - intros v w Hread Hshown. apply fields_data_elem. exists field.
    split; [done|]. rewrite detail_entry_result, Hread.
    by rewrite (detail_value_shows v w Hshown).
  - intros Hnone. apply fields_data_elem. exists field.
    split; [done|]. rewrite detail_entry_result.
    by destruct Hnone as [-> | ->].
  - intros e Hread He d (other & _ & Hother)%fields_data_elem Hname.
    rewrite detail_entry_result in Hother.
    assert (name other = name field) as Hsame.
    { destruct (obj !! name other) as [[v|e']|];
        [destruct (detail_value_returns v) as [w Hw]; rewrite Hw in Hother
        |destruct e'|];
        cbn in Hother; unfold mret, Py.result_ret in Hother;
        simplify_eq; exact Hname. }
    rewrite Hsame, Hread in Hother. by destruct e.
Qed.

Lemma field_values_shown_witness :
  cell corner_shop "since" = "2024-03-15 10:30"
  ∧ entry_of (plain_field "note" TextField) (Py.VStr "Not set")
    ∈ fields_data shop corner_shop.
Proof.
  destruct (field_values_shown shop corner_shop "since"
              (plain_field "note" TextField)) as (Hcell & _ & Hdetail).
  split.
  - apply (Hcell (Py.VDateTime
                    {| Py.year := 2024; Py.month := 3; Py.day := 15 |}
                    {| Py.hour := 10; Py.minute := 30; Py.second := 0 |}));
      [reflexivity|].
    apply (list_shows_timestamp
             {| Py.year := 2024; Py.month := 3; Py.day := 15 |}
             {| Py.hour := 10; Py.minute := 30; Py.second := 0 |});
      unfold calendar_date, clock_time; simpl; lia.
  - destruct Hdetail as (Hshown & _ & _).
    + split; [|split].
      * apply list_elem_of_In. simpl. tauto.
      * reflexivity.
      * discriminate.
    + apply (Hshown Py.VNone); [reflexivity | constructor].
Defined.

End FieldValues.

(** ** The [active_client] drop-down *)

Section ActiveClient.
Import Django Forms Frameworks.

Lemma inside_step (a rest inner : string) :
  (∃ before after, rest = before +:+ inner +:+ after) →
  ∃ before after, a +:+ rest = before +:+ inner +:+ after.
Proof.
  intros (before & after & ->). exists (a +:+ before), after.
  by rewrite str_app_assoc.
Qed.

Lemma inside_here (inner after : string) :
  ∃ before after', inner +:+ after = before +:+ inner +:+ after'.
Proof. by exists "", after. Qed.

(** The Bootstrap block of a field that is no checkbox holds the control
    as it was rendered. *)
Lemma bootstrap_block_holds_input (field : FieldObj)
  (field_type errors help_text input : string) :
  field_type ≠ "checkbox" →
  bootstrap_input_html (fo_name field) (fo_label field)
    (Py.or_else (fo_value field) (Py.VStr "")) (fo_required field) field_type
  = Py.Ok input →
  ∃ before after,
    bootstrap_get_form_field_html field field_type errors help_text
    = Py.Ok (before +:+ input +:+ after).
Proof.
  intros Htype Hinput. unfold bootstrap_get_form_field_html.
  rewrite Hinput. cbn.
  apply String.eqb_neq in Htype. rewrite Htype. cbn.
  cut (∀ s, (∃ before after, s = before +:+ input +:+ after) →
            ∃ before after, Py.Ok s = Py.Ok (before +:+ input +:+ after)).
  { intros Hcut. apply Hcut.
    repeat first [apply inside_here | apply inside_step]. }
  intros s (before & after & ->). by exists before, after.
Qed.

Ltac refute_tri_state :=
  let html := fresh "html" in
  let Hhtml := fresh "Hhtml" in
  let Htri := fresh "Htri" in
  let E := fresh "E" in
  intros (html & Hhtml & Htri);
  match type of Hhtml with
  | ?run = _ =>
      match type of Htri with
      | tri_state _ ?cur = true =>
          assert (match run with
                  | Py.Ok h => tri_state h cur
                  | Py.Raise _ => false
                  end = true) as E by (rewrite Hhtml; exact Htri)
      end
  end;
  vm_compute in E; discriminate E.

(** C6, as stated, fails three times. A boolean [active_client] without
    a choice set is a checkbox; under the Bulma profile the drop-down has
    no option; and for an instance whose value is false the No option is
    not selected. *)
Lemma active_client_not_as_stated :
  ¬ active_client_as_stated BootstrapFramework (clients None) None
      (active_client_field None)
  ∧ ¬ active_client_as_stated BulmaFramework (clients (Some yes_no)) None
        (active_client_field (Some yes_no))
  ∧ ¬ active_client_as_stated BootstrapFramework (clients (Some yes_no))
        (Some (client (Py.VBool false))) (active_client_field (Some yes_no)).
Proof. split; [|split]; refute_tri_state. Qed.

Lemma active_client_input (label : string) (instance : option Py.object)
  (required yes : bool) :
  unset_or_true instance yes →
  bootstrap_input_html "active_client" label
    (Py.or_else (current_value instance "active_client") (Py.VStr ""))
    required "select"
  = Py.Ok (tri_state_select required yes).
Proof.
  unfold unset_or_true, current_value, Py.getattr_default, Py.getattr.
  destruct instance as [obj|].
  - intros [[-> ->] | [-> ->]]; reflexivity.
  - intros ->. reflexivity.
Qed.

(** C6, amended. For a boolean field named [active_client] that carries
    a non-empty choice set, the form under the Bootstrap profile renders
    the field as a drop-down with the options unset ('Choose...'), Yes
    (value True) and No (value False); Yes is selected for an instance
    whose value is true, and no option is selected without an instance or
    for a null value. *)
Theorem active_client_is_tri_state_select (model_class : Model)
  (instance : option Py.object) (f : ModelField) (yes : bool) :
  name f = "active_client" →
  isinstance f BooleanField = true →
  has_choices f →
  get_field model_class "active_client" = Py.Ok f →
  unset_or_true instance yes →
  ∃ before after html,
    html = before +:+ tri_state_select (negb (blank f)) yes +:+ after
    ∧ field_html BootstrapFramework model_class instance f = Py.Ok html
    ∧ ∀ exclude_fields,
        f ∈ form_fields model_class exclude_fields →
        html ∈ fields_html BootstrapFramework model_class instance
                 exclude_fields.
Proof.
  intros Hname Hbool (c & l & Hch) Hget Hcur.
  assert (get_field_type f = "select") as Htype.
  { unfold get_field_type, choices_truthy. by rewrite Hbool, Hch. }
  destruct (bootstrap_block_holds_input
              {| fo_name := "active_client";
                 fo_label := label_or_title f;
                 fo_value := current_value instance "active_client";
                 fo_required := negb (blank f);
                 fo_help_text := help_text f |}
              "select" "" (help_text f)
              (tri_state_select (negb (blank f)) yes))
    as (before & after & Hblock).
  { discriminate. }
  { by apply active_client_input. }
  assert (field_html BootstrapFramework model_class instance f
          = Py.Ok (before +:+ tri_state_select (negb (blank f)) yes
                   +:+ after)) as Hhtml.
  { unfold field_html. rewrite Hname, Hget. cbn. by rewrite Htype. }
  exists before, after, (before +:+ tri_state_select (negb (blank f)) yes
                         +:+ after).
  split; [done|]. split; [done|].
  intros exclude_fields Hin. unfold fields_html.
  apply list_elem_of_omap. exists f. split; [done|]. by rewrite Hhtml.
Qed.

Lemma active_client_is_tri_state_select_witness :
  ∃ before after,
    field_html BootstrapFramework (clients (Some yes_no))
      (Some (client (Py.VBool true))) (active_client_field (Some yes_no))
    = Py.Ok (before +:+ tri_state_select false true +:+ after).
Proof.
  destruct (active_client_is_tri_state_select (clients (Some yes_no))
              (Some (client (Py.VBool true)))
              (active_client_field (Some yes_no)) true)
    as (before & after & html & -> & Hhtml & _).
  - reflexivity.
  - reflexivity.
  - exists (Py.VBool true, "Yes"), [(Py.VBool false, "No")]. reflexivity.
  - reflexivity.
  - right. split; reflexivity.
  - exists before, after. exact Hhtml.
Defined.

End ActiveClient.

(** ** The permission gate, further *)

Section PermissionGateMore.
Import Views.

Lemma map_with_entry_truthy {V} (m : gmap string V) (key : string) (v : V) :
  m !! key = Some v → Py.dict_truthy (Some m) = true.
Proof.
  intros Hk. unfold Py.dict_truthy.
  rewrite bool_decide_eq_false_2; [done|].
  intros Hdom. apply (not_elem_of_empty (C := gset string) key).
  rewrite <- Hdom. apply elem_of_dom. by eexists.
Qed.

(** X1. Where read-only mode does not close the operation, a superuser
    passes the gate whatever the permission map asks for. *)
Theorem superuser_passes_gate (self : CRUDView) (user : User)
  (operation : string) :
  readonly_mode self = false ∨ operation ∉ write_ops →
  is_superuser user = true →
  has_crud_permission self user operation = true.
Proof.
  intros Hguard Hsuper. unfold has_crud_permission.
  rewrite (readonly_guard_off _ _ Hguard), Hsuper.
  by repeat case_match.
Qed.

Lemma superuser_passes_gate_witness :
  has_crud_permission (view_with (Some admin_only) false)
    {| groups := []; is_superuser := true |} "D" = true.
Proof.
  apply superuser_passes_gate; [by left | reflexivity].
Defined.

(** X2. Where read-only mode does not close the operation and the map
    lists roles for it, a user who is no superuser passes the gate
    exactly when one of the listed roles is among the user's groups. *)
Theorem roles_decide_gate (self : CRUDView) (user : User)
  (operation : string) (m : gmap string (list string))
  (roles : list string) :
  readonly_mode self = false ∨ operation ∉ write_ops →
  is_superuser user = false →
  permissions self = Some m →
  m !! operation = Some roles →
  roles ≠ [] →
  has_crud_permission self user operation = true
  ↔ ∃ role, role ∈ roles ∧ role ∈ groups user.
Proof.
  intros Hguard Hsuper Hperm Hroles Hne. unfold has_crud_permission.
  rewrite (readonly_guard_off _ _ Hguard), Hsuper, Hperm.
  rewrite (map_with_entry_truthy _ _ _ Hroles). simpl.
  unfold required_roles_of. rewrite Hperm, Hroles. simpl.
  destruct roles as [|r rest]; [done|]. simpl Py.list_truthy. cbv iota beta.
  simpl negb. cbv iota.
  rewrite existsb_exists. unfold Py.in_list.
  split.
  - intros (role & Hin & Hg). exists role.
    split; [by apply list_elem_of_In | by apply bool_decide_eq_true_1 in Hg].
  - intros (role & Hin & Hg). exists role.
    split; [by apply list_elem_of_In | by apply bool_decide_eq_true_2].
Qed.

Lemma roles_decide_gate_witness :
  has_crud_permission (view_with (Some admin_only) false) editor "U" = true
  ↔ ∃ role, role ∈ ["admin"] ∧ role ∈ groups editor.
Proof.
  apply (roles_decide_gate (view_with (Some admin_only) false) editor "U"
           admin_only ["admin"]).
  - by left.
  - reflexivity.
  - reflexivity.
  - reflexivity.
  - discriminate.
Defined.

End PermissionGateMore.

(** ** The request handlers *)

Section RequestHandlers.
Import Views Router.

Lemma readonly_closes (self : CRUDView) (user : User) (operation : string) :
  readonly_mode self = true → operation ∈ write_ops →
  has_crud_permission self user operation = false.
Proof.
  intros Hro Hop. unfold has_crud_permission, Py.in_list.
  rewrite Hro, bool_decide_eq_true_2; done.
Qed.

Ltac handler_cases :=
  unfold get, post;
  repeat match goal with
         | |- context [String.eqb ?a ?b] =>
             destruct (String.eqb_spec a b)
         | |- context [match ?pk with Some _ => _ | None => _ end] =>
             destruct pk
         | |- context [negb (?n =? 0)] => destruct (Z.eqb_spec n 0)
         | |- context [has_crud_permission ?s ?u ?o] =>
             destruct (has_crud_permission s u o) eqn:?
         end; simpl.

(** X3. A create, edit, detail or delete method is only ever called for a
    user who passes the gate for the matching operation, by [get] and by
    [post] alike. *)
Theorem handlers_need_permission (self : CRUDView) (user : User)
  (pk : option Z) (action : string) (v : view_call) (operation : string) :
  get self user pk action = Calls v ∨ post self user pk action = Calls v →
  needed_operation v = Some operation →
  has_crud_permission self user operation = true.
Proof.
  intros [Hcall | Hcall]; revert Hcall; handler_cases;
    intros [= <-]; simpl; intros [= <-]; congruence.
Qed.

Lemma handlers_need_permission_witness :
  has_crud_permission (view_with None false) nobody "U" = true.
Proof.
  apply (handlers_need_permission (view_with None false) nobody (Some 4)
           "edit" (edit_view_call 4) "U"); [left|]; reflexivity.
Defined.

(** X4. An action that [get] does not know, and an edit, view or delete
    action without a [pk] (or with [pk] zero), is answered with the list,
    and [post] does the same for whatever it cannot place; no permission
    is asked for on this way, not even the one to read. *)
Theorem unplaced_request_shows_list (self : CRUDView) (user : User)
  (pk : option Z) (action : string) :
  (action ∉ get_actions
   ∨ (action ∈ ["edit"; "view"; "delete"] ∧ pk_falsy pk) →
   get self user pk action = Calls list_view_call)
  ∧ (action ≠ "create" ∧ (action ∉ ["edit"; "delete"] ∨ pk_falsy pk) →
     post self user pk action = Calls list_view_call).
Proof.
  unfold get_actions, pk_falsy. split.
  - intros H. handler_cases; try done; exfalso;
      destruct H as [H | [H [Hpk | Hpk]]]; subst; try congruence;
      first [ apply H; apply list_elem_of_In; simpl; tauto
            | apply list_elem_of_In in H; simpl in H; intuition congruence ].
  - intros [Hc H]. handler_cases; try done; exfalso;
      destruct H as [H | [Hpk | Hpk]]; subst; try congruence;
      apply H; apply list_elem_of_In; simpl; tauto.
Qed.

Lemma unplaced_request_shows_list_witness :
  has_crud_permission (view_with (Some admin_for_all) false) nobody "R" = false
  ∧ get (view_with (Some admin_for_all) false) nobody None "export"
    = Calls list_view_call
  ∧ post (view_with (Some admin_for_all) false) nobody None "edit"
    = Calls list_view_call.
Proof.
  split; [reflexivity|].
  destruct (unplaced_request_shows_list
              (view_with (Some admin_for_all) false) nobody None "export")
    as [Hget _].
  destruct (unplaced_request_shows_list
              (view_with (Some admin_for_all) false) nobody None "edit")
    as [_ Hpost].
  split.
  - apply Hget. left. unfold get_actions.
    rewrite list_elem_of_In. simpl. intuition discriminate.
  - apply Hpost. split; [discriminate|]. right. by left.
Defined.

(** X5. In read-only mode neither [get] nor [post] calls a create, edit
    or delete method: a request ends in the list, in the detail page, or
    in [PermissionDenied]. *)
Theorem readonly_calls_no_write_handler (self : CRUDView) (user : User)
  (pk : option Z) (action : string) (v : view_call) :
  readonly_mode self = true →
  get self user pk action = Calls v ∨ post self user pk action = Calls v →
  v = list_view_call ∨ ∃ n, v = detail_view_call n.
Proof.
  intros Hro.
  assert (∀ op, In op write_ops → has_crud_permission self user op = false)
    as Hclosed by (intros op Hop; by apply readonly_closes, list_elem_of_In).
  pose proof (Hclosed "C" ltac:(simpl; tauto)) as HC.
  pose proof (Hclosed "U" ltac:(simpl; tauto)) as HU.
  pose proof (Hclosed "D" ltac:(simpl; tauto)) as HD.
  intros [Hcall | Hcall]; revert Hcall; unfold get, post;
    rewrite HC, HU, HD; simpl;
    repeat case_match; intros [= <-]; eauto.
Qed.

Lemma readonly_calls_no_write_handler_witness :
  detail_view_call 4 = list_view_call
  ∨ ∃ n, detail_view_call 4 = detail_view_call n.
Proof.
  apply (readonly_calls_no_write_handler (view_with None true) nobody
           (Some 4) "view" (detail_view_call 4)); [|left]; reflexivity.
Defined.

End RequestHandlers.

(** ** The rows of the list *)

Section ListRows.
Import Django Templates Views.

(** X6. In read-only mode the snapshot that [list_view] hands to
    [render_list] leaves the actions cell of a rendered row with the view
    link alone, or with the placeholder when the user may not read, and
    the button to add a record is not rendered. *)
Theorem readonly_list_hides_write_links (self : CRUDView) (user : User)
  (fw : Frameworks.Framework) (fields : list string)
  (base_url : option string) (obj : Py.object) (row : list string) :
  readonly_mode self = true →
  row_of fw fields base_url (Some (permissions_context self user)) obj
  = Py.Ok row →
  ∃ obj_id,
    obj_id_of obj = Py.Ok obj_id
    ∧ row = List.map (cell obj) fields
            ++ [if has_crud_permission self user "R"
                then group_of (view_link fw base_url obj_id)
                else placeholder]
    ∧ add_button fw base_url (Some (permissions_context self user)) = "".
Proof.
  intros Hro (obj_id & Hid & ->)%row_actions_cell.
  assert (∀ op, In op write_ops → has_crud_permission self user op = false)
    as Hclosed.
  { intros op Hop. unfold has_crud_permission, Py.in_list.
    rewrite Hro, bool_decide_eq_true_2; [done | by apply list_elem_of_In]. }
  exists obj_id. split; [done|].
  unfold add_button.
  rewrite (permitted_lookup _ "can_create" (has_crud_permission self user "C")),
    (allowed_lookup _ "can_read" (has_crud_permission self user "R")),
    (allowed_lookup _ "can_update" (has_crud_permission self user "U")),
    (allowed_lookup _ "can_delete" (has_crud_permission self user "D"));
    try reflexivity.
  rewrite (Hclosed "C"), (Hclosed "U"), (Hclosed "D") by (simpl; tauto).
  split; [|done]. unfold actions_cell.
  destruct (has_crud_permission self user "R"); [|done].
  cbn [orb]. by rewrite !str_app_nil_r.
Qed.

Lemma readonly_list_hides_write_links_witness :
  row_of Frameworks.BootstrapFramework ["name"] (Some "/contacts/")
    (Some (permissions_context (view_with (Some admin_only) true) root_admin))
    record_7
  = Py.Ok ["-";
           group_of
             (view_link Frameworks.BootstrapFramework (Some "/contacts/")
                "7")].
Proof.
  destruct (readonly_list_hides_write_links
              (view_with (Some admin_only) true) root_admin
              Frameworks.BootstrapFramework ["name"] (Some "/contacts/")
              record_7
              ["-";
               actions_html
                 (action_buttons Frameworks.BootstrapFramework
                    (Some "/contacts/")
                    (Some (permissions_context
                             (view_with (Some admin_only) true) root_admin))
                    "7")]
              eq_refl eq_refl) as (obj_id & Hid & Hrow & _).
  assert (obj_id = "7") as -> by (vm_compute in Hid; congruence).
  exact (f_equal Py.Ok Hrow).
Defined.

(** X7. A link of a rendered row and the button to add a record are left
    out only when the permission snapshot holds an explicit false for
    their flag: the actions cell is the group of the links that are
    allowed, and the button is rendered when creating is allowed; without
    a snapshot and with an empty one the row holds the three links and the
    button is rendered. *)
Theorem hidden_only_on_explicit_false (fw : Frameworks.Framework)
  (fields : list string) (base_url : option string)
  (permissions : option (gmap string bool)) (obj : Py.object)
  (row : list string) :
  row_of fw fields base_url permissions obj = Py.Ok row →
  ∃ obj_id,
    obj_id_of obj = Py.Ok obj_id
    ∧ row = List.map (cell obj) fields
            ++ [actions_cell fw base_url obj_id
                  (allowed permissions "can_read")
                  (allowed permissions "can_update")
                  (allowed permissions "can_delete")]
    ∧ add_button fw base_url permissions
      = (if allowed permissions "can_create"
         then add_new_button fw base_url else "")
    ∧ (∀ key, allowed permissions key = false
              ↔ ∃ m, permissions = Some m ∧ m !! key = Some false)
    ∧ (permissions = None ∨ permissions = Some ∅ →
       row = List.map (cell obj) fields
             ++ [group_of (view_link fw base_url obj_id
                           +:+ edit_link fw base_url obj_id
                           +:+ delete_link fw base_url obj_id)]
       ∧ add_button fw base_url permissions = add_new_button fw base_url).
Proof.
  intros (obj_id & Hid & ->)%row_actions_cell.
  exists obj_id. split; [done|]. split; [done|].
  assert (add_button fw base_url permissions
          = (if allowed permissions "can_create"
             then add_new_button fw base_url else "")) as Hadd.
  { unfold add_button. rewrite permitted_allowed.
    by destruct (allowed permissions "can_create"). }
  split; [exact Hadd|]. split.
  - intros key. unfold allowed. destruct permissions as [m|].
    + destruct (m !! key) as [[|]|] eqn:Hk; split; try done.
      * intros (m' & [= <-] & Hf). congruence.
      * intros _. by exists m.
      * intros (m' & [= <-] & Hf). congruence.
    + split; [done | by intros (m & ? & _)].
  - intros Hnone. rewrite Hadd.
    assert (∀ key, allowed permissions key = true) as Hall.
    { intros key. unfold allowed.
      destruct Hnone as [-> | ->]; [done|]. by rewrite lookup_empty. }
    rewrite !Hall. split; [|done]. unfold actions_cell. done.
Qed.

Lemma hidden_only_on_explicit_false_witness :
  row_of Frameworks.BulmaFramework ["name"] None (Some ∅) record_7
  = Py.Ok ["-";
           group_of (view_link Frameworks.BulmaFramework None "7"
                     +:+ edit_link Frameworks.BulmaFramework None "7"
                     +:+ delete_link Frameworks.BulmaFramework None "7")].
Proof.
  destruct (hidden_only_on_explicit_false Frameworks.BulmaFramework
              ["name"] None (Some ∅) record_7
              ["-";
               actions_html
                 (action_buttons Frameworks.BulmaFramework None (Some ∅)
                    "7")]
              eq_refl) as (obj_id & Hid & _ & _ & _ & Hopen).
  assert (obj_id = "7") as -> by (vm_compute in Hid; congruence).
  destruct Hopen as [Hrow _]; [by right|].
  exact (f_equal Py.Ok Hrow).
Defined.

(** X8. The rows that are rendered make a rectangular table: there is
    one row for each record of the page, and every row has one cell for
    each header, the actions cell under the 'Actions' header. *)
Theorem rendered_rows_fit_headers (model_class : Model)
  (fw : Frameworks.Framework) (fields : list string)
  (base_url : option string) (permissions : option (gmap string bool))
  (objs : list Py.object) (rows : list (list string)) :
  rows_of fw fields base_url permissions objs = Py.Ok rows →
  length rows = length objs
  ∧ Forall (λ row, length row = length (headers_of model_class fields)) rows.
Proof.
  revert rows. induction objs as [|obj rest IH]; intros rows; simpl.
  - intros [= <-]. by split.
  - unfold row_of.
    destruct (obj_id_of obj) as [obj_id|]; [|discriminate]. cbn.
    destruct (rows_of _ _ _ _ rest) as [rows'|]; [|discriminate]. cbn.
    intros [= <-]. destruct (IH rows' eq_refl) as [Hlen Hall].
    split; [simpl; by rewrite Hlen|].
    constructor; [|done].
    unfold headers_of. by rewrite !length_app, !length_map.
Qed.

Lemma rendered_rows_fit_headers_witness :
  ∃ rows,
    rows_of Frameworks.BulmaFramework ["name"; "email"] None None
      (objects_all contacts) = Py.Ok rows
    ∧ length rows = 3%nat
    ∧ Forall (λ row, length row = 3%nat) rows.
Proof.
  eexists. split; [reflexivity|].
  apply (rendered_rows_fit_headers contacts Frameworks.BulmaFramework
           ["name"; "email"] None None (objects_all contacts)).
  reflexivity.
Defined.

(** X9. Unlike a field, the key of a row is read outside any [try]: one
    record of the page whose key cannot be read (the getter of [pk] or of
    [id] raises something else than [AttributeError]) or cannot be
    printed makes the whole list raise. *)
Theorem unreadable_key_breaks_list (fw : Frameworks.Framework)
  (fields : list string) (base_url : option string)
  (permissions : option (gmap string bool)) (objs : list Py.object)
  (obj : Py.object) :
  obj ∈ objs →
  key_unreadable obj →
  ∃ e, rows_of fw fields base_url permissions objs = Py.Raise e.
Proof.
  intros Hin Hkey.
  assert (∃ e, row_of fw fields base_url permissions obj = Py.Raise e)
    as [e Hrow].
  { unfold row_of, obj_id_of, Py.getattr_default, Py.getattr.
    destruct Hkey as [(e & He & Hk) | [(e & He & Hk) | Hk]]; rewrite Hk;
      repeat case_match; simplify_eq; cbn; eauto. }
  induction objs as [|head rest IH]; [by apply elem_of_nil in Hin|].
  simpl. apply elem_of_cons in Hin as [<- | Hin].
  - rewrite Hrow. by exists e.
  - destruct (row_of fw fields base_url permissions head) as [row|e'];
      [|by exists e'].
    destruct (IH Hin) as [e'' ->]. by exists e''.
Qed.

Lemma unreadable_key_breaks_list_witness :
  ∃ e, rows_of Frameworks.BootstrapFramework ["name"] None None
         [contact "Ann" "a@example.org"; broken_row] = Py.Raise e.
Proof.
  apply (unreadable_key_breaks_list Frameworks.BootstrapFramework ["name"]
           None None [contact "Ann" "a@example.org"; broken_row] broken_row).
  - apply list_elem_of_In. simpl. tauto.
  - left. exists Py.KeyError. split; [discriminate | reflexivity].
Defined.

End ListRows.

(** ** The search, further *)

Section SearchMore.
Import Django Templates.

Lemma refused_is_invalid (model_class : Model) (field : string) :
  refused model_class field → resolve model_class field = Invalid.
Proof.
  intros (Hpath & Hpk%String.eqb_neq & Hfield).
  unfold resolve. rewrite Hpath, Hpk. cbn [orb].
  unfold get_field in Hfield.
  destruct (find _ _) as [f|]; [|done]. by rewrite Hfield.
Qed.

(** X12. A search field that the ORM refuses, because no field of the
    model has the name or because the field is a relation, makes the
    search raise [FieldError] as soon as a query is given, the other
    search fields being text or whole-number columns or refused as well;
    with an empty query, or none, the search fields are not looked at and
    the query set is returned as it is. *)
Theorem unknown_search_field_raises (model_class : Model)
  (queryset : list Py.object) (search_fields : list string)
  (field search_query : string) :
  field ∈ search_fields →
  refused model_class field →
  Forall (described model_class) search_fields →
  (search_query ≠ "" →
   apply_search model_class queryset (Some search_fields) (Some search_query)
   = Some (Py.Raise Py.FieldError))
  ∧ apply_search model_class queryset (Some search_fields) (Some "")
    = Some (Py.Ok queryset)
  ∧ apply_search model_class queryset (Some search_fields) None
    = Some (Py.Ok queryset).
Proof.
  intros Hin Hrefused%refused_is_invalid Hplain. split; [|split].
  - intros Hq. unfold apply_search, optlist_truthy, str_truthy.
    destruct search_fields as [|f rest] eqn:Hsf;
      [by apply elem_of_nil in Hin|].
    rewrite <- Hsf in *.
    apply String.eqb_neq in Hq. rewrite Hq.
    replace (Py.list_truthy search_fields) with true by by rewrite Hsf.
    cbn [andb negb default from_option id]. unfold filter.
    rewrite (proj1 (build_q_spec search_fields search_query
                      ltac:(by rewrite Hsf))).
    assert (first_failure (List.map (resolve model_class) search_fields)
            = Invalid) as ->; [|done].
    clear Hsf. induction Hplain as [|g others Hg _ IH];
      [by apply elem_of_nil in Hin|].
    simpl. apply elem_of_cons in Hin as [<- | Hin]; [by rewrite Hrefused|].
    destruct (resolve model_class g) eqn:Hres; [by apply IH | done | done].
  - unfold apply_search. by rewrite andb_false_r.
  - unfold apply_search. by rewrite andb_false_r.
Qed.

Lemma unknown_search_field_raises_witness :
  apply_search contacts (objects_all contacts) (Some ["name"; "phone"])
    (Some "ann") = Some (Py.Raise Py.FieldError).
Proof.
  apply (unknown_search_field_raises contacts (objects_all contacts)
           ["name"; "phone"] "phone" "ann").
  - apply list_elem_of_In. simpl. tauto.
  - split; [reflexivity|]. split; [discriminate | exact I].
  - repeat constructor; by vm_compute.
  - discriminate.
Defined.

End SearchMore.

(** ** The pagination strip and the summary *)

Section PaginationStrip.
Import Django Templates.

Lemma one_page_iff (n per_page : Z) :
  1 ≤ per_page → 0 ≤ n → page_total n per_page = 1 ↔ n ≤ per_page.
Proof.
  intros Hpp Hn.
  destruct (page_total_bounds n per_page Hpp Hn) as (H1 & Hcover & Hlast).
  destruct (decide (n = 0)) as [-> | Hn0].
  - unfold page_total. rewrite ceil_div_0 by done. lia.
  - specialize (Hlast ltac:(lia)). split; intros H; [nia|].
    assert (page_total n per_page - 1 < 1) by nia. lia.
Qed.

(** X13. For [per_page ≥ 1] the pagination strip is left out exactly
    when all records fit on one page. *)
Theorem pagination_strip_iff_several_pages (records : list Py.object)
  (per_page : Z) (requested : page_arg) (pg : Page Py.object) :
  1 ≤ per_page →
  paginate records per_page requested = Py.Ok pg →
  generate_pagination_html pg = "" ↔ Z.of_nat (length records) ≤ per_page.
Proof.
  intros Hpp Hpg. unfold paginate in Hpg.
  rewrite get_page_eval in Hpg by done. injection Hpg as <-.
  set (total := page_total (Z.of_nat (length records)) per_page).
  rewrite <- (one_page_iff (Z.of_nat (length records)) per_page Hpp
                ltac:(lia)). fold total.
  assert (1 ≤ resolved_number requested total ≤ total) as Hrange.
  { assert (1 ≤ total) by
      (apply (page_total_bounds (Z.of_nat (length records)) per_page); lia).
    unfold resolved_number. destruct requested as [n|]; [|lia].
    destruct (Z.leb_spec 1 n), (Z.leb_spec n total); simpl; lia. }
  unfold generate_pagination_html, has_other_pages, has_previous, has_next.
  simpl. rewrite num_pages_total by done. fold total.
  destruct (Z.gtb_spec (resolved_number requested total) 1);
    destruct (Z.ltb_spec (resolved_number requested total) total);
    simpl; split; try done; try lia.
Qed.

Lemma pagination_strip_iff_several_pages_witness :
  ∃ pg, paginate thirty 10 (PageInt 2) = Py.Ok pg
        ∧ (generate_pagination_html pg = "" ↔ 30 ≤ 10).
Proof.
  eexists. split; [reflexivity|].
  apply (pagination_strip_iff_several_pages thirty 10 (PageInt 2));
    [lia | reflexivity].
Defined.

(** X14. For [per_page ≥ 1] the summary 'Showing X-Y of N items' agrees
    with the rows: over an empty collection X and Y are 0, and otherwise
    X to Y are the positions of the rows shown, so Y - X + 1 is their
    number and 1 ≤ X ≤ Y ≤ N. *)
Theorem summary_counts_rows_shown (records : list Py.object)
  (per_page : Z) (requested : page_arg) (pg : Page Py.object) :
  1 ≤ per_page →
  paginate records per_page requested = Py.Ok pg →
  count (paginator pg) = Z.of_nat (length records)
  ∧ (records = [] → start_index pg = 0 ∧ end_index pg = 0)
  ∧ (records ≠ [] →
     end_index pg - start_index pg + 1
     = Z.of_nat (length (page_object_list pg))
     ∧ 1 ≤ start_index pg ≤ end_index pg
     ∧ end_index pg ≤ Z.of_nat (length records)).
Proof.
  intros Hpp Hpg. unfold paginate in Hpg.
  rewrite get_page_eval in Hpg by done. injection Hpg as <-.
  set (N := Z.of_nat (length records)).
  set (total := page_total N per_page).
  destruct (page_total_bounds N per_page Hpp ltac:(lia))
    as (Ht1 & Hcover & Hlast). fold total in Ht1, Hcover, Hlast.
  assert (1 ≤ resolved_number requested total ≤ total) as Hrange.
  { unfold resolved_number. destruct requested as [n|]; [|lia].
    destruct (Z.leb_spec 1 n), (Z.leb_spec n total); simpl; lia. }
  set (k := resolved_number requested total) in *.
  unfold start_index, end_index. simpl.
  rewrite num_pages_total by done. unfold count. simpl.
  fold N. fold total.
  split; [done|]. split.
  - intros ->. subst N total. simpl in *.
    unfold page_total in *. rewrite ceil_div_0 in * by done.
    assert (k = 1) as -> by lia. done.
  - intros Hne. assert (1 ≤ N) by (destruct records; [done | subst N; simpl; lia]).
    specialize (Hlast ltac:(lia)).
    destruct (Z.eqb_spec N 0); [lia|].
    unfold nth_page. rewrite length_take, length_drop. fold N.
    destruct (Z.eqb_spec k total) as [-> | Hk].
    + subst N. nia.
    + assert (k * per_page ≤ (total - 1) * per_page) by nia.
      subst N. nia.
Qed.

Lemma summary_counts_rows_shown_witness :
  ∃ pg, paginate thirty 7 (PageInt 5) = Py.Ok pg
        ∧ end_index pg - start_index pg + 1
          = Z.of_nat (length (page_object_list pg))
        ∧ 1 ≤ start_index pg ≤ end_index pg
        ∧ end_index pg ≤ 30.
Proof.
  eexists. split; [reflexivity|].
  apply (summary_counts_rows_shown thirty 7 (PageInt 5)).
  - lia.
  - reflexivity.
  - discriminate.
Defined.

End PaginationStrip.

(** ** Texts: the string methods of the redirects *)

Section Texts.

Lemma before_first_here (sep s : string) :
  Str.startswith sep s = true → Text.before_first sep s = "".
Proof. intros H. destruct s; simpl; by rewrite H. Qed.

(** A word without a slash that matches across the end of [y] into a
    text that begins with a slash lies within [y]. *)
Lemma startswith_within (w x y t : string) :
  free_of Text.slash w = true →
  Str.startswith (w +:+ x) (y +:+ String Text.slash t) = true →
  Str.startswith w y = true.
Proof.
  intros Hw. revert y.
  induction w as [|c w IH]; intros y Hm; [done|].
  cbn [free_of] in Hw. apply andb_true_iff in Hw as [Hc Hw].
  rewrite str_app_cons in Hm.
  destruct y as [|d y].
  - rewrite str_app_nil, startswith_cons in Hm.
    apply andb_true_iff in Hm as [Hce _].
    by rewrite Hce in Hc.
  - rewrite str_app_cons, startswith_cons in Hm. rewrite startswith_cons.
    apply andb_true_iff in Hm as [-> Hm]. by apply IH.
Qed.

(** The segment [/w] does not begin inside a path without [/w] that is
    followed by a text beginning with a slash. *)
Lemma segment_not_early (w x p t : string) (a : Ascii.ascii) :
  free_of Text.slash w = true →
  Str.contains (String Text.slash w) (String a p) = false →
  Str.startswith (String Text.slash (w +:+ x))
    (String a p +:+ String Text.slash t) = false.
Proof.
  intros Hw Hp. rewrite contains_cons in Hp.
  apply orb_false_iff in Hp as [Hstart _].
  rewrite str_app_cons, startswith_cons. rewrite startswith_cons in Hstart.
  destruct (Ascii.eqb Text.slash a); [|done]. simpl in *.
  destruct (Str.startswith (w +:+ x) (p +:+ String Text.slash t)) eqn:Hm;
    [|done].
  by rewrite (startswith_within w x p t Hw Hm) in Hstart.
Qed.

Lemma contains_tail (needle : string) (a : Ascii.ascii) (p : string) :
  Str.contains needle (String a p) = false → Str.contains needle p = false.
Proof. rewrite contains_cons. by intros [_ ?]%orb_false_iff. Qed.

Lemma before_first_cons (sep : string) (a : Ascii.ascii) (s : string) :
  Text.before_first sep (String a s)
  = if Str.startswith sep (String a s) then ""
    else String a (Text.before_first sep s).
Proof. done. Qed.

Lemma before_first_segment (w p rest : string) :
  free_of Text.slash w = true →
  Str.contains (String Text.slash w) p = false →
  Text.before_first (String Text.slash (w +:+ "/"))
    (p +:+ String Text.slash ((w +:+ "/") +:+ rest))
  = p.
Proof.
  intros Hw. induction p as [|a p IH]; intros Hp.
  - rewrite str_app_nil, <- str_app_cons.
    apply before_first_here, startswith_self_app.
  - pose proof (segment_not_early w "/" p ((w +:+ "/") +:+ rest) a Hw Hp)
      as Hno.
    rewrite str_app_cons in Hno |- *.
    rewrite before_first_cons, Hno.
    f_equal. apply IH. by apply contains_tail in Hp.
Qed.

Lemma contains_segment_after (w x p t : string) :
  free_of Text.slash w = true →
  Str.contains (String Text.slash w) p = false →
  Str.contains (String Text.slash (w +:+ x)) (p +:+ String Text.slash t)
  = Str.contains (String Text.slash (w +:+ x)) (String Text.slash t).
Proof.
  intros Hw. induction p as [|a p IH]; intros Hp; [done|].
  pose proof (segment_not_early w x p t a Hw Hp) as Hno.
  rewrite str_app_cons in Hno |- *. rewrite contains_cons, Hno.
  apply IH. by apply contains_tail in Hp.
Qed.

Lemma replace_skips_all (old new s : string) :
  Text.replace_from old new (String.length s) s = "".
Proof. induction s as [|c s IH]; [done|]. exact IH. Qed.

Lemma replace_from_cons (old new : string) (a : Ascii.ascii) (s : string) :
  Text.replace_from old new 0 (String a s)
  = if Str.startswith old (String a s)
    then new +:+ Text.replace_from old new (String.length old - 1) s
    else String a (Text.replace_from old new 0 s).
Proof. done. Qed.

Lemma replace_segment (w x p : string) :
  free_of Text.slash w = true →
  Str.contains (String Text.slash w) p = false →
  Text.replace (String Text.slash (w +:+ x)) "/"
    (p +:+ String Text.slash (w +:+ x))
  = p +:+ "/".
Proof.
  intros Hw Hp. unfold Text.replace.
  induction p as [|a p IH].
  - rewrite str_app_nil, replace_from_cons.
    rewrite <- (str_app_nil_r (String Text.slash (w +:+ x))) at 2.
    rewrite startswith_self_app.
    change (String.length (String Text.slash (w +:+ x)) - 1)%nat
      with (String.length (w +:+ x) - 0)%nat.
    by rewrite Nat.sub_0_r, replace_skips_all.
  - pose proof (segment_not_early w x p (w +:+ x) a Hw Hp) as Hno.
    rewrite str_app_cons in Hno |- *.
    rewrite replace_from_cons, Hno, IH; [done|].
    by apply contains_tail in Hp.
Qed.

Lemma rev_app_app (a b acc : string) :
  String.rev_app (a +:+ b) acc = String.rev_app b (String.rev_app a acc).
Proof.
  revert acc. induction a as [|c a IH]; intros acc; [done|].
  rewrite str_app_cons. simpl. apply IH.
Qed.

Lemma rev_of_app (a b : string) :
  String.rev (a +:+ b) = String.rev_app b (String.rev a).
Proof. apply rev_app_app. Qed.

End Texts.

(** ** The redirects after a form was saved or a record deleted *)

Section Redirects.
Import Templates Router.

Lemma rstrip_cons (c a : Ascii.ascii) (s : string) :
  Text.rstrip c (String a s)
  = match Text.rstrip c s with
    | EmptyString => if Ascii.eqb a c then "" else String a ""
    | rest => String a rest
    end.
Proof. done. Qed.

Lemma rstrip_free (c : Ascii.ascii) (s : string) :
  free_of c s = true → Text.rstrip c s = s.
Proof.
  induction s as [|a s IH]; [done|]. cbn [free_of].
  intros [Ha Hs]%andb_true_iff. rewrite rstrip_cons, IH by done.
  apply negb_true_iff in Ha. rewrite Ha. by destruct s.
Qed.

Lemma rstrip_app_free (c : Ascii.ascii) (x y : string) :
  y ≠ "" → free_of c y = true → Text.rstrip c (x +:+ y) = x +:+ y.
Proof.
  intros Hy Hfree. induction x as [|a x IH].
  - rewrite str_app_nil. by apply rstrip_free.
  - rewrite str_app_cons, rstrip_cons, IH.
    destruct (x +:+ y) eqn:E; [|done].
    destruct x; [by rewrite str_app_nil in E | by rewrite str_app_cons in E].
Qed.

Lemma split_cons (c a : Ascii.ascii) (s : string) :
  Text.split c (String a s)
  = if Ascii.eqb a c then "" :: Text.split c s
    else match Text.split c s with
         | [] => [String a ""]
         | part :: parts => String a part :: parts
         end.
Proof. done. Qed.

Lemma split_not_empty (c : Ascii.ascii) (s : string) :
  ∃ part parts, Text.split c s = part :: parts.
Proof.
  induction s as [|a s (part & parts & IH)]; [by eexists _, _|].
  rewrite split_cons, IH. destruct (Ascii.eqb a c); by eexists _, _.
Qed.

Lemma split_free (c : Ascii.ascii) (s : string) :
  free_of c s = true → Text.split c s = [s].
Proof.
  induction s as [|a s IH]; [done|]. cbn [free_of].
  intros [Ha Hs]%andb_true_iff. apply negb_true_iff in Ha.
  by rewrite split_cons, Ha, IH.
Qed.

Lemma split_app_sep (c : Ascii.ascii) (x y : string) :
  Text.split c (x +:+ String c y) = Text.split c x ++ Text.split c y.
Proof.
  induction x as [|a x IH].
  - rewrite str_app_nil, split_cons, Ascii.eqb_refl. done.
  - rewrite str_app_cons, !split_cons, IH.
    destruct (Ascii.eqb a c); [done|].
    by destruct (split_not_empty c x) as (part & parts & ->).
Qed.

Lemma join_cons_char (sep : string) (a : Ascii.ascii) (part : string)
  (parts : list string) :
  Str.join sep (String a part :: parts)
  = String a (Str.join sep (part :: parts)).
Proof. by destruct parts. Qed.

Lemma join_split (s : string) :
  Str.join (String Text.slash "") (Text.split Text.slash s) = s.
Proof.
  induction s as [|a s IH]; [done|].
  rewrite split_cons.
  destruct (split_not_empty Text.slash s) as (part & parts & Hs).
  rewrite Hs in IH |- *.
  destruct (Ascii.eqb_spec a Text.slash) as [-> | Hne].
  - change (Str.join ?sep ("" :: part :: parts))
      with ("" +:+ sep +:+ Str.join sep (part :: parts)).
    by rewrite IH.
  - by rewrite join_cons_char, IH.
Qed.

Lemma action_url_with_base (base_url obj_id suffix verb : string) :
  base_url ≠ "" →
  action_url (Some base_url) obj_id suffix verb
  = (base_url +:+ obj_id) +:+ String Text.slash suffix.
Proof.
  intros Hb. unfold action_url, str_truthy.
  apply String.eqb_neq in Hb. rewrite Hb. simpl.
  by rewrite str_app_assoc.
Qed.

(** X15. After a record was created at the path of the list followed by
    [create/] (or by [create] without the slash), the redirect goes to
    the path of the list; the path must hold no other [/create]. *)
Theorem create_redirects_to_list (path : string) :
  Str.contains "/create" path = false →
  list_url_after_save (path +:+ "/create/") = path +:+ "/"
  ∧ list_url_after_save (path +:+ "/create") = path +:+ "/".
Proof.
  intros Hp. unfold list_url_after_save. split.
  - assert (Str.contains "/create/" (path +:+ "/create/") = true) as ->
      by exact (contains_there "/create/" path "").
    exact (replace_segment "create" "/" path eq_refl Hp).
  - assert (Str.contains "/create/" (path +:+ "/create") = false) as ->
      by exact (contains_segment_after "create" "/" path "create"
                  eq_refl Hp).
    assert (Str.endswith "/create" (path +:+ "/create") = true) as ->
      by (unfold Str.endswith; by rewrite rev_of_app).
    exact (replace_segment "create" "" path eq_refl Hp).
Qed.

Lemma create_redirects_to_list_witness :
  list_url_after_save "/app/contacts/create/" = "/app/contacts/".
Proof.
  apply (create_redirects_to_list "/app/contacts"). reflexivity.
Defined.

(** X16. After a record was edited at the Edit link of its row, the
    redirect goes to the View link of that row, the detail page, not to
    the list; the base URL and the key must hold no [/create] and no
    [/edit]. *)
Theorem edit_redirects_to_detail (base_url obj_id : string) :
  base_url ≠ "" →
  Str.contains "/create" (base_url +:+ obj_id) = false →
  Str.contains "/edit" (base_url +:+ obj_id) = false →
  list_url_after_save (action_url (Some base_url) obj_id "edit/" "edit")
  = action_url (Some base_url) obj_id "" "view".
Proof.
  intros Hb Hcreate Hedit.
  rewrite !action_url_with_base by done.
  set (q := base_url +:+ obj_id) in *.
  unfold list_url_after_save.
  assert (Str.contains "/create/" (q +:+ String Text.slash "edit/") = false)
    as -> by exact (contains_segment_after "create" "/" q "edit/"
                      eq_refl Hcreate).
  assert (Str.endswith "/create" (q +:+ String Text.slash "edit/") = false)
    as -> by (unfold Str.endswith; by rewrite rev_of_app).
  assert (Str.contains "/edit/" (q +:+ String Text.slash "edit/") = true)
    as -> by exact (contains_there "/edit/" q "").
  f_equal.
  exact (before_first_segment "edit" q "" eq_refl Hedit).
Qed.

Lemma edit_redirects_to_detail_witness :
  list_url_after_save "/contacts/7/edit/" = "/contacts/7/".
Proof.
  apply (edit_redirects_to_detail "/contacts/" "7");
    [discriminate | reflexivity | reflexivity].
Defined.

(** X17. After a record was deleted at the Delete link of its row, the
    redirect goes to the list when the key, an ASCII text, is a number;
    for a key that is no number it goes to the detail page of the record
    that is gone. The path of the list and the key must hold no
    [/delete]. *)
Theorem delete_redirects_by_key (list_path obj_id : string) :
  Str.contains "/delete" (list_path +:+ "/" +:+ obj_id) = false →
  obj_id ≠ "" →
  free_of Text.slash obj_id = true →
  Str.is_ascii obj_id = true →
  list_url_after_delete
    (action_url (Some (list_path +:+ "/")) obj_id "delete/" "delete")
  = Some (if Text.all_digits obj_id then list_path +:+ "/"
          else action_url (Some (list_path +:+ "/")) obj_id "" "view").
Proof.
  intros Hdelete Hid Hfree Hascii.
  assert (list_path +:+ "/" ≠ "") as Hb.
  { destruct list_path; [done | by rewrite str_app_cons]. }
  rewrite !action_url_with_base by done.
  rewrite (str_app_assoc list_path "/" obj_id).
  set (q := list_path +:+ "/" +:+ obj_id) in *.
  unfold list_url_after_delete.
  assert (Str.contains "/delete/" (q +:+ String Text.slash "delete/") = true)
    as -> by exact (contains_there "/delete/" q "").
  assert (Text.before_first "/delete/" (q +:+ String Text.slash "delete/")
          = q) as ->
    by exact (before_first_segment "delete" q "" eq_refl Hdelete).
  assert (Text.split Text.slash (Text.rstrip Text.slash q)
          = Text.split Text.slash list_path ++ [obj_id]) as ->.
  { subst q. rewrite <- (str_app_assoc list_path "/" obj_id).
    rewrite rstrip_app_free by done.
    rewrite (str_app_assoc list_path "/" obj_id).
    change ("/" +:+ obj_id) with (String Text.slash obj_id).
    by rewrite split_app_sep, (split_free _ obj_id). }
  cbv zeta. rewrite last_snoc, removelast_last. cbn [default from_option id].
  unfold Text.isdigit. rewrite Hascii.
  apply String.eqb_neq in Hid. rewrite Hid. cbn [negb andb mbind option_bind].
  destruct (Text.all_digits obj_id); [|reflexivity].
  do 2 f_equal. exact (join_split list_path).
Qed.

Lemma delete_redirects_by_key_witness :
  list_url_after_delete "/app/contacts/4/delete/" = Some "/app/contacts/".
Proof.
  apply (delete_redirects_by_key "/app/contacts" "4");
    [reflexivity | discriminate | reflexivity | reflexivity].
Defined.

End Redirects.

(** ** The URL patterns *)

Section UrlPatterns.
Import Urls.

Lemma str_app_inj_l (x a b : string) : x +:+ a = x +:+ b → a = b.
Proof.
  induction x as [|c x IH]; [done|].
  rewrite !str_app_cons. intros [= H]. by apply IH.
Qed.

Lemma NoDup_with_prefix (x : string) (l : list string) :
  NoDup l → NoDup ((λ s, x +:+ s) <$> l).
Proof.
  induction 1 as [|s l Hs Hl IH]; [constructor|].
  rewrite fmap_cons. constructor; [|done].
  rewrite list_elem_of_fmap. intros (t & Heq & Ht).
  apply str_app_inj_l in Heq. by subst.
Qed.

Lemma rstrip_snoc (c : Ascii.ascii) (s : string) :
  Text.rstrip c (s +:+ String c "") = Text.rstrip c s.
Proof.
  induction s as [|a s IH].
  - rewrite str_app_nil, rstrip_cons. simpl. by rewrite Ascii.eqb_refl.
  - by rewrite str_app_cons, !rstrip_cons, IH.
Qed.

Lemma lstrip_keeps_free (c d : Ascii.ascii) (s : string) :
  free_of c s = true → free_of c (Text.lstrip d s) = true.
Proof.
  induction s as [|a s IH]; [done|]. intros Hs. cbn [Text.lstrip].
  destruct (Ascii.eqb a d); [|done].
  cbn [free_of] in Hs. apply andb_true_iff in Hs as [_ Hs]. by apply IH.
Qed.

Lemma rstrip_keeps_free (c d : Ascii.ascii) (s : string) :
  free_of c s = true → free_of c (Text.rstrip d s) = true.
Proof.
  induction s as [|a s IH]; [done|]. cbn [free_of].
  intros [Ha Hs]%andb_true_iff. rewrite rstrip_cons.
  specialize (IH Hs). destruct (Text.rstrip d s).
  - destruct (Ascii.eqb a d); [done|]. cbn [free_of]. by rewrite Ha.
  - cbn [free_of] in IH |- *. by rewrite Ha, IH.
Qed.

Lemma slashes_replaced (s : string) :
  free_of Text.slash (Text.replace "/" "_" s) = true.
Proof.
  unfold Text.replace. induction s as [|a s IH]; [done|].
  rewrite replace_from_cons.
  change (String.length "/" - 1)%nat with 0%nat.
  change (Str.startswith "/" (String a s))
    with (Ascii.eqb Text.slash a && Str.startswith "" s).
  destruct (Ascii.eqb_spec Text.slash a) as [<- | Hne].
  - replace (Str.startswith "" s) with true by by destruct s.
    cbv [andb]. exact IH.
  - cbv [andb]. cbn [free_of]. rewrite IH.
    by destruct (Ascii.eqb_spec a Text.slash) as [-> | _].
Qed.

(** X18. The five patterns of one prefix have five different routes and
    five different names, whatever the prefix and the name are; a slash
    at the end of the prefix makes no difference. *)
Theorem crud_urlpatterns_distinct (url_prefix : string)
  (name_prefix : option string) :
  NoDup (route <$> crud_urlpatterns url_prefix name_prefix)
  ∧ NoDup (url_name <$> crud_urlpatterns url_prefix name_prefix)
  ∧ crud_urlpatterns (url_prefix +:+ "/") name_prefix
    = crud_urlpatterns url_prefix name_prefix.
Proof.
  assert (∀ l : list string,
            bool_decide (NoDup l) = true → NoDup l) as Hdec.
  { intros l H. by apply bool_decide_eq_true in H. }
  split; [|split].
  - apply (NoDup_with_prefix (Text.rstrip Text.slash url_prefix)
             ["/"; "/create/"; "/<int:pk>/"; "/<int:pk>/edit/";
              "/<int:pk>/delete/"]).
    by apply Hdec.
  - unfold crud_urlpatterns. cbv zeta.
    set (n := match name_prefix with Some n => n | None => _ end).
    rewrite <- (str_app_nil_r n) at 1.
    apply (NoDup_with_prefix n
             [""; "_create"; "_detail"; "_edit"; "_delete"]).
    by apply Hdec.
  - unfold crud_urlpatterns.
    assert (Text.rstrip Text.slash (url_prefix +:+ "/")
            = Text.rstrip Text.slash url_prefix) as ->
      by exact (rstrip_snoc Text.slash url_prefix).
    done.
Qed.

(** X19. A name that is derived from the prefix holds no slash: each
    slash of the prefix has become an underscore. *)
Theorem derived_names_hold_no_slash (url_prefix : string) (p : UrlPattern) :
  p ∈ crud_urlpatterns url_prefix None →
  free_of Text.slash (url_name p) = true.
Proof.
  unfold crud_urlpatterns. cbv zeta.
  set (n := Text.strip _ _).
  assert (free_of Text.slash n = true) as Hn.
  { apply rstrip_keeps_free, lstrip_keeps_free, slashes_replaced. }
  rewrite !elem_of_cons, elem_of_nil.
  intros [-> | [-> | [-> | [-> | [-> | []]]]]]; cbn [url_name];
    by rewrite ?free_of_app, Hn.
Qed.

Lemma derived_names_hold_no_slash_witness :
  free_of Text.slash "admin_users_edit" = true.
Proof.
  apply (derived_names_hold_no_slash "admin/users/"
           {| route := "admin/users/<int:pk>/edit/";
              action := Some "edit";
              url_name := "admin_users_edit" |}).
  unfold crud_urlpatterns. cbv zeta. rewrite !elem_of_cons.
  do 3 right. left. reflexivity.
Defined.

End UrlPatterns.

(** ** The style profiles and the form *)

Section FormsMore.
Import Django Frameworks Forms Templates.

Lemma get_framework_other (name : string) :
  name ≠ "bulma" → get_framework name = BootstrapFramework.
Proof.
  intros Hne. unfold get_framework, FRAMEWORKS.
  destruct (decide (name = "bootstrap")) as [-> | H1]; [done|].
  destruct (decide (name = "bootstrap5")) as [-> | H2]; [done|].
  by rewrite !lookup_insert_ne, lookup_empty.
Qed.

(** X20. A style profile name that is not known does not fail: the list
    and the form are rendered as with ['bootstrap']; ['bulma'] is the one
    name that selects another profile. *)
Theorem unknown_framework_is_bootstrap (name : string)
  (model_class : Model) (queryset : option (list Py.object))
  (fields : option (list string)) (per_page : Z) (page : page_arg)
  (search_fields : option (list string)) (search_query : option string)
  (base_url : option string) (permissions : option (gmap string bool))
  (search_field : option string) (instance : option Py.object)
  (exclude_fields : option (list string)) (action method : string) :
  name ≠ "bulma" →
  render_list model_class queryset name fields per_page page search_fields
    search_query base_url permissions search_field
  = render_list model_class queryset "bootstrap" fields per_page page
      search_fields search_query base_url permissions search_field
  ∧ render_form model_class instance name exclude_fields action method
    = render_form model_class instance "bootstrap" exclude_fields action
        method.
Proof.
  intros Hne. unfold render_list, render_form.
  by rewrite (get_framework_other name Hne).
Qed.

Lemma unknown_framework_is_bootstrap_witness :
  render_form stock None "tailwind" None "" "POST"
  = render_form stock None "bootstrap" None "" "POST".
Proof.
  apply (unknown_framework_is_bootstrap "tailwind" stock None None 10
           (PageInt 1) None None None None None None None "" "POST").
  discriminate.
Defined.

Lemma in_form_fields (model_class : Model)
  (exclude_fields : option (list string)) (f : ModelField) :
  f ∈ form_fields model_class exclude_fields
  ↔ f ∈ meta_fields model_class
    ∧ editable f = true
    ∧ has_formfield f = true
    ∧ name f ∉ exclude_or_default exclude_fields.
Proof.
  unfold form_fields. rewrite !list_elem_of_In, filter_In,
    <- !list_elem_of_In, !andb_true_iff, negb_true_iff.
  pose proof (in_list_elem (name f) (exclude_or_default exclude_fields)).
  pose proof (in_list_not_elem (name f) (exclude_or_default exclude_fields)).
  destruct (Py.in_list _ _); intuition congruence.
Qed.



Lemma omap_all_some {A B} (g : A → option B) (l : list A) :
  (∀ x, x ∈ l → is_Some (g x)) → length (omap g l) = length l.
Proof.
  induction l as [|x l IH]; [done|]. intros Hall.
  destruct (Hall x) as [y Hy]; [by left|].
  cbn [omap list_omap]. rewrite Hy. cbn [length]. f_equal.
  apply IH. intros z Hz. apply Hall. by right.
Qed.

Lemma omap_pointwise {A B} (g g' : A → option B) (l : list A) :
  (∀ x, g x = g' x) → omap g l = omap g' l.
Proof.
  intros Hg. induction l as [|x l IH]; [done|].
  cbn [omap list_omap]. by rewrite Hg, IH.
Qed.

Lemma get_field_finds (model_class : Model) (f : ModelField) :
  f ∈ meta_fields model_class →
  ∃ g, get_field model_class (name f) = Py.Ok g.
Proof.
  intros Hf. unfold get_field.
  destruct (find _ _) as [g|] eqn:Hfind; [by eexists|].
  apply list_elem_of_In in Hf.
  pose proof (find_none _ _ Hfind f Hf) as Hno. cbv beta in Hno.
  by rewrite String.eqb_refl in Hno.
Qed.

Lemma current_value_printable (instance : option Py.object)
  (field_name : string) :
  printable instance →
  ∃ s, Py.str (Py.or_else (current_value instance field_name) (Py.VStr ""))
       = Py.Ok s.
Proof.
  intros Hp. destruct instance as [obj|]; [|by eexists].
  specialize (Hp obj field_name eq_refl).
  unfold current_value, Py.getattr_default, Py.getattr.
  destruct (obj !! field_name) as [[v|[]]|]; [|by eexists..].
  destruct v as [|[]|n|s|d|t|d t|[s|]]; try (by exfalso; apply Hp);
    try (by eexists).
  - unfold Py.or_else. cbn. destruct (n =? 0); by eexists.
  - unfold Py.or_else. cbn. destruct (String.eqb s ""); by eexists.
Qed.

Lemma form_field_html_ok (fw : Framework) (field : FieldObj)
  (field_type errors help_text s : string) :
  Py.str (Py.or_else (fo_value field) (Py.VStr "")) = Py.Ok s →
  ∃ h, get_form_field_html fw field field_type errors help_text = Py.Ok h.
Proof.
  intros Hs.
  destruct fw; unfold get_form_field_html, bootstrap_get_form_field_html,
    bootstrap_input_html, bulma_get_form_field_html, bulma_input_html;
    cbv zeta; rewrite Hs;
    repeat (destruct (String.eqb _ _); cbn [mbind mret Py.result_bind
      Py.result_ret negb]); by eexists.
Qed.

(** X22. The form holds one block for every form field, in both style
    profiles, when every attribute of the instance can be printed; a form
    for a new record, which has no instance, always does. A field is only
    left out when [str] of its value raises. *)
Theorem form_renders_every_field (fw : Framework) (model_class : Model)
  (instance : option Py.object) (exclude_fields : option (list string)) :
  printable instance →
  length (fields_html fw model_class instance exclude_fields)
  = length (form_fields model_class exclude_fields).
Proof.
  intros Hp. unfold fields_html. apply omap_all_some.
  intros f [Hf _]%in_form_fields.
  destruct (get_field_finds model_class f Hf) as [g Hg].
  unfold field_html. rewrite Hg. cbn [mbind Py.result_bind].
  destruct (current_value_printable instance (name f) Hp) as [s Hs].
  edestruct form_field_html_ok as [h ->]; [exact Hs | done].
Qed.

Lemma form_renders_every_field_witness :
  length (fields_html BulmaFramework stock (Some (crate (Py.VInt 3))) None)
  = length (form_fields stock None).
Proof.
  apply (form_renders_every_field BulmaFramework stock
           (Some (crate (Py.VInt 3))) None).
  intros obj k [= <-] H. unfold crate in H.
  apply lookup_insert_Some in H as [[_ [=]] | [_ H]].
  apply lookup_insert_Some in H as [[_ [=]] | [_ H]].
  rewrite lookup_empty in H. discriminate H.
Defined.

Lemma form_field_html_by_value (fw : Framework) (a b : FieldObj)
  (field_type errors help_text : string) :
  fo_name a = fo_name b →
  fo_label a = fo_label b →
  fo_required a = fo_required b →
  Py.or_else (fo_value a) (Py.VStr "") = Py.or_else (fo_value b) (Py.VStr "") →
  get_form_field_html fw a field_type errors help_text
  = get_form_field_html fw b field_type errors help_text.
Proof.
  intros Hn Hl Hr Hv.
  destruct fw; unfold get_form_field_html, bootstrap_get_form_field_html,
    bulma_get_form_field_html; cbv zeta; by rewrite Hn, Hl, Hr, Hv.
Qed.

Lemma current_value_of_falsy (obj : Py.object) (k field_name : string)
  (v : Py.value) :
  obj !! k = Some (Py.Attr v) →
  Py.truthy v = false →
  Py.or_else (current_value (Some obj) field_name) (Py.VStr "")
  = Py.or_else
      (current_value (Some (<[k := Py.Attr (Py.VStr "")]> obj)) field_name)
      (Py.VStr "").
Proof.
  intros Hk Hv. unfold current_value, Py.getattr_default, Py.getattr.
  destruct (decide (field_name = k)) as [-> | Hne].
  - rewrite Hk, lookup_insert_eq. unfold Py.or_else.
    destruct (Py.is_none v); [done|]. by rewrite Hv.
  - by rewrite lookup_insert_ne.
Qed.

(** X23. An edit form does not tell a stored value that counts as false
    (the number 0, [False], [None] or the empty text) from the empty
    text: the form of the instance is the form of the same instance with
    the empty text in that attribute, so a quantity of 0 is shown as an
    empty box. *)
Theorem falsy_value_renders_empty (model_class : Model) (obj : Py.object)
  (framework : string) (exclude_fields : option (list string))
  (action method k : string) (v : Py.value) :
  obj !! k = Some (Py.Attr v) →
  Py.truthy v = false →
  render_form model_class (Some obj) framework exclude_fields action method
  = render_form model_class (Some (<[k := Py.Attr (Py.VStr "")]> obj))
      framework exclude_fields action method.
Proof.
  intros Hk Hv.
  assert (∀ fw, fields_html fw model_class (Some obj) exclude_fields
                = fields_html fw model_class
                    (Some (<[k := Py.Attr (Py.VStr "")]> obj)) exclude_fields)
    as Hblocks.
  { intros fw. unfold fields_html. apply omap_pointwise. intros f.
    unfold field_html. destruct (get_field model_class (name f)) as [g|e];
      [|done].
    cbn [mbind Py.result_bind].
    match goal with
    | |- match ?x with _ => _ end = match ?y with _ => _ end =>
        replace x with y; [done|]
    end.
    symmetry. apply form_field_html_by_value; [done..|]. cbn [fo_value].
    by apply (current_value_of_falsy obj k (name f) v). }
  unfold render_form. by rewrite Hblocks.
Qed.

Lemma falsy_value_renders_empty_witness :
  render_form stock (Some (crate (Py.VInt 0))) "bootstrap" None "" "POST"
  = render_form stock (Some (crate (Py.VStr ""))) "bootstrap" None ""
      "POST".
Proof.
  apply (falsy_value_renders_empty stock (crate (Py.VInt 0)) "bootstrap"
           None "" "POST" "quantity" (Py.VInt 0)); reflexivity.
Defined.

End FormsMore.
